(** * Verification of the diagnosis engine (engine.py, data_manager.py,
    database.py, models.py, utils.py)

    A shallow embedding of the matching/scoring engine, of its result
    cache, of the loaders of the catalog with the file-content cache, and
    of the database of patients and diagnoses, with the properties of the
    specification, and further properties of the code, stated and proved
    over it.

    The catalog is embedded in its format.  A condition has a list of
    symptom entries; an entry is a dict, whose keys ["s"] and ["peso"] may
    be missing, with a string as its name and any value as its weight
    (given by what [float()] makes of it), or it is another value (given
    by its [str()]).  The conditions of a condition are a dict that has a
    list of strings under ["sintomas_obrigatorios"] and an integer under
    ["min_sintomas"], when it has these keys.  In the file, ["doencas"] is
    a dict whose sections are lists.  A string is a Python string that has
    a UTF-8 form, and is given by it.  Values of other types at these
    places (a [null] for the conditions, a number for a name) are not in
    the embedding: the statements are about catalogs in this format. *)

From Stdlib Require Import ZArith Lia List Bool Ascii String Permutation Sorted.
From stdpp Require Import base gmap strings list.

Local Open Scope Z_scope.

(* ===================================================================== *)
(** * Python floats: IEEE-754 binary64                                    *)
(* ===================================================================== *)

(** Every finite binary64 number is an integer multiple of [2^-1074] (the
    smallest subnormal), so a finite float is kept as that integer:
    [Fin z] stands for [z * 2^-1074].  The two zeros are identified; they
    compare equal in every test the engine performs.  Arithmetic is the
    IEEE-754 one: the exact result, rounded to nearest with ties to even
    on a 53-bit significand, overflowing to an infinity. *)
Module F64.

Inductive float : Type :=
  | Fin (z : Z)
  | PInf
  | NInf
  | NaN.

(** [1.0] counted in units of [2^-1074]. *)
Definition one_ulps : Z := 2 ^ 1074.
(** [2^1024] counted in units of [2^-1074]: the first magnitude that is
    not finite any more. *)
Definition overflow_ulps : Z := 2 ^ 2098.

(** The quotient [a / b] ([0 < b]) rounded to the nearest integer, ties to
    the even one. *)
Definition rhe (a b : Z) : Z :=
  let q := a / b in
  let r := a mod b in
  match 2 * r ?= b with
  | Lt => q
  | Gt => q + 1
  | Eq => if Z.even q then q else q + 1
  end.

(** How many low bits of the quotient [a / b] do not fit a 53-bit
    significand. *)
Definition shift_of (a b : Z) : Z := Z.max 0 (Z.log2 (Z.abs a / b) - 52).

(** The rational [a / b] ([0 < b]), counted in units of [2^-1074],
    rounded to binary64 with its significand kept as an integer. *)
Definition round_core (a b : Z) : Z :=
  let k := shift_of a b in rhe a (b * 2 ^ k) * 2 ^ k.

Definition of_ulps (z : Z) : float :=
  if overflow_ulps <=? z then PInf
  else if z <=? - overflow_ulps then NInf
  else Fin z.

Definition round_q (a b : Z) : float := of_ulps (round_core a b).

(** The float nearest to the decimal [num / den], as a literal is read. *)
Definition of_dec (num den : Z) : float := round_q (num * one_ulps) den.
Definition of_Z (n : Z) : float := of_dec n 1.

Definition zero : float := Fin 0.

Definition add (x y : float) : float :=
  match x, y with
  | NaN, _ | _, NaN => NaN
  | PInf, NInf | NInf, PInf => NaN
  | PInf, _ | _, PInf => PInf
  | NInf, _ | _, NInf => NInf
  | Fin a, Fin b => round_q (a + b) 1
  end.

Definition opp (x : float) : float :=
  match x with
  | Fin a => Fin (- a)
  | PInf => NInf
  | NInf => PInf
  | NaN => NaN
  end.

Definition sub (x y : float) : float := add x (opp y).

Definition sgn_inf (positive : bool) : float := if positive then PInf else NInf.

Definition mul (x y : float) : float :=
  match x, y with
  | NaN, _ | _, NaN => NaN
  | Fin a, Fin b => round_q (a * b) one_ulps
  | Fin a, PInf | PInf, Fin a =>
      if a =? 0 then NaN else sgn_inf (0 <? a)
  | Fin a, NInf | NInf, Fin a =>
      if a =? 0 then NaN else sgn_inf (a <? 0)
  | PInf, PInf | NInf, NInf => PInf
  | PInf, NInf | NInf, PInf => NInf
  end.

(** Division by a divisor that is not zero (Python raises on a zero one
    before the hardware is asked, see [py_truediv]). *)
Definition div (x y : float) : float :=
  match x, y with
  | NaN, _ | _, NaN => NaN
  | Fin a, Fin b => round_q (Z.sgn b * a * one_ulps) (Z.abs b)
  | Fin _, (PInf | NInf) => zero
  | PInf, Fin b => sgn_inf (0 <=? b)
  | NInf, Fin b => sgn_inf (b <? 0)
  | (PInf | NInf), (PInf | NInf) => NaN
  end.

Definition eqb (x y : float) : bool :=
  match x, y with
  | Fin a, Fin b => a =? b
  | PInf, PInf | NInf, NInf => true
  | _, _ => false
  end.

Definition ltb (x y : float) : bool :=
  match x, y with
  | NaN, _ | _, NaN => false
  | Fin a, Fin b => a <? b
  | NInf, (Fin _ | PInf) => true
  | Fin _, PInf => true
  | _, _ => false
  end.

Definition leb (x y : float) : bool :=
  match x, y with
  | NaN, _ | _, NaN => false
  | Fin a, Fin b => a <=? b
  | NInf, _ => true
  | _, PInf => true
  | _, _ => false
  end.

(** Python's [round(x, ndigits)] for [ndigits >= 0]: the exact value of
    [x] is rounded, ties to even, to [ndigits] decimals, and the float
    nearest to that decimal is returned; infinities and NaN are returned
    as they are. *)
Definition round (x : float) (ndigits : nat) : float :=
  match x with
  | Fin z =>
      let p := 10 ^ Z.of_nat ndigits in
      round_q (rhe (p * z) one_ulps * one_ulps) p
  | _ => x
  end.

Definition is_nan (x : float) : bool :=
  match x with NaN => true | _ => false end.

(** [x] does not exceed [y], or [y] is no number: what is left of an
    order between two results once an overflow may have made the later
    one [NaN]. *)
Definition le_or_nan (x y : float) : Prop :=
  is_nan y = true \/ leb x y = true.

(** What an accumulated sum of positive weights is: not negative, and a
    value of the format (or the infinity of an overflow). *)
Definition soma_valida (x : float) : Prop :=
  match x with
  | Fin z => 0 <= z /\ round_core z 1 = z
  | PInf => True
  | _ => False
  end.

End F64.


(* ===================================================================== *)
(** * hashlib.md5 (RFC 1321)                                              *)
(* ===================================================================== *)

Module MD5.

Definition w32 (x : Z) : Z := x mod 2 ^ 32.

Definition rotl (x c : Z) : Z :=
  w32 (Z.lor (Z.shiftl x c) (Z.shiftr x (32 - c))).

Definition not32 (x : Z) : Z := Z.lxor x (2 ^ 32 - 1).

Definition s_table : list Z :=
  [ 7; 12; 17; 22; 7; 12; 17; 22; 7; 12; 17; 22; 7; 12; 17; 22;
    5; 9; 14; 20; 5; 9; 14; 20; 5; 9; 14; 20; 5; 9; 14; 20;
    4; 11; 16; 23; 4; 11; 16; 23; 4; 11; 16; 23; 4; 11; 16; 23;
    6; 10; 15; 21; 6; 10; 15; 21; 6; 10; 15; 21; 6; 10; 15; 21 ].

Definition K_table : list Z :=
  [ 0xd76aa478; 0xe8c7b756; 0x242070db; 0xc1bdceee;
    0xf57c0faf; 0x4787c62a; 0xa8304613; 0xfd469501;
    0x698098d8; 0x8b44f7af; 0xffff5bb1; 0x895cd7be;
    0x6b901122; 0xfd987193; 0xa679438e; 0x49b40821;
    0xf61e2562; 0xc040b340; 0x265e5a51; 0xe9b6c7aa;
    0xd62f105d; 0x02441453; 0xd8a1e681; 0xe7d3fbc8;
    0x21e1cde6; 0xc33707d6; 0xf4d50d87; 0x455a14ed;
    0xa9e3e905; 0xfcefa3f8; 0x676f02d9; 0x8d2a4c8a;
    0xfffa3942; 0x8771f681; 0x6d9d6122; 0xfde5380c;
    0xa4beea44; 0x4bdecfa9; 0xf6bb4b60; 0xbebfbc70;
    0x289b7ec6; 0xeaa127fa; 0xd4ef3085; 0x04881d05;
    0xd9d4d039; 0xe6db99e5; 0x1fa27cf8; 0xc4ac5665;
    0xf4292244; 0x432aff97; 0xab9423a7; 0xfc93a039;
    0x655b59c3; 0x8f0ccc92; 0xffeff47d; 0x85845dd1;
    0x6fa87e4f; 0xfe2ce6e0; 0xa3014314; 0x4e0811a1;
    0xf7537e82; 0xbd3af235; 0x2ad7d2bb; 0xeb86d391 ].

Record state : Type := State { sa : Z; sb : Z; sc : Z; sd : Z }.

Definition init : state :=
  State 0x67452301 0xefcdab89 0x98badcfe 0x10325476.

(** One of the 64 operations of a block: [i] is its index, [m] the 16
    words of the block. *)
Definition step (m : list Z) (st : state) (i : nat) : state :=
  let '(State a b c d) := st in
  let iz := Z.of_nat i in
  let '(f, g) :=
    if iz <? 16 then (Z.lor (Z.land b c) (Z.land (not32 b) d), iz)
    else if iz <? 32 then
      (Z.lor (Z.land d b) (Z.land (not32 d) c), (5 * iz + 1) mod 16)
    else if iz <? 48 then (Z.lxor (Z.lxor b c) d, (3 * iz + 5) mod 16)
    else (Z.lxor c (Z.lor b (not32 d)), (7 * iz) mod 16) in
  let f' := w32 (f + a + nth i K_table 0 + nth (Z.to_nat g) m 0) in
  State d (w32 (b + rotl f' (nth i s_table 0))) b c.

(** Four bytes, least significant first, as one word; and back. *)
Definition word_of_bytes (bs : list Z) : Z :=
  fold_right (fun b acc => b + 256 * acc) 0 bs.

Fixpoint bytes_of_word (n : nat) (w : Z) : list Z :=
  match n with
  | O => []
  | S n' => w mod 256 :: bytes_of_word n' (w / 256)
  end.

Fixpoint words (n : nat) (bs : list Z) : list Z :=
  match n with
  | O => []
  | S n' => word_of_bytes (firstn 4 bs) :: words n' (skipn 4 bs)
  end.

Definition compress (st : state) (block : list Z) : state :=
  let m := words 16 block in
  let '(State a b c d) := fold_left (step m) (seq 0 64) st in
  State (w32 (sa st + a)) (w32 (sb st + b)) (w32 (sc st + c)) (w32 (sd st + d)).

Fixpoint blocks (n : nat) (bs : list Z) (st : state) : state :=
  match n with
  | O => st
  | S n' => blocks n' (skipn 64 bs) (compress st (firstn 64 bs))
  end.

Definition pad (bs : list Z) : list Z :=
  let len := Z.of_nat (length bs) in
  let zeros := Z.to_nat ((55 - len) mod 64) in
  bs ++ [128] ++ repeat 0 zeros ++ bytes_of_word 8 ((8 * len) mod 2 ^ 64).

Definition digest (bs : list Z) : list Z :=
  let p := pad bs in
  let '(State a b c d) := blocks (length p / 64)%nat p init in
  bytes_of_word 4 a ++ bytes_of_word 4 b ++ bytes_of_word 4 c
  ++ bytes_of_word 4 d.

Definition hex_digit (n : Z) : ascii :=
  if n <? 10 then ascii_of_N (Z.to_N (48 + n))
  else ascii_of_N (Z.to_N (87 + n)).

Definition hex_of_bytes (bs : list Z) : string :=
  fold_right
    (fun b acc => String (hex_digit (b / 16)) (String (hex_digit (b mod 16)) acc))
    EmptyString bs.

(** [str.encode()]: a string is kept as the bytes of its UTF-8 form. *)
Definition encode (s : string) : list Z :=
  map (fun c => Z.of_N (N_of_ascii c)) (list_ascii_of_string s).

(** [hashlib.md5(data).hexdigest()] *)
Definition hexdigest (s : string) : string := hex_of_bytes (digest (encode s)).

End MD5.

(* ===================================================================== *)
(** * The Python operations the engine uses                               *)
(* ===================================================================== *)

Inductive exn : Type :=
  | KeyError (key : string)
  | ValueError
  | TypeError
  | ZeroDivisionError
  | OverflowError.

(** A computation that returns a value or raises. *)
Inductive res (A : Type) : Type :=
  | Ok (a : A)
  | Raise (e : exn).
Arguments Ok {A} a.
Arguments Raise {A} e.

Definition bind {A B : Type} (c : res A) (k : A -> res B) : res B :=
  match c with
  | Ok a => k a
  | Raise e => Raise e
  end.

Notation "x <- c ;; k" := (bind c (fun x => k))
  (at level 100, c at next level, right associativity).

Fixpoint mapM {A B : Type} (f : A -> res B) (l : list A) : res (list B) :=
  match l with
  | [] => Ok []
  | a :: l' => b <- f a ;; bs <- mapM f l' ;; Ok (b :: bs)
  end.

Module Py.

(** [x in l] for a list of strings: equality with some element. *)
Definition contains (l : list string) (x : string) : bool :=
  existsb (String.eqb x) l.

(** [a / b] on floats. *)
Definition truediv (a b : F64.float) : res F64.float :=
  if F64.eqb b F64.zero then Raise ZeroDivisionError else Ok (F64.div a b).

(** [sorted(l)] for a list of strings.  Code points are compared, which
    on the UTF-8 form is the comparison of bytes.  The order is total and
    equal strings are indistinguishable, so every sorting algorithm
    returns this list. *)
Fixpoint insert_sorted (x : string) (l : list string) : list string :=
  match l with
  | [] => [x]
  | y :: l' => if String.leb x y then x :: y :: l' else y :: insert_sorted x l'
  end.

Definition sorted (l : list string) : list string :=
  fold_right insert_sorted [] l.

(** [sep.join(l)] *)
Definition join (sep : string) (l : list string) : string :=
  String.concat sep l.

(** [l[:n]] *)
Definition slice_to {A : Type} (n : Z) (l : list A) : list A :=
  if 0 <=? n then firstn (Z.to_nat n) l
  else firstn (Z.to_nat (Z.of_nat (length l) + n)) l.

(** [l.sort(key=key, reverse=True)]: the stable sort by descending key.
    An element goes in front of the first later element whose key is not
    greater than its own; on keys without NaN this is the one stable
    descending arrangement. *)
Fixpoint insert_desc {A : Type} (key : A -> F64.float) (x : A) (l : list A)
  : list A :=
  match l with
  | [] => [x]
  | y :: l' =>
      if F64.ltb (key x) (key y) then y :: insert_desc key x l'
      else x :: y :: l'
  end.

Definition sort_reverse {A : Type} (key : A -> F64.float) (l : list A)
  : list A :=
  fold_right (insert_desc key) [] l.

(** Descending order of the keys of two elements. *)
Definition desc {A : Type} (key : A -> F64.float) (a b : A) : Prop :=
  F64.leb (key b) (key a) = true.

(** A [dict] with string keys, in insertion order. *)
Definition dict (V : Type) : Type := list (string * V).

Fixpoint dict_get {V : Type} (k : string) (d : dict V) : option V :=
  match d with
  | [] => None
  | (k', v) :: d' => if String.eqb k k' then Some v else dict_get k d'
  end.

(** [d[k] = v]: an existing key keeps its place, a new one goes last. *)
Fixpoint dict_set {V : Type} (k : string) (v : V) (d : dict V) : dict V :=
  match d with
  | [] => [(k, v)]
  | (k', v') :: d' =>
      if String.eqb k k' then (k, v) :: d' else (k', v') :: dict_set k v d'
  end.

(** [del d[k]] for a key that is there. *)
Fixpoint dict_del {V : Type} (k : string) (d : dict V) : dict V :=
  match d with
  | [] => []
  | (k', v') :: d' =>
      if String.eqb k k' then d' else (k', v') :: dict_del k d'
  end.

(** [min(l, key=key)]: the first element with the least key; raises on
    an empty sequence. *)
Fixpoint min_from {A : Type} (key : A -> Z) (best : A) (l : list A) : A :=
  match l with
  | [] => best
  | x :: l' => min_from key (if key x <? key best then x else best) l'
  end.

Definition min_by {A : Type} (key : A -> Z) (l : list A) : res A :=
  match l with
  | [] => Raise ValueError
  | x :: l' => Ok (min_from key x l')
  end.

(** [x < n] for a float [x] and an int [n]: the exact values are
    compared. *)
Definition float_lt_int (x : F64.float) (n : Z) : bool :=
  match x with
  | F64.Fin z => z <? n * F64.one_ulps
  | F64.NInf => true
  | _ => false
  end.

(** ASCII letters of a string in lower case. *)
Definition lower_ascii (c : ascii) : ascii :=
  let n := N_of_ascii c in
  if ((65 <=? n) && (n <=? 90))%N then ascii_of_N (n + 32) else c.

Fixpoint lower (s : string) : string :=
  match s with
  | EmptyString => EmptyString
  | String c s' => String (lower_ascii c) (lower s')
  end.

End Py.

(* ===================================================================== *)
(** * config.py                                                           *)
(* ===================================================================== *)

Record Config : Type := {
  LIMITE_RESULTADOS : Z;
  PORCENTAGEM_MINIMA : F64.float;
  CACHE_TTL : Z;
  CACHE_MAX_SIZE : Z
}.

Definition CONFIG : Config := {|
  LIMITE_RESULTADOS := 50;
  PORCENTAGEM_MINIMA := F64.of_dec 50 10;
  CACHE_TTL := 300;
  CACHE_MAX_SIZE := 1000
|}.

(* ===================================================================== *)
(** * models.py: the catalog                                              *)
(* ===================================================================== *)

(** The value under ["peso"] of a symptom entry, by what [float()] makes of
    it: a number (a float, an integer in the range of the floats, a bool,
    a string that spells a number), or a value that [float()] rejects: with
    [TypeError] when it is of a wrong type ([null], a list), with
    [ValueError] when it is a string that is no number, and with
    [OverflowError] when it is an integer too large for a float. *)
Inductive peso_json : Type :=
  | PesoNum (f : F64.float)
  | PesoInvalido (tipo_errado : bool)
  | PesoForaDoLimite.

(** An element of [Doenca.sintomas] as the JSON file gives it: a dict,
    whose keys ["s"] and ["peso"] may be missing and which has a string
    under ["s"], or any other value, given by its [str()]. *)
Inductive sintoma_json : Type :=
  | SintomaDict (s : option string) (peso : option peso_json)
  | SintomaOutro (texto : string).

(** [Doenca.condicoes] in the catalog format: a dict read with [.get]
    and defaults, which has a list of strings under
    ["sintomas_obrigatorios"] and an integer under ["min_sintomas"] when
    it has these keys. *)
Record Condicoes : Type := {
  sintomas_obrigatorios : option (list string);
  min_sintomas : option Z
}.

(** [Doenca], in the catalog format: strings in the fields of text, a
    list of symptom entries and a dict of conditions. *)
Record Doenca : Type := {
  nome : string;
  tipo : string;
  categoria : string;
  descricao : string;
  tratamento : string;
  severidade : string;
  sintomas : list sintoma_json;
  condicoes : Condicoes
}.

(* ===================================================================== *)
(** * engine.py                                                           *)
(* ===================================================================== *)

(** [float(sintoma.get("peso", 1.0))] *)
Definition float_of_peso (peso : option peso_json) : res F64.float :=
  match peso with
  | None => Ok (F64.of_Z 1)
  | Some (PesoNum f) => Ok f
  | Some (PesoInvalido tipo_errado) =>
      Raise (if tipo_errado then TypeError else ValueError)
  | Some PesoForaDoLimite => Raise OverflowError
  end.

(** [sintoma["s"]] *)
Definition subscript_s (s : option string) : res string :=
  match s with
  | Some n => Ok n
  | None => Raise (KeyError "s")
  end.

Record ResultadoDiagnostico : Type := {
  doenca : Doenca;
  sintomas_selecionados : list string;
  sintomas_correspondentes : list string;
  sintomas_faltantes : list string;
  pontuacao_bruta : F64.float;
  pontuacao_maxima : F64.float;
  porcentagem : F64.float
}.

(** Body of the first loop of [_calcular] for one entry: its name and
    weight. *)
Definition nome_e_peso (sintoma : sintoma_json) : res (string * F64.float) :=
  match sintoma with
  | SintomaDict s peso =>
      nome <- subscript_s s ;;
      peso <- float_of_peso peso ;;
      Ok (nome, peso)
  | SintomaOutro texto => Ok (texto, F64.of_Z 1)
  end.

(** First loop of [_calcular]: fills the dict [sintomas_doenca] and
    accumulates [pontuacao_maxima]. *)
Fixpoint extrair_sintomas (l : list sintoma_json)
    (sintomas_doenca : Py.dict F64.float) (maxima : F64.float)
  : res (Py.dict F64.float * F64.float) :=
  match l with
  | [] => Ok (sintomas_doenca, maxima)
  | sintoma :: l' =>
      np <- nome_e_peso sintoma ;;
      extrair_sintomas l' (Py.dict_set (fst np) (snd np) sintomas_doenca)
        (F64.add maxima (snd np))
  end.

(** Second loop of [_calcular], over the items of the dict. *)
Fixpoint verificar_correspondencia (items : Py.dict F64.float)
    (selecionados : list string)
    (bruta : F64.float) (correspondentes faltantes : list string)
  : F64.float * list string * list string :=
  match items with
  | [] => (bruta, correspondentes, faltantes)
  | (nome_sintoma, peso) :: items' =>
      if Py.contains selecionados nome_sintoma
      then verificar_correspondencia items' selecionados
             (F64.add bruta peso) (correspondentes ++ [nome_sintoma]) faltantes
      else verificar_correspondencia items' selecionados
             bruta correspondentes (faltantes ++ [nome_sintoma])
  end.

(** The last statement of [_calcular]. *)
Definition calcular_porcentagem (bruta maxima : F64.float) : res F64.float :=
  if F64.ltb F64.zero maxima then
    q <- Py.truediv bruta maxima ;;
    Ok (F64.round (F64.mul q (F64.of_Z 100)) 1)
  else Ok F64.zero.

(** [ResultadoDiagnostico(doenca, sintomas_selecionados)]: the constructor
    with its call of [_calcular]. *)
Definition _calcular (d : Doenca) (selecionados : list string)
  : res ResultadoDiagnostico :=
  ex <- extrair_sintomas (sintomas d) [] F64.zero ;;
  let '(bruta, correspondentes, faltantes) :=
    verificar_correspondencia (fst ex) selecionados F64.zero [] [] in
  p <- calcular_porcentagem bruta (snd ex) ;;
  Ok {| doenca := d;
        sintomas_selecionados := selecionados;
        sintomas_correspondentes := correspondentes;
        sintomas_faltantes := faltantes;
        pontuacao_bruta := bruta;
        pontuacao_maxima := snd ex;
        porcentagem := p |}.

(** The dictionary that [to_dict] returns. *)
Record ResultadoDict : Type := {
  rd_doenca : string;
  rd_tipo : string;
  rd_categoria : string;
  rd_descricao : string;
  rd_tratamento : string;
  rd_severidade : string;
  rd_porcentagem : F64.float;
  rd_sintomas_correspondentes : list string;
  rd_sintomas_faltantes : list string;
  rd_pontuacao_bruta : F64.float;
  rd_pontuacao_maxima : F64.float
}.

Definition to_dict (r : ResultadoDiagnostico) : ResultadoDict := {|
  rd_doenca := nome (doenca r);
  rd_tipo := tipo (doenca r);
  rd_categoria := categoria (doenca r);
  rd_descricao := descricao (doenca r);
  rd_tratamento := tratamento (doenca r);
  rd_severidade := severidade (doenca r);
  rd_porcentagem := porcentagem r;
  rd_sintomas_correspondentes := sintomas_correspondentes r;
  rd_sintomas_faltantes := sintomas_faltantes r;
  rd_pontuacao_bruta := F64.round (pontuacao_bruta r) 2;
  rd_pontuacao_maxima := F64.round (pontuacao_maxima r) 2
|}.

(** [s["s"] if isinstance(s, dict) else str(s)] *)
Definition nome_de (s : sintoma_json) : res string :=
  match s with
  | SintomaDict s _ => subscript_s s
  | SintomaOutro texto => Ok texto
  end.

Definition _verificar_condicoes (d : Doenca) (sintomas_q : list string)
  : res bool :=
  let obrigatorios := default [] (sintomas_obrigatorios (condicoes d)) in
  if negb (forallb (Py.contains sintomas_q) obrigatorios) then Ok false
  else
    let min := default 0 (min_sintomas (condicoes d)) in
    if 0 <? min then
      sintomas_doenca <- mapM nome_de (sintomas d) ;;
      let comuns := List.filter (Py.contains sintomas_q) sintomas_doenca in
      if Z.of_nat (length comuns) <? min then Ok false else Ok true
    else Ok true.

Definition _gerar_cache_key (sintomas_q : list string) : string :=
  MD5.hexdigest (Py.join "," (Py.sorted sintomas_q)).

Record DiagnosticoEngine : Type := {
  db_doencas : list Doenca;
  cache : gmap string (list ResultadoDict)
}.

(** [DiagnosticoEngine(database)] *)
Definition novo_engine (doencas : list Doenca) : DiagnosticoEngine :=
  {| db_doencas := doencas; cache := ∅ |}.

(** The loop of [avaliar] over the catalog. *)
Fixpoint avaliar_doencas (cfg : Config) (doencas : list Doenca)
    (sintomas_q : list string) (resultados : list ResultadoDict)
  : res (list ResultadoDict) :=
  match doencas with
  | [] => Ok resultados
  | d :: doencas' =>
      ok <- _verificar_condicoes d sintomas_q ;;
      if negb ok then avaliar_doencas cfg doencas' sintomas_q resultados
      else
        resultado <- _calcular d sintomas_q ;;
        if F64.leb (PORCENTAGEM_MINIMA cfg) (porcentagem resultado)
        then avaliar_doencas cfg doencas' sintomas_q
               (resultados ++ [to_dict resultado])
        else avaliar_doencas cfg doencas' sintomas_q resultados
  end.

(** [avaliar]: the results and the engine after the call, or the
    exception that leaves the call (the engine is then as before). *)
Definition avaliar (cfg : Config) (self : DiagnosticoEngine)
    (sintomas_q : list string)
  : res (list ResultadoDict * DiagnosticoEngine) :=
  match sintomas_q with
  | [] => Ok ([], self)
  | _ =>
      let cache_key := _gerar_cache_key sintomas_q in
      match cache self !! cache_key with
      | Some resultados => Ok (resultados, self)
      | None =>
          resultados <- avaliar_doencas cfg (db_doencas self) sintomas_q [] ;;
          let resultados := Py.sort_reverse rd_porcentagem resultados in
          let resultados := Py.slice_to (LIMITE_RESULTADOS cfg) resultados in
          Ok (resultados,
              {| db_doencas := db_doencas self;
                 cache := <[cache_key := resultados]> (cache self) |})
      end
  end.

Definition clear_cache (self : DiagnosticoEngine) : DiagnosticoEngine :=
  {| db_doencas := db_doencas self; cache := ∅ |}.

(** The engine over a catalog, with a cache. *)
Definition engine_de (doencas : list Doenca)
    (c : gmap string (list ResultadoDict)) : DiagnosticoEngine :=
  {| db_doencas := doencas; cache := c |}.

(** ** The scorer in the words of the specification *)

(** The entries of a condition, each with its name and its weight, when
    every entry has both. *)
Definition entradas (d : Doenca) : res (list (string * F64.float)) :=
  mapM nome_e_peso (sintomas d).


(** The dict that the first loop of [_calcular] makes of the entries [es],
    starting from [sd]. *)
Definition dict_of (es sd : Py.dict F64.float) : Py.dict F64.float :=
  fold_left (fun acc e => Py.dict_set (fst e) (snd e) acc) es sd.

(** An entry with a weight [> 0]. *)
Definition peso_positivo (e : string * F64.float) : Prop :=
  F64.ltb F64.zero (snd e) = true.

(** A result, mapped. *)
Definition res_map {A B : Type} (f : A -> B) (c : res A) : res B :=
  match c with
  | Ok a => Ok (f a)
  | Raise e => Raise e
  end.

(** A sum, accumulated from [0.0] in the order of the list. *)
Definition soma (ws : list F64.float) : F64.float :=
  fold_left F64.add ws F64.zero.

Definition spec_max_score (es : list (string * F64.float)) : F64.float :=
  soma (map snd es).

Definition spec_raw_score (es : list (string * F64.float)) (q : list string)
  : F64.float :=
  soma (map snd (List.filter (fun e => Py.contains q (fst e)) es)).

Definition spec_matched (es : list (string * F64.float)) (q : list string)
  : list string :=
  List.filter (Py.contains q) (map fst es).

Definition spec_missing (es : list (string * F64.float)) (q : list string)
  : list string :=
  List.filter (fun n => negb (Py.contains q n)) (map fst es).

(** [round(100 * raw_score / max_score, 1)] *)
Definition spec_percentage (raw max : F64.float) : F64.float :=
  F64.round (F64.div (F64.mul (F64.of_Z 100) raw) max) 1.

(** [round((raw_score / max_score) * 100, 1)], the expression of
    [_calcular]. *)
Definition code_percentage (raw max : F64.float) : F64.float :=
  F64.round (F64.mul (F64.div raw max) (F64.of_Z 100)) 1.

(** ** The loop of [avaliar], branch by branch *)

(** What the loop of [avaliar] does with a catalog, as a relation: a
    condition that [_verificar_condicoes] rejects is passed over, one
    whose percentage by [_calcular] is below the minimum is dropped, and
    the result of any other is kept, in the order of the catalog.  The
    relation follows the code and serves the proofs. *)
Inductive mantidos (cfg : Config) (q : list string)
  : list Doenca -> list ResultadoDiagnostico -> Prop :=
  | mantidos_nil : mantidos cfg q [] []
  | mantidos_inelegivel d ds rs :
      _verificar_condicoes d q = Ok false ->
      mantidos cfg q ds rs ->
      mantidos cfg q (d :: ds) rs
  | mantidos_abaixo d ds r rs :
      _verificar_condicoes d q = Ok true ->
      _calcular d q = Ok r ->
      F64.leb (PORCENTAGEM_MINIMA cfg) (porcentagem r) = false ->
      mantidos cfg q ds rs ->
      mantidos cfg q (d :: ds) rs
  | mantidos_resultado d ds r rs :
      _verificar_condicoes d q = Ok true ->
      _calcular d q = Ok r ->
      F64.leb (PORCENTAGEM_MINIMA cfg) (porcentagem r) = true ->
      mantidos cfg q ds rs ->
      mantidos cfg q (d :: ds) (r :: rs).

(** ** The engine in the words of the specification *)

(** A condition that the eligibility filter excludes, as the code counts:
    a required symptom is not in the query, or the minimum overlap is
    positive and fewer of the condition's symptom entries than that have
    their name in the query, a name that the condition lists more than
    once being counted each time. *)
Definition inelegivel (d : Doenca) (q : list string) : Prop :=
  (exists o, In o (default [] (sintomas_obrigatorios (condicoes d)))
             /\ ~ In o q)
  \/ (0 < default 0 (min_sintomas (condicoes d))
      /\ exists nomes, mapM nome_de (sintomas d) = Ok nomes
           /\ Z.of_nat (length (List.filter (Py.contains q) nomes))
              < default 0 (min_sintomas (condicoes d))).

(** A condition that the eligibility filter excludes, in the words of the
    specification: a required symptom is not in the query, or the minimum
    overlap is positive and fewer of the condition's own symptom names
    than that are in the query, each name counted once. *)
Definition spec_inelegivel (d : Doenca) (q : list string) : Prop :=
  (exists o, In o (default [] (sintomas_obrigatorios (condicoes d)))
             /\ ~ In o q)
  \/ (0 < default 0 (min_sintomas (condicoes d))
      /\ exists nomes, mapM nome_de (sintomas d) = Ok nomes
           /\ Z.of_nat (length (List.filter (Py.contains q)
                                  (nodup string_dec nomes)))
              < default 0 (min_sintomas (condicoes d))).

(** The name and the weight of a symptom entry of the data model: an
    entry with a name and a numeric weight, an entry with a name and no
    weight, which counts 1.0, or a bare value, whose text is the name and
    which counts 1.0. *)
Definition spec_entrada (s : sintoma_json) : option (string * F64.float) :=
  match s with
  | SintomaDict (Some n) (Some (PesoNum w)) => Some (n, w)
  | SintomaDict (Some n) None => Some (n, F64.of_Z 1)
  | SintomaOutro texto => Some (texto, F64.of_Z 1)
  | _ => None
  end.

(** The symptoms of a condition, each with its name and weight. *)
Definition spec_sintomas (d : Doenca) : list (string * F64.float) :=
  omap spec_entrada (sintomas d).

(** No string of the list occurs twice. *)
Fixpoint sem_repeticao (l : list string) : bool :=
  match l with
  | [] => true
  | x :: l' => negb (Py.contains l' x) && sem_repeticao l'
  end.

(** A condition all of whose symptom entries can be read: each has a
    name and a weight. *)
Definition spec_legivel (d : Doenca) : bool :=
  forallb (fun s => match spec_entrada s with Some _ => true | None => false end)
    (sintomas d).

(** A condition of the data model: every symptom entry has a name and a
    weight, and no two entries have the same name. *)
Definition spec_regular (d : Doenca) : bool :=
  spec_legivel d && sem_repeticao (map fst (spec_sintomas d)).

(** The Eligibility Filter: every required symptom is in the query, and
    when the minimum overlap is positive, at least that many of the
    condition's own symptom names are in the query. *)
Definition spec_elegivel (d : Doenca) (q : list string) : bool :=
  forallb (Py.contains q) (default [] (sintomas_obrigatorios (condicoes d)))
  && (let min := default 0 (min_sintomas (condicoes d)) in
      if 0 <? min
      then min <=? Z.of_nat (length (List.filter (Py.contains q)
                                       (nodup string_dec
                                          (map fst (spec_sintomas d)))))
      else true).

(** The output record of a condition for a query: the fields of the
    condition, the percentage, the matched and the missing names, and the
    raw and the maximum score rounded to two decimals.  [pct] is the
    formula of the percentage. *)
Definition spec_resultado (pct : F64.float -> F64.float -> F64.float)
    (d : Doenca) (q : list string) : ResultadoDict :=
  let es := spec_sintomas d in
  {| rd_doenca := nome d;
     rd_tipo := tipo d;
     rd_categoria := categoria d;
     rd_descricao := descricao d;
     rd_tratamento := tratamento d;
     rd_severidade := severidade d;
     rd_porcentagem :=
       if F64.ltb F64.zero (spec_max_score es)
       then pct (spec_raw_score es q) (spec_max_score es)
       else F64.zero;
     rd_sintomas_correspondentes := spec_matched es q;
     rd_sintomas_faltantes := spec_missing es q;
     rd_pontuacao_bruta := F64.round (spec_raw_score es q) 2;
     rd_pontuacao_maxima := F64.round (spec_max_score es) 2 |}.

(** What an evaluation keeps of a catalog: the output records of the
    eligible conditions whose percentage is at least the minimum, in the
    order of the catalog. *)
Definition spec_mantidos (pct : F64.float -> F64.float -> F64.float)
    (cfg : Config) (ds : list Doenca) (q : list string)
  : list ResultadoDict :=
  List.filter
    (fun x => F64.leb (PORCENTAGEM_MINIMA cfg) (rd_porcentagem x))
    (map (fun d => spec_resultado pct d q)
       (List.filter (fun d => spec_elegivel d q) ds)).

(** Descending order of the percentages of two results. *)
Definition porcentagem_desc (a b : ResultadoDict) : Prop :=
  F64.leb (rd_porcentagem b) (rd_porcentagem a) = true.

(** The results of a list that have the percentage [p], in their order. *)
Definition com_porcentagem (p : F64.float) (l : list ResultadoDict)
  : list ResultadoDict :=
  List.filter (fun x => F64.eqb (rd_porcentagem x) p) l.

(* ===================================================================== *)
(** * data_manager.py: the loader's cache                                 *)
(* ===================================================================== *)

Module DataManager.

Record CacheEntry (A : Type) : Type := {
  data : A;
  timestamp : F64.float;
  hits : Z
}.
Arguments data {A} _.
Arguments timestamp {A} _.
Arguments hits {A} _.

Record t (A : Type) : Type := {
  cache : Py.dict (CacheEntry A);
  cache_ttl : Z;
  cache_max_size : Z
}.
Arguments cache {A} _.
Arguments cache_ttl {A} _.
Arguments cache_max_size {A} _.

Definition with_cache {A : Type} (self : t A) (c : Py.dict (CacheEntry A))
  : t A :=
  {| cache := c;
     cache_ttl := cache_ttl self;
     cache_max_size := cache_max_size self |}.

(** [DataManager()] under a configuration. *)
Definition novo {A : Type} (cfg : Config) : t A :=
  {| cache := [];
     cache_ttl := CACHE_TTL cfg;
     cache_max_size := CACHE_MAX_SIZE cfg |}.

(** [_get_from_cache]; [now] is what [time.time()] returns. *)
Definition _get_from_cache {A : Type} (now : F64.float) (self : t A)
    (key : string) : option A * t A :=
  match Py.dict_get key (cache self) with
  | Some entry =>
      if Py.float_lt_int (F64.sub now (timestamp entry)) (cache_ttl self)
      then
        (Some (data entry),
         with_cache self
           (Py.dict_set key
              {| data := data entry;
                 timestamp := timestamp entry;
                 hits := hits entry + 1 |}
              (cache self)))
      else (None, with_cache self (Py.dict_del key (cache self)))
  | None => (None, self)
  end.

(** [_save_to_cache]; [now] is what [time.time()] returns. *)
Definition _save_to_cache {A : Type} (now : F64.float) (self : t A)
    (key : string) (d : A) : res (t A) :=
  kept <-
    (if Z.of_nat (length (cache self)) >=? cache_max_size self then
       lru <- Py.min_by (fun kv => hits (snd kv)) (cache self) ;;
       Ok (Py.dict_del (fst lru) (cache self))
     else Ok (cache self)) ;;
  Ok (with_cache self
        (Py.dict_set key {| data := d; timestamp := now; hits := 1 |} kept)).

Definition clear_cache {A : Type} (self : t A) : t A := with_cache self [].

(** The size bound: the cache is a dict (no key twice) of at most
    [cache_max_size] entries. *)
Definition limitado {A : Type} (self : t A) : Prop :=
  List.NoDup (map fst (cache self))
  /\ Z.of_nat (length (cache self)) <= cache_max_size self.

End DataManager.

(* ===================================================================== *)
(** * Catalogs of the scenarios                                           *)
(* ===================================================================== *)

(** An entry [{"s": n, "peso": peso}]. *)
Definition sintoma (n : string) (peso : F64.float) : sintoma_json :=
  SintomaDict (Some n) (Some (PesoNum peso)).

(** [Doenca.from_dict] of a record that gives a name, symptoms and
    conditions, the other fields being defaulted. *)
Definition doenca_de (n : string) (ss : list sintoma_json) (c : Condicoes)
  : Doenca :=
  {| nome := n; tipo := "físico"; categoria := "fisica"; descricao := "";
     tratamento := ""; severidade := "moderada";
     sintomas := ss; condicoes := c |}.

Definition sem_condicoes : Condicoes :=
  {| sintomas_obrigatorios := None; min_sintomas := None |}.

(** Scenario 1: [Flu = {fever: 1.0, cough: 1.0, fatigue: 0.5}]. *)
Definition flu : Doenca :=
  doenca_de "Flu"
    [sintoma "fever" (F64.of_Z 1); sintoma "cough" (F64.of_Z 1);
     sintoma "fatigue" (F64.of_dec 5 10)]
    sem_condicoes.

(** Scenario 2: [Rare = {a: 1.0}] with [b] required. *)
Definition rare : Doenca :=
  doenca_de "Rare" [sintoma "a" (F64.of_Z 1)]
    {| sintomas_obrigatorios := Some ["b"%string]; min_sintomas := None |}.

(** The record of Rare in an earlier catalog, where it required no
    symptom. *)
Definition rare_antes : Doenca :=
  doenca_de "Rare" [sintoma "a" (F64.of_Z 1)] sem_condicoes.

(** A condition that lists one symptom twice. *)
Definition repetida : Doenca :=
  doenca_de "Repetida"
    [sintoma "a" (F64.of_Z 1); sintoma "a" (F64.of_Z 2)] sem_condicoes.

(** A condition that lists one symptom twice and asks for an overlap of
    two symptoms. *)
Definition dupla : Doenca :=
  doenca_de "Dupla"
    [sintoma "a" (F64.of_Z 1); sintoma "a" (F64.of_Z 1)]
    {| sintomas_obrigatorios := None; min_sintomas := Some 2 |}.

(** A condition whose score for the query [["x"]] is 11.5 out of 40. *)
Definition empate : Doenca :=
  doenca_de "Empate"
    [sintoma "x" (F64.of_dec 115 10); sintoma "y" (F64.of_dec 285 10)]
    sem_condicoes.

(** The configuration of config.py with a cache of one entry. *)
Definition config_cache_1 : Config := {|
  LIMITE_RESULTADOS := 50;
  PORCENTAGEM_MINIMA := F64.of_dec 50 10;
  CACHE_TTL := 300;
  CACHE_MAX_SIZE := 1
|}.

(** Scenario 3: a minimum percentage of 50.0, and a condition that scores
    40.0 when Flu scores 80.0. *)
Definition config_min_50 : Config := {|
  LIMITE_RESULTADOS := 50;
  PORCENTAGEM_MINIMA := F64.of_Z 50;
  CACHE_TTL := 300;
  CACHE_MAX_SIZE := 1000
|}.

Definition quarenta : Doenca :=
  doenca_de "Quarenta"
    [sintoma "p" (F64.of_Z 2); sintoma "r" (F64.of_Z 3)] sem_condicoes.

(** A record whose only symptom entry has no name. *)
Definition malformada : Doenca :=
  doenca_de "Malformada" [SintomaDict None None] sem_condicoes.

(** A minimum percentage of 28.8. *)
Definition config_min_288 : Config := {|
  LIMITE_RESULTADOS := 50;
  PORCENTAGEM_MINIMA := F64.of_dec 288 10;
  CACHE_TTL := 300;
  CACHE_MAX_SIZE := 1000
|}.

(** A limit of two results and a minimum percentage of 50.0. *)
Definition config_limite_2 : Config := {|
  LIMITE_RESULTADOS := 2;
  PORCENTAGEM_MINIMA := F64.of_Z 50;
  CACHE_TTL := 300;
  CACHE_MAX_SIZE := 1000
|}.

(** A catalog on which the filter, the minimum, the order of equal
    percentages and the limit all show. *)
Definition catalogo_misto : list Doenca :=
  [quarenta; flu; rare;
   doenca_de "B" (sintomas flu) sem_condicoes;
   doenca_de "C" [sintoma "fever" (F64.of_Z 1)] sem_condicoes].

(* ===================================================================== *)
(** * utils.py                                                            *)
(* ===================================================================== *)

(** [x >= n] for a float [x] and an int [n]: the exact values are
    compared. *)
Definition float_ge_int (x : F64.float) (n : Z) : bool :=
  match x with
  | F64.Fin z => n * F64.one_ulps <=? z
  | F64.PInf => true
  | _ => false
  end.

Definition porcentagem_cor (pct : F64.float) : string :=
  if float_ge_int pct 75 then "alta"
  else if float_ge_int pct 40 then "media"
  else "baixa".

(* ===================================================================== *)
(** * The JSON file of the catalog                                        *)
(* ===================================================================== *)

(** An element of a ["sintomas"] list of the file: a dict, whose keys
    ["s"], ["peso"] and ["tipo"] may be missing, or any other value, given
    by its [str()]. *)
Inductive sintoma_arquivo : Type :=
  | ArqDict (s : option string) (peso : option peso_json)
      (tipo_sintoma : option string)
  | ArqOutro (texto : string).

(** The same element as the engine reads it: the engine looks at ["s"]
    and ["peso"] only. *)
Definition sintoma_lido (x : sintoma_arquivo) : sintoma_json :=
  match x with
  | ArqDict s peso _ => SintomaDict s peso
  | ArqOutro texto => SintomaOutro texto
  end.

(** A record of a condition in the file, in the catalog format: a dict,
    any key of which may be missing, with strings under the keys of
    text, a list under ["sintomas"] and a dict of conditions under
    ["condicoes"]. *)
Record DoencaDict : Type := {
  k_doenca : option string;
  k_tipo : option string;
  k_categoria : option string;
  k_descricao : option string;
  k_tratamento : option string;
  k_severidade : option string;
  k_sintomas : option (list sintoma_arquivo);
  k_condicoes : option Condicoes
}.

(** An element of a section of the file: a dict or something else. *)
Inductive item_arquivo : Type :=
  | ItemDict (d : DoencaDict)
  | ItemOutro.

(** [data["doencas"]] in the catalog format: a dict with its two
    sections, each of which is a list and may be missing. *)
Record SecoesArquivo : Type := {
  fisicas : option (list item_arquivo);
  mentais : option (list item_arquivo)
}.

(** The parsed file: [None] when it has no key ["doencas"]. *)
Definition DadosArquivo : Type := option SecoesArquivo.

(** [d["tipo"] = tipo; d["categoria"] = categoria] *)
Definition marcar (tipo categoria : string) (d : DoencaDict) : DoencaDict :=
  {| k_doenca := k_doenca d;
     k_tipo := Some tipo;
     k_categoria := Some categoria;
     k_descricao := k_descricao d;
     k_tratamento := k_tratamento d;
     k_severidade := k_severidade d;
     k_sintomas := k_sintomas d;
     k_condicoes := k_condicoes d |}.

(** The section [nome] of the file, when ["doencas"] and the section are
    there: [if "doencas" in data and nome in data["doencas"]]. *)
Definition secao (proj : SecoesArquivo -> option (list item_arquivo))
    (data : DadosArquivo) : list item_arquivo :=
  match data with
  | Some secoes => default [] (proj secoes)
  | None => []
  end.

(** A parsed JSON text: an object, given by what the loaders read of it,
    or a value that is no object. *)
Inductive json_topo : Type :=
  | NaoObjeto
  | Objeto (data : DadosArquivo).

(** What reading and parsing the JSON file gives [carregar_banco]: no
    file, a text that is no JSON ([str(e)] of the [JSONDecodeError]),
    another exception ([str(e)]), or the parsed value. *)
Inductive leitura : Type :=
  | ArquivoAusente
  | JsonInvalido (detalhe : string)
  | ErroDeLeitura (detalhe : string)
  | Json (data : json_topo).

(** The messages of [carregar_banco] and of
    [Validator.validate_json_structure], by their kind and the text put
    into them:
    - [f"Arquivo {json_file} não encontrado"],
    - ["JSON deve ser um objeto"],
    - ["JSON deve conter chave 'doencas'"],
    - [f"Erro na formatação JSON: {str(e)}"],
    - [f"Erro ao carregar banco: {str(e)}"], for an exception of the
      reading, given by its text, or of the processing, given by the
      exception. *)
Inductive mensagem : Type :=
  | ArquivoNaoEncontrado (json_file : string)
  | JsonDeveSerObjeto
  | JsonDeveConterDoencas
  | ErroNaFormatacao (detalhe : string)
  | ErroAoCarregar (detalhe : string)
  | ErroAoCarregarExn (e : exn).

(** [Validator.validate_json_structure] (utils.py) *)
Definition validate_json_structure (data : json_topo)
  : bool * list mensagem :=
  match data with
  | NaoObjeto => (false, [JsonDeveSerObjeto])
  | Objeto None => (false, [JsonDeveConterDoencas])
  | Objeto (Some _) => (true, [])
  end.

(* ===================================================================== *)
(** * models.py: patients, diagnoses, and records of the file             *)
(* ===================================================================== *)

(** [Doenca.from_dict], on a record in the catalog format: [.get] with
    its default for a key that is missing. *)
Definition from_dict (data : DoencaDict) : Doenca :=
  {| nome := default "" (k_doenca data);
     tipo := default "físico" (k_tipo data);
     categoria := default "fisica" (k_categoria data);
     descricao := default "" (k_descricao data);
     tratamento := default "" (k_tratamento data);
     severidade := default "moderada" (k_severidade data);
     sintomas := map sintoma_lido (default [] (k_sintomas data));
     condicoes :=
       default {| sintomas_obrigatorios := None; min_sintomas := None |}
         (k_condicoes data) |}.

Module Paciente.

Record t : Type := {
  id : string;
  nome : string;
  data_nascimento : string;
  sexo : string;
  telefone : string;
  email : string;
  cpf : string;
  endereco : string;
  cidade : string;
  estado : string;
  cep : string;
  alergias : list string;
  medicamentos_uso : list string;
  doencas_cronicas : list string;
  cirurgias_previas : list string;
  historico_familiar : Py.dict string;
  observacoes : string;
  data_cadastro : string;
  data_atualizacao : string;
  ativo : bool
}.

End Paciente.

Module Diagnostico.

Record t : Type := {
  id : string;
  paciente_id : string;
  paciente_nome : string;
  sintomas : list string;
  data_hora : string;
  resultados : list ResultadoDict;
  top_resultado : string;
  top_porcentagem : F64.float
}.

(** [Diagnostico.criar_novo]; [novo_id] and [agora] are what the default
    factories of [id] and [data_hora] return.  The results are dicts of
    [to_dict], which have the keys ['doenca'] and ['porcentagem']. *)
Definition criar_novo (novo_id agora : string) (paciente : Paciente.t)
    (sintomas : list string) (resultados : list ResultadoDict) : t :=
  let top :=
    match resultados with
    | r :: _ => (rd_doenca r, rd_porcentagem r)
    | [] => ("Nenhum resultado"%string, F64.zero)
    end in
  {| id := novo_id;
     paciente_id := Paciente.id paciente;
     paciente_nome := Paciente.nome paciente;
     sintomas := sintomas;
     data_hora := agora;
     resultados := Py.slice_to 10 resultados;
     top_resultado := fst top;
     top_porcentagem := snd top |}.

End Diagnostico.

(* ===================================================================== *)
(** * database.py                                                         *)
(* ===================================================================== *)

Module Database.

Record t : Type := {
  pacientes : Py.dict Paciente.t;
  historico : list Diagnostico.t;
  doencas : list Doenca
}.


(** One loop of [_carregar_doencas] over a section: an element that is no
    dict makes the assignment of ["tipo"] raise, which the [try] of the
    loop body catches, and the loop goes on. *)
Fixpoint carregar_secao (tipo categoria : string) (l : list item_arquivo)
    (doencas : list Doenca) : list Doenca :=
  match l with
  | [] => doencas
  | ItemDict d :: l' =>
      carregar_secao tipo categoria l'
        (doencas ++ [from_dict (marcar tipo categoria d)])
  | ItemOutro :: l' => carregar_secao tipo categoria l' doencas
  end.

(** The two loops of [_carregar_doencas] on the parsed object: the
    catalog that they build. *)
Definition doencas_do_arquivo (data : DadosArquivo) : list Doenca :=
  let doencas := carregar_secao "físico" "fisica" (secao fisicas data) [] in
  carregar_secao "psicológico" "mental" (secao mentais data) doencas.

Definition com_doencas (self : t) (doencas : list Doenca) : t :=
  {| pacientes := pacientes self;
     historico := historico self;
     doencas := doencas |}.

(** [_carregar_doencas]: the database after the call; [arquivo] is what
    reading and parsing the file gives.  Without the file the call returns
    at once.  An exception of the reading or of the parsing is caught by
    the outer [except], which leaves an empty catalog.  A value that is no
    object leaves an empty catalog too: either both tests with [in] are
    false and nothing is appended to the list, which [self.doencas = []]
    has emptied, or a test or a subscript raises a [TypeError], which the
    outer [except] catches. *)
Definition _carregar_doencas (arquivo : leitura) (self : t) : t :=
  match arquivo with
  | ArquivoAusente => self
  | JsonInvalido _ => com_doencas self []
  | ErroDeLeitura _ => com_doencas self []
  | Json NaoObjeto => com_doencas self []
  | Json (Objeto data) => com_doencas self (doencas_do_arquivo data)
  end.

(** [if paciente.cpf: for existing in self.pacientes.values(): ...]: is
    there an active patient with the CPF of [paciente]? *)
Definition cpf_ja_cadastrado (self : t) (paciente : Paciente.t) : bool :=
  negb (String.eqb (Paciente.cpf paciente) "")
  && existsb
       (fun existing =>
          String.eqb (Paciente.cpf existing) (Paciente.cpf paciente)
          && Paciente.ativo existing)
       (map snd (pacientes self)).

(** The CPFs that this check compares with: those of the active
    patients, in the order of the dict, the empty ones left out. *)
Definition cpfs_ativos (pacientes : Py.dict Paciente.t) : list string :=
  map Paciente.cpf
    (List.filter
       (fun p => Paciente.ativo p && negb (String.eqb (Paciente.cpf p) ""))
       (map snd pacientes)).

(** [adicionar_paciente]; [salvou] is what [salvar_pacientes()] returns
    (whether the file was written).  The database after the call comes
    with the result; when the call raises it is as before. *)
Definition adicionar_paciente (salvou : bool) (self : t)
    (paciente : Paciente.t) : res (bool * t) :=
  if cpf_ja_cadastrado self paciente then Raise ValueError
  else
    Ok (salvou,
        {| pacientes :=
             Py.dict_set (Paciente.id paciente) paciente (pacientes self);
           historico := historico self;
           doencas := doencas self |}).

(** [adicionar_diagnostico]; [max_hist_itens] is
    [CONFIG["MAX_HIST_ITENS"]] and [salvou] is what [salvar_historico()]
    returns. *)
Definition adicionar_diagnostico (max_hist_itens : Z) (salvou : bool)
    (self : t) (diagnostico : Diagnostico.t) : bool * t :=
  let historico := diagnostico :: historico self in
  let historico :=
    if Z.of_nat (length historico) >? max_hist_itens
    then Py.slice_to max_hist_itens historico
    else historico in
  (salvou,
   {| pacientes := pacientes self;
      historico := historico;
      doencas := doencas self |}).

Definition obter_historico_paciente (self : t) (paciente_id : string)
  : list Diagnostico.t :=
  List.filter
    (fun d => String.eqb (Diagnostico.paciente_id d) paciente_id)
    (historico self).

(** A set of strings, as the list of its elements: [add] of an element
    that is there changes nothing. *)
Definition set_add (x : string) (s : list string) : list string :=
  if Py.contains s x then s else s ++ [x].

(** The inner loop of [obter_sintomas_unicos]. *)
Fixpoint coletar_sintomas (l : list sintoma_json) (sintomas_set : list string)
  : res (list string) :=
  match l with
  | [] => Ok sintomas_set
  | s :: l' =>
      n <- nome_de s ;;
      coletar_sintomas l' (set_add n sintomas_set)
  end.

(** The outer loop of [obter_sintomas_unicos]. *)
Fixpoint coletar_doencas (ds : list Doenca) (sintomas_set : list string)
  : res (list string) :=
  match ds with
  | [] => Ok sintomas_set
  | d :: ds' =>
      sintomas_set <- coletar_sintomas (sintomas d) sintomas_set ;;
      coletar_doencas ds' sintomas_set
  end.

(** [obter_sintomas_unicos], on a catalog in the catalog format: the
    names are strings, which a set takes and [sorted] compares.  The
    order in which a set gives its elements does not show in the result:
    [sorted] returns the same list for every arrangement of the same
    strings. *)
Definition obter_sintomas_unicos (self : t) : res (list string) :=
  sintomas_set <- coletar_doencas (doencas self) [] ;;
  Ok (Py.sorted sintomas_set).

End Database.

(* ===================================================================== *)
(** * data_manager.py: the loader                                         *)
(* ===================================================================== *)

Module Loader.

(** [doenca["tipo"]] *)
Definition subscript_tipo (doenca : DoencaDict) : res string :=
  match k_tipo doenca with
  | Some t => Ok t
  | None => Raise (KeyError "tipo")
  end.

(** Body of the loop of [_normalizar_doenca] over the symptoms. *)
Definition normalizar_sintoma (doenca : DoencaDict) (x : sintoma_arquivo)
  : res sintoma_arquivo :=
  match x with
  | ArqDict s peso tipo_sintoma =>
      let peso := default (PesoNum (F64.of_Z 1)) peso in
      t <- subscript_tipo doenca ;;
      Ok (ArqDict s (Some peso) (Some (default t tipo_sintoma)))
  | ArqOutro texto =>
      t <- subscript_tipo doenca ;;
      Ok (ArqDict (Some texto) (Some (PesoNum (F64.of_Z 1))) (Some t))
  end.

(** [_normalizar_doenca] on a record in the catalog format: the record
    after the call.  (When the call raises, the record it leaves half
    updated is not given.)  On such a record the loop over the list of
    the symptoms and the [setdefault] of the dict of the conditions do
    not raise; the subscript [doenca["tipo"]] can. *)
Definition _normalizar_doenca (doenca : DoencaDict) : res DoencaDict :=
  let descricao := default "" (k_descricao doenca) in
  let tratamento := default "" (k_tratamento doenca) in
  let severidade := default "moderada" (k_severidade doenca) in
  let condicoes :=
    default {| sintomas_obrigatorios := None; min_sintomas := None |}
      (k_condicoes doenca) in
  let sintomas := default [] (k_sintomas doenca) in
  sintomas_normalizados <- mapM (normalizar_sintoma doenca) sintomas ;;
  Ok {| k_doenca := k_doenca doenca;
        k_tipo := k_tipo doenca;
        k_categoria := k_categoria doenca;
        k_descricao := Some descricao;
        k_tratamento := Some tratamento;
        k_severidade := Some severidade;
        k_sintomas := Some sintomas_normalizados;
        k_condicoes :=
          Some {| sintomas_obrigatorios :=
                    Some (default [] (sintomas_obrigatorios condicoes));
                  min_sintomas :=
                    Some (default 0 (min_sintomas condicoes)) |} |}.

(** One loop of [_processar_dados] over a section. *)
Fixpoint processar_secao (tipo categoria : string) (l : list item_arquivo)
    (doencas : list DoencaDict) : res (list DoencaDict) :=
  match l with
  | [] => Ok doencas
  | ItemDict d :: l' =>
      n <- _normalizar_doenca (marcar tipo categoria d) ;;
      processar_secao tipo categoria l' (doencas ++ [n])
  | ItemOutro :: l' => processar_secao tipo categoria l' doencas
  end.

(** [_processar_dados] on the object of a file in the catalog format. *)
Definition _processar_dados (data : DadosArquivo) : res (list DoencaDict) :=
  doencas <- processar_secao "físico" "fisica" (secao fisicas data) [] ;;
  processar_secao "psicológico" "mental" (secao mentais data) doencas.

(** [carregar_banco]: what it returns and the loader after the call.
    [json_file] is the name of the file, [arquivo] what reading it gives,
    and [agora_get] and [agora_save] what [time.time()] returns in
    [_get_from_cache] and in [_save_to_cache]. *)
Definition carregar_banco (json_file : string)
    (agora_get agora_save : F64.float) (arquivo : leitura)
    (force_reload : bool) (self : DataManager.t (list DoencaDict))
  : (bool * list DoencaDict * list mensagem)
    * DataManager.t (list DoencaDict) :=
  let cache_key := "banco_dados"%string in
  let tentativa :=
    if force_reload then (None, self)
    else DataManager._get_from_cache agora_get self cache_key in
  match fst tentativa with
  | Some cached => ((true, cached, []), snd tentativa)
  | None =>
      let self := snd tentativa in
      match arquivo with
      | ArquivoAusente =>
          ((false, [], [ArquivoNaoEncontrado json_file]), self)
      | JsonInvalido detalhe => ((false, [], [ErroNaFormatacao detalhe]), self)
      | ErroDeLeitura detalhe => ((false, [], [ErroAoCarregar detalhe]), self)
      | Json data =>
          let '(is_valid, errors) := validate_json_structure data in
          if negb is_valid then ((false, [], errors), self)
          else
            let data :=
              match data with Objeto data => data | NaoObjeto => None end in
            match
              (doencas_processadas <- _processar_dados data ;;
               self' <- DataManager._save_to_cache agora_save self cache_key
                          doencas_processadas ;;
               Ok (doencas_processadas, self'))
            with
            | Ok (doencas_processadas, self') =>
                ((true, doencas_processadas, []), self')
            | Raise e => ((false, [], [ErroAoCarregarExn e]), self)
            end
      end
  end.

End Loader.

(** ** Records of the file for the examples *)

(** A well-formed record with one bare-string symptom and one without
    weight. *)
Definition gripe_arquivo : DoencaDict :=
  {| k_doenca := Some "Gripe"%string;
     k_tipo := None; k_categoria := None; k_descricao := None;
     k_tratamento := None; k_severidade := None;
     k_sintomas :=
       Some [ArqOutro "febre"; ArqDict (Some "tosse"%string) None None;
             ArqDict (Some "fadiga"%string)
               (Some (PesoNum (F64.of_dec 5 10))) None];
     k_condicoes := None |}.

(** The same record as the loader leaves it in the section of the
    physical conditions. *)
Definition gripe_normalizada : DoencaDict :=
  {| k_doenca := Some "Gripe"%string;
     k_tipo := Some "físico"%string;
     k_categoria := Some "fisica"%string;
     k_descricao := Some ""%string;
     k_tratamento := Some ""%string;
     k_severidade := Some "moderada"%string;
     k_sintomas :=
       Some [ArqDict (Some "febre"%string) (Some (PesoNum (F64.of_Z 1)))
               (Some "físico"%string);
             ArqDict (Some "tosse"%string) (Some (PesoNum (F64.of_Z 1)))
               (Some "físico"%string);
             ArqDict (Some "fadiga"%string)
               (Some (PesoNum (F64.of_dec 5 10))) (Some "físico"%string)];
     k_condicoes :=
       Some {| sintomas_obrigatorios := Some []; min_sintomas := Some 0 |} |}.

Definition arquivo_exemplo : DadosArquivo :=
  Some {| fisicas := Some [ItemDict gripe_arquivo; ItemOutro];
          mentais := None |}.

Definition paciente_de (pid n c : string) (a : bool) : Paciente.t :=
  {| Paciente.id := pid; Paciente.nome := n;
     Paciente.data_nascimento := ""; Paciente.sexo := "";
     Paciente.telefone := ""; Paciente.email := ""; Paciente.cpf := c;
     Paciente.endereco := ""; Paciente.cidade := ""; Paciente.estado := "";
     Paciente.cep := ""; Paciente.alergias := [];
     Paciente.medicamentos_uso := []; Paciente.doencas_cronicas := [];
     Paciente.cirurgias_previas := []; Paciente.historico_familiar := [];
     Paciente.observacoes := ""; Paciente.data_cadastro := "";
     Paciente.data_atualizacao := ""; Paciente.ativo := a |}.

Definition database_vazia : Database.t :=
  {| Database.pacientes := []; Database.historico := [];
     Database.doencas := [] |}.



(** A database with one active patient. *)
Definition database_ana : Database.t :=
  {| Database.pacientes :=
       [("p1"%string, paciente_de "p1" "Ana" "111.222.333-44" true)];
     Database.historico := [];
     Database.doencas := [flu] |}.

(** ** What the engine reads of a record *)

(** Two records of the catalog that the engine cannot tell apart: the
    same fields, symptom entries with the same names and weights (or the
    same failure), and conditions with the same values once the defaults
    of [.get] are applied. *)
Definition mesma_leitura (d1 d2 : Doenca) : Prop :=
  nome d1 = nome d2 /\ tipo d1 = tipo d2 /\ categoria d1 = categoria d2
  /\ descricao d1 = descricao d2 /\ tratamento d1 = tratamento d2
  /\ severidade d1 = severidade d2
  /\ map nome_e_peso (sintomas d1) = map nome_e_peso (sintomas d2)
  /\ map nome_de (sintomas d1) = map nome_de (sintomas d2)
  /\ default [] (sintomas_obrigatorios (condicoes d1))
     = default [] (sintomas_obrigatorios (condicoes d2))
  /\ default 0 (min_sintomas (condicoes d1))
     = default 0 (min_sintomas (condicoes d2)).






(** The new patient has a CPF, and an active patient of the database has
    the same. *)
Definition cpf_em_uso (self : Database.t) (p : Paciente.t) : Prop :=
  Paciente.cpf p <> ""%string
  /\ exists k existing,
       In (k, existing) (Database.pacientes self)
       /\ Paciente.cpf existing = Paciente.cpf p
       /\ Paciente.ativo existing = true.

(** The name that [Doenca.from_dict] reads of a record of the file. *)
Definition nome_do_registro (d : DoencaDict) : string :=
  default "" (k_doenca d).

(** ** The set of the symptom names *)

(** What the loops of [obter_sintomas_unicos] make of a set: the names
    of all entries are added to it, or the first entry without a name
    raises. *)
Definition coleta_certa (origem : list sintoma_json)
    (antes : list string) (c : res (list string)) : Prop :=
  match c with
  | Ok depois =>
      List.NoDup depois
      /\ (forall n, In n depois
                    <-> In n antes \/ exists x, In x origem /\ nome_de x = Ok n)
      /\ forall x, In x origem -> exists n, nome_de x = Ok n
  | Raise e =>
      e = KeyError "s"
      /\ exists x, In x origem /\ nome_de x = Raise (KeyError "s")
  end.

(** ** The cache of the engine *)

(** Every list of results in the cache is in descending order of the
    percentages, none of which is NaN. *)
Definition cache_ordenado (self : DiagnosticoEngine) : Prop :=
  forall k v, cache self !! k = Some v ->
    StronglySorted porcentagem_desc v
    /\ Forall (fun x => F64.is_nan (rd_porcentagem x) = false) v.

(* ===================================================================== *)
(** * Checks of the models on known values                                *)
(* ===================================================================== *)

Example f64_literals :
  F64.of_dec 5 10 = F64.Fin (2 ^ 1073) /\ F64.of_Z 1 = F64.Fin (2 ^ 1074).
Proof. split; vm_compute; reflexivity. Qed.

(** [round(0.25, 1) == 0.2], [round(0.35, 1) == 0.3] (the double below the
    decimal 0.35) and [round(2.675, 2) == 2.67]. *)
Example f64_round_ties :
  F64.round (F64.of_dec 25 100) 1 = F64.of_dec 2 10
  /\ F64.round (F64.of_dec 35 100) 1 = F64.of_dec 3 10
  /\ F64.round (F64.of_dec 2675 1000) 2 = F64.of_dec 267 100.
Proof. split; [| split]; vm_compute; reflexivity. Qed.

(** [0.1 + 0.2 != 0.3] and [1e308 + 1e308 == inf]. *)
Example f64_inexact_and_overflow :
  F64.eqb (F64.add (F64.of_dec 1 10) (F64.of_dec 2 10)) (F64.of_dec 3 10) = false
  /\ F64.add (F64.of_Z (10 ^ 308)) (F64.of_Z (10 ^ 308)) = F64.PInf.
Proof. split; vm_compute; reflexivity. Qed.

Example md5_rfc_vectors :
  MD5.hexdigest "" = "d41d8cd98f00b204e9800998ecf8427e"%string
  /\ MD5.hexdigest "abc" = "900150983cd24fb0d6963f7d28e17f72"%string
  /\ MD5.hexdigest "message digest" = "f96b697d7cb7938d525a2f31aaf161d0"%string
  /\ MD5.hexdigest
       "12345678901234567890123456789012345678901234567890123456789012345678901234567890"
     = "57edf4a22be3c955ac49da2e2107b67a"%string.
Proof. split; [| split; [| split]]; vm_compute; reflexivity. Qed.

Example sorted_join :
  Py.join "," (Py.sorted ["tosse"; "febre"; "dor"; "febre"])%string
  = "dor,febre,febre,tosse"%string.
Proof. reflexivity. Qed.

(* ===================================================================== *)
(** * Properties of the binary64 arithmetic                               *)
(* ===================================================================== *)

Module F64Facts.
Import F64.

Lemma one_ulps_pos : 0 < one_ulps.
Proof. unfold one_ulps. apply Z.pow_pos_nonneg; lia. Qed.

Lemma overflow_ulps_pos : 0 < overflow_ulps.
Proof. unfold overflow_ulps. apply Z.pow_pos_nonneg; lia. Qed.

(** ** Rounding a quotient to the nearest integer *)

Lemma rhe_mono (a a' b : Z) : 0 < b -> a <= a' -> rhe a b <= rhe a' b.
Proof.
  intros Hb Ha. unfold rhe.
  pose proof (Z.div_mod a b ltac:(lia)) as E.
  pose proof (Z.div_mod a' b ltac:(lia)) as E'.
  pose proof (Z.mod_pos_bound a b Hb) as B.
  pose proof (Z.mod_pos_bound a' b Hb) as B'.
  assert (Hq : a / b <= a' / b) by (apply Z.div_le_mono; lia).
  destruct (Z.eq_dec (a / b) (a' / b)) as [Heq | Hne].
  - rewrite <- Heq in *.
    assert (a mod b <= a' mod b) by nia.
    destruct (Z.compare_spec (2 * (a mod b)) b),
             (Z.compare_spec (2 * (a' mod b)) b);
      destruct (Z.even (a / b)); lia.
  - assert (a / b + 1 <= a' / b) by lia.
    destruct (Z.compare_spec (2 * (a mod b)) b),
             (Z.compare_spec (2 * (a' mod b)) b);
      destruct (Z.even (a / b)), (Z.even (a' / b)); lia.
Qed.

Lemma rhe_exact (n b : Z) : 0 < b -> rhe (n * b) b = n.
Proof.
  intros Hb. unfold rhe.
  rewrite Z.div_mul, Z.mod_mul by lia.
  destruct (Z.compare_spec (2 * 0) b); lia.
Qed.

Lemma rhe_opp (a b : Z) : 0 < b -> rhe (- a) b = - rhe a b.
Proof.
  intros Hb. unfold rhe.
  pose proof (Z.div_mod a b ltac:(lia)) as E.
  pose proof (Z.mod_pos_bound a b Hb) as B.
  destruct (Z.eq_dec (a mod b) 0) as [Hz | Hnz].
  - rewrite (Z.div_opp_l_z a b), (Z.mod_opp_l_z a b) by lia.
    rewrite Hz. destruct (Z.compare_spec (2 * 0) b); lia.
  - rewrite (Z.div_opp_l_nz a b), (Z.mod_opp_l_nz a b) by lia.
    assert (Hev : Z.even (- (a / b) - 1) = negb (Z.even (a / b))).
    { replace (- (a / b) - 1) with (- (a / b + 1)) by lia.
      rewrite Z.even_opp, Z.even_add. destruct (Z.even (a / b)); reflexivity. }
    rewrite Hev.
    destruct (Z.compare_spec (2 * (b - a mod b)) b),
             (Z.compare_spec (2 * (a mod b)) b);
      destruct (Z.even (a / b)); simpl; lia.
Qed.

Lemma rhe_nonneg (a b : Z) : 0 < b -> 0 <= a -> 0 <= rhe a b.
Proof.
  intros Hb Ha. replace 0 with (rhe (0 * b) b) at 1 by (apply rhe_exact; lia).
  apply rhe_mono; lia.
Qed.


(** ** The exponent of the rounding *)

Lemma shift_of_nonneg (a b : Z) : 0 <= shift_of a b.
Proof. unfold shift_of. lia. Qed.

Lemma shift_of_opp (a b : Z) : shift_of (- a) b = shift_of a b.
Proof. unfold shift_of. now rewrite Z.abs_opp. Qed.

Lemma shift_of_mono (a a' b : Z) :
  0 < b -> 0 <= a <= a' -> shift_of a b <= shift_of a' b.
Proof.
  intros Hb Ha. unfold shift_of.
  rewrite !Z.abs_eq by lia.
  assert (Z.log2 (a / b) <= Z.log2 (a' / b)).
  { apply Z.log2_le_mono, Z.div_le_mono; lia. }
  lia.
Qed.

Lemma shift_of_upper (a b : Z) :
  0 < b -> 0 <= a -> a < b * 2 ^ (shift_of a b + 53).
Proof.
  intros Hb Ha.
  pose proof (shift_of_nonneg a b) as Hk.
  assert (Hp : 0 < 2 ^ (shift_of a b + 53)) by (apply Z.pow_pos_nonneg; lia).
  pose proof (Z.div_mod a b ltac:(lia)) as E.
  pose proof (Z.mod_pos_bound a b Hb) as B.
  assert (Hd : 0 <= a / b) by (apply Z.div_pos; lia).
  assert (Hlt : a / b < 2 ^ (shift_of a b + 53)).
  { destruct (Z.eq_dec (a / b) 0) as [-> | Hnz]; [lia |].
    apply Z.log2_lt_pow2; [lia |].
    unfold shift_of. rewrite Z.abs_eq by lia. lia. }
  nia.
Qed.

Lemma shift_of_lower (a b : Z) :
  0 < b -> 0 <= a -> 0 < shift_of a b -> b * 2 ^ (shift_of a b + 52) <= a.
Proof.
  intros Hb Ha Hk.
  pose proof (Z.div_mod a b ltac:(lia)) as E.
  pose proof (Z.mod_pos_bound a b Hb) as B.
  assert (Hlog : Z.log2 (a / b) = shift_of a b + 52).
  { unfold shift_of in *. rewrite Z.abs_eq in * by lia. lia. }
  assert (Hd : 0 < a / b).
  { destruct (Z.le_gt_cases (a / b) 0) as [Hle | ?]; [| assumption].
    rewrite (Z.log2_nonpos _ Hle) in Hlog. lia. }
  assert (2 ^ (shift_of a b + 52) <= a / b).
  { apply Z.log2_le_pow2; lia. }
  nia.
Qed.

(** ** Rounding to binary64 is monotone and odd *)

Lemma round_core_opp (a b : Z) : 0 < b -> round_core (- a) b = - round_core a b.
Proof.
  intros Hb. unfold round_core. rewrite shift_of_opp.
  pose proof (shift_of_nonneg a b).
  assert (0 < 2 ^ shift_of a b) by (apply Z.pow_pos_nonneg; lia).
  rewrite rhe_opp by nia. lia.
Qed.

Lemma round_core_nonneg (a b : Z) : 0 < b -> 0 <= a -> 0 <= round_core a b.
Proof.
  intros Hb Ha. unfold round_core.
  pose proof (shift_of_nonneg a b).
  assert (0 < 2 ^ shift_of a b) by (apply Z.pow_pos_nonneg; lia).
  pose proof (rhe_nonneg a (b * 2 ^ shift_of a b) ltac:(nia) Ha). nia.
Qed.

Lemma round_core_mono_nonneg (a a' b : Z) :
  0 < b -> 0 <= a <= a' -> round_core a b <= round_core a' b.
Proof.
  intros Hb Ha. unfold round_core.
  pose proof (shift_of_nonneg a b) as Hk.
  pose proof (shift_of_mono a a' b Hb Ha) as Hkk.
  set (k := shift_of a b) in *. set (k' := shift_of a' b) in *.
  assert (Hp : 0 < 2 ^ k) by (apply Z.pow_pos_nonneg; lia).
  assert (Hp' : 0 < 2 ^ k') by (apply Z.pow_pos_nonneg; lia).
  destruct (Z.eq_dec k k') as [<- | Hne].
  - pose proof (rhe_mono a a' (b * 2 ^ k) ltac:(nia) ltac:(lia)). nia.
  - (* a power of two lies between: the first rounds below it, the second above *)
    assert (Hup : rhe a (b * 2 ^ k) <= 2 ^ 53).
    { rewrite <- (rhe_exact (2 ^ 53) (b * 2 ^ k)) by nia.
      apply rhe_mono; [nia |].
      pose proof (shift_of_upper a b Hb ltac:(lia)) as U. fold k in U.
      rewrite Z.pow_add_r in U by lia. nia. }
    assert (Hlow : 2 ^ 52 <= rhe a' (b * 2 ^ k')).
    { rewrite <- (rhe_exact (2 ^ 52) (b * 2 ^ k')) at 1 by nia.
      apply rhe_mono; [nia |].
      pose proof (shift_of_lower a' b Hb ltac:(lia) ltac:(fold k'; lia)) as L.
      fold k' in L. rewrite Z.pow_add_r in L by lia. nia. }
    assert (Hpow : 2 ^ 53 * 2 ^ k <= 2 ^ 52 * 2 ^ k').
    { rewrite <- !Z.pow_add_r by lia. apply Z.pow_le_mono_r; lia. }
    nia.
Qed.

Lemma round_core_mono (a a' b : Z) :
  0 < b -> a <= a' -> round_core a b <= round_core a' b.
Proof.
  intros Hb Ha.
  destruct (Z.le_gt_cases 0 a) as [H0 | H0].
  - apply round_core_mono_nonneg; lia.
  - destruct (Z.le_gt_cases 0 a') as [H0' | H0'].
    + pose proof (round_core_nonneg a' b Hb H0').
      pose proof (round_core_nonneg (- a) b Hb ltac:(lia)) as N.
      rewrite round_core_opp in N by lia. lia.
    + pose proof (round_core_mono_nonneg (- a') (- a) b Hb ltac:(lia)) as M.
      rewrite !round_core_opp in M by lia. lia.
Qed.

(** ** Rounded values are fixed points of the rounding *)

Lemma round_core_fix (n k : Z) :
  0 <= k -> 0 <= n <= 2 ^ 53 -> (0 < k -> 2 ^ 52 <= n) ->
  round_core (n * 2 ^ k) 1 = n * 2 ^ k.
Proof.
  intros Hk Hn Hnorm.
  assert (Hp : 0 < 2 ^ k) by (apply Z.pow_pos_nonneg; lia).
  assert (H52 : 0 < 2 ^ 52) by (apply Z.pow_pos_nonneg; lia).
  assert (H53 : 2 ^ 53 = 2 * 2 ^ 52) by (change 53 with (1 + 52); rewrite Z.pow_add_r by lia; reflexivity).
  unfold round_core, shift_of.
  rewrite Z.div_1_r, Z.abs_eq by nia.
  destruct (Z.eq_dec n 0) as [-> | Hn0].
  { rewrite Z.mul_0_l. reflexivity. }
  destruct (Z.eq_dec n (2 ^ 53)) as [-> | Hn53].
  { rewrite <- Z.pow_add_r by lia. rewrite Z.log2_pow2 by lia.
    replace (Z.max 0 (53 + k - 52)) with (k + 1) by lia.
    replace (2 ^ (53 + k)) with (2 ^ 52 * (1 * 2 ^ (k + 1))).
    - rewrite rhe_exact; [lia |]. assert (0 < 2 ^ (k + 1)) by (apply Z.pow_pos_nonneg; lia). lia.
    - rewrite Z.mul_1_l, <- Z.pow_add_r by lia. f_equal. lia. }
  rewrite Z.log2_mul_pow2 by lia.
  assert (Hlog : Z.log2 n <= 52).
  { assert (Z.log2 n < 53); [| lia]. apply Z.log2_lt_pow2; lia. }
  destruct (Z.eq_dec k 0) as [-> | Hk0].
  - replace (Z.max 0 (0 + Z.log2 n - 52)) with 0 by lia.
    change (2 ^ 0) with 1. rewrite !Z.mul_1_r.
    rewrite <- (Z.mul_1_r n) at 1. rewrite rhe_exact; lia.
  - assert (52 <= Z.log2 n) by (apply Z.log2_le_pow2; lia).
    replace (Z.max 0 (k + Z.log2 n - 52)) with k by lia.
    rewrite Z.mul_1_l, rhe_exact; lia.
Qed.

Lemma round_core_idem (a b : Z) :
  0 < b -> round_core (round_core a b) 1 = round_core a b.
Proof.
  intros Hb.
  assert (Hpos : forall a, 0 <= a ->
            round_core (round_core a b) 1 = round_core a b).
  { clear a. intros a Ha. unfold round_core at 2 3.
    pose proof (shift_of_nonneg a b) as Hk.
    set (k := shift_of a b) in *.
    assert (Hp : 0 < 2 ^ k) by (apply Z.pow_pos_nonneg; lia).
    apply round_core_fix; [lia | split |].
    - apply rhe_nonneg; [nia | lia].
    - rewrite <- (rhe_exact (2 ^ 53) (b * 2 ^ k)) by nia.
      apply rhe_mono; [nia |].
      pose proof (shift_of_upper a b Hb Ha) as U. fold k in U.
      rewrite Z.pow_add_r in U by lia. nia.
    - intros Hk0.
      rewrite <- (rhe_exact (2 ^ 52) (b * 2 ^ k)) at 1 by nia.
      apply rhe_mono; [nia |].
      pose proof (shift_of_lower a b Hb Ha ltac:(fold k; lia)) as L.
      fold k in L. rewrite Z.pow_add_r in L by lia. nia. }
  destruct (Z.le_gt_cases 0 a) as [H0 | H0]; [now apply Hpos |].
  specialize (Hpos (- a) ltac:(lia)).
  rewrite round_core_opp in Hpos by lia.
  rewrite round_core_opp in Hpos by lia. lia.
Qed.

(** ** The order on floats *)

Lemma leb_refl (x : float) : is_nan x = false -> leb x x = true.
Proof. destruct x; simpl; intros; try easy. apply Z.leb_refl. Qed.

Lemma leb_trans (x y z : float) :
  leb x y = true -> leb y z = true -> leb x z = true.
Proof.
  destruct x, y, z; simpl; intros H1 H2; try easy.
  apply Z.leb_le. apply Z.leb_le in H1, H2. lia.
Qed.

Lemma leb_not_nan (x y : float) :
  leb x y = true -> is_nan x = false /\ is_nan y = false.
Proof. destruct x, y; simpl; intros; easy. Qed.

Lemma ltb_false_leb (x y : float) :
  is_nan x = false -> is_nan y = false -> ltb x y = false -> leb y x = true.
Proof.
  destruct x, y; simpl; intros ? ? H; try easy.
  apply Z.leb_le. apply Z.ltb_ge in H. lia.
Qed.

Lemma leb_ltb_false (x y : float) : leb x y = true -> ltb y x = false.
Proof.
  destruct x, y; simpl; intros H; try easy.
  apply Z.ltb_ge. apply Z.leb_le in H. lia.
Qed.

Lemma ltb_leb (x y : float) : ltb x y = true -> leb x y = true.
Proof.
  destruct x, y; simpl; intros H; try easy.
  apply Z.leb_le. apply Z.ltb_lt in H. lia.
Qed.

Lemma ltb_zero_not_eqb (x : float) :
  ltb zero x = true -> eqb x zero = false.
Proof.
  destruct x; simpl; intros H; try easy.
  apply Z.eqb_neq. apply Z.ltb_lt in H. lia.
Qed.


(** ** Rounding, as an operation on floats *)

Lemma of_ulps_not_nan (z : Z) : is_nan (of_ulps z) = false.
Proof.
  unfold of_ulps.
  destruct (overflow_ulps <=? z); [reflexivity |].
  destruct (z <=? - overflow_ulps); reflexivity.
Qed.

Lemma of_ulps_mono (z z' : Z) : z <= z' -> leb (of_ulps z) (of_ulps z') = true.
Proof.
  intros Hz. pose proof overflow_ulps_pos as Hov. unfold of_ulps.
  destruct (Z.leb_spec overflow_ulps z), (Z.leb_spec overflow_ulps z'),
    (Z.leb_spec z (- overflow_ulps)), (Z.leb_spec z' (- overflow_ulps));
    simpl; try reflexivity; lia.
Qed.

Lemma round_q_mono (a a' b : Z) :
  0 < b -> a <= a' -> leb (round_q a b) (round_q a' b) = true.
Proof. intros. apply of_ulps_mono, round_core_mono; assumption. Qed.

Lemma round_q_not_nan (a b : Z) : is_nan (round_q a b) = false.
Proof. apply of_ulps_not_nan. Qed.

Lemma le_or_nan_ltb (x y : float) : le_or_nan x y -> ltb y x = false.
Proof.
  intros [H | H]; [destruct y, x; easy | now apply leb_ltb_false].
Qed.

Lemma le_or_nan_leb (x y : float) :
  le_or_nan x y -> is_nan y = false -> leb x y = true.
Proof. intros [H | H] Hy; [congruence | assumption]. Qed.

Lemma leb_PInf (x : float) : is_nan x = false -> leb x PInf = true.
Proof. destruct x; easy. Qed.

Lemma leb_NInf (x : float) : is_nan x = false -> leb NInf x = true.
Proof. destruct x; easy. Qed.

Lemma mul_le_or_nan (x y : float) (c : Z) :
  0 < c -> le_or_nan x y -> le_or_nan (mul x (Fin c)) (mul y (Fin c)).
Proof.
  intros Hc [H | H].
  - left. destruct y; easy.
  - right. assert (Hc0 : (c =? 0) = false) by lia.
    assert (Hcp : (0 <? c) = true) by lia.
    assert (Hcn : (c <? 0) = false) by lia.
    pose proof one_ulps_pos.
    destruct x as [a | | |], y as [b | | |]; try discriminate H;
      cbn [mul]; rewrite ?Hc0, ?Hcp, ?Hcn; cbn [sgn_inf];
      try reflexivity.
    + apply round_q_mono; [assumption |]. simpl in H. nia.
    + apply leb_PInf, round_q_not_nan.
    + apply leb_NInf, round_q_not_nan.
Qed.

Lemma round_le_or_nan (x y : float) (n : nat) :
  le_or_nan x y -> le_or_nan (round x n) (round y n).
Proof.
  intros [H | H].
  - left. destruct y; easy.
  - right. pose proof one_ulps_pos.
    assert (Hp : 0 < 10 ^ Z.of_nat n) by (apply Z.pow_pos_nonneg; lia).
    destruct x as [a | | |], y as [b | | |]; try discriminate H;
      cbn [round]; try reflexivity.
    + apply round_q_mono; [assumption |]. simpl in H.
      pose proof (rhe_mono (10 ^ Z.of_nat n * a) (10 ^ Z.of_nat n * b)
                    one_ulps ltac:(assumption) ltac:(nia)). nia.
    + apply leb_PInf, round_q_not_nan.
    + apply leb_NInf, round_q_not_nan.
Qed.

(** ** Sums of positive terms *)

Lemma soma_valida_zero : soma_valida zero.
Proof. split; [lia | reflexivity]. Qed.

Lemma round_q_soma_valida (a : Z) : 0 <= a -> soma_valida (round_q a 1).
Proof.
  intros Ha. unfold round_q, of_ulps.
  pose proof overflow_ulps_pos.
  pose proof (round_core_nonneg a 1 ltac:(lia) Ha).
  destruct (Z.leb_spec overflow_ulps (round_core a 1)); [exact I |].
  destruct (Z.leb_spec (round_core a 1) (- overflow_ulps)); [lia |].
  split; [assumption | apply round_core_idem; lia].
Qed.

Lemma add_soma_valida (x w : float) :
  soma_valida x -> ltb zero w = true -> soma_valida (add x w).
Proof.
  intros Hx Hw.
  destruct x as [a | | |], w as [c | | |]; try easy.
  cbn [add]. apply round_q_soma_valida. destruct Hx. simpl in Hw. lia.
Qed.

Lemma add_mono (x y w : float) :
  soma_valida x -> soma_valida y -> ltb zero w = true ->
  leb x y = true -> leb (add x w) (add y w) = true.
Proof.
  intros Hx Hy Hw H.
  destruct x as [a | | |], y as [b | | |], w as [c | | |]; try easy.
  - cbn [add]. apply round_q_mono; [lia |]. simpl in H. lia.
  - cbn [add]. apply leb_PInf, round_q_not_nan.
Qed.

Lemma add_incr (y w : float) :
  soma_valida y -> ltb zero w = true -> leb y (add y w) = true.
Proof.
  intros Hy Hw.
  destruct y as [b | | |], w as [c | | |]; try easy.
  cbn [add]. destruct Hy as [Hb Hfix]. simpl in Hw.
  pose proof (round_q_mono b (b + c) 1 ltac:(lia) ltac:(lia)) as M.
  unfold round_q in M at 1. rewrite Hfix in M.
  pose proof overflow_ulps_pos.
  pose proof (round_q_not_nan (b + c) 1) as N.
  unfold of_ulps in M.
  destruct (Z.leb_spec overflow_ulps b).
  - destruct (round_q (b + c) 1); easy.
  - destruct (Z.leb_spec b (- overflow_ulps)); [lia | assumption].
Qed.

Lemma div_le_or_nan (a a' m : float) :
  soma_valida a -> soma_valida a' -> ltb zero m = true ->
  leb a a' = true -> le_or_nan (div a m) (div a' m).
Proof.
  intros Ha Ha' Hm H. pose proof one_ulps_pos.
  destruct a as [x | | |], a' as [y | | |], m as [c | | |]; try easy.
  - right. cbn [div]. simpl in Hm, H.
    rewrite Z.sgn_pos by lia.
    apply round_q_mono; [lia | nia].
  - right. apply leb_refl. reflexivity.
  - right. cbn [div]. simpl in Hm.
    replace (0 <=? c) with true by lia. cbn [sgn_inf].
    apply leb_PInf, round_q_not_nan.
  - now left.
  - right. cbn [div]. simpl in Hm. replace (0 <=? c) with true by lia.
    reflexivity.
  - now left.
Qed.
End F64Facts.

(* ===================================================================== *)
(** * Properties of the Python operations                                 *)
(* ===================================================================== *)

Import F64Facts.

(** ** Membership *)

Lemma contains_In (l : list string) (x : string) :
  Py.contains l x = true <-> In x l.
Proof.
  unfold Py.contains. rewrite existsb_exists. split.
  - intros (y & Hy & E). apply String.eqb_eq in E. now subst.
  - intros H. exists x. split; [assumption | apply String.eqb_refl].
Qed.

Lemma contains_not_In (l : list string) (x : string) :
  Py.contains l x = false <-> ~ In x l.
Proof.
  rewrite <- contains_In. destruct (Py.contains l x); split; congruence.
Qed.

Lemma contains_ext (l l' : list string) (x : string) :
  (In x l <-> In x l') -> Py.contains l x = Py.contains l' x.
Proof.
  intros H. destruct (Py.contains l' x) eqn:E.
  - apply contains_In, H, contains_In, E.
  - apply contains_not_In. rewrite H. now apply contains_not_In.
Qed.

(** ** [sorted] *)

Lemma ascii_compare_refl (c : ascii) : Ascii.compare c c = Eq.
Proof. unfold Ascii.compare. apply N.compare_refl. Qed.

Lemma ascii_compare_eq (a b : ascii) : Ascii.compare a b = Eq -> a = b.
Proof. apply Ascii.compare_eq_iff. Qed.

Lemma ascii_compare_lt_trans (a b c : ascii) :
  Ascii.compare a b = Lt -> Ascii.compare b c = Lt -> Ascii.compare a c = Lt.
Proof.
  unfold Ascii.compare. rewrite !N.compare_lt_iff. lia.
Qed.

Lemma string_compare_lt_trans (s1 s2 s3 : string) :
  String.compare s1 s2 = Lt -> String.compare s2 s3 = Lt ->
  String.compare s1 s3 = Lt.
Proof.
  revert s2 s3. induction s1 as [| c1 s1 IH]; intros [| c2 s2] [| c3 s3];
    simpl; try easy.
  destruct (Ascii.compare c1 c2) eqn:E12; try easy;
    destruct (Ascii.compare c2 c3) eqn:E23; try easy.
  - apply ascii_compare_eq in E12, E23. subst.
    rewrite ascii_compare_refl. apply IH.
  - apply ascii_compare_eq in E12. subst. now rewrite E23.
  - apply ascii_compare_eq in E23. subst. now rewrite E12.
  - now rewrite (ascii_compare_lt_trans _ _ _ E12 E23).
Qed.

Lemma string_leb_trans (s1 s2 s3 : string) :
  String.leb s1 s2 = true -> String.leb s2 s3 = true -> String.leb s1 s3 = true.
Proof.
  unfold String.leb.
  destruct (String.compare s1 s2) eqn:E12; try easy.
  - apply String.compare_eq_iff in E12. subst. auto.
  - destruct (String.compare s2 s3) eqn:E23; try easy; intros _ _.
    + apply String.compare_eq_iff in E23. subst. now rewrite E12.
    + now rewrite (string_compare_lt_trans _ _ _ E12 E23).
Qed.

Lemma insert_sorted_comm (x y : string) (l : list string) :
  Py.insert_sorted x (Py.insert_sorted y l)
  = Py.insert_sorted y (Py.insert_sorted x l).
Proof.
  induction l as [| z l IH]; simpl.
  - destruct (String.leb x y) eqn:Exy, (String.leb y x) eqn:Eyx; try reflexivity.
    + now rewrite (String.leb_antisym _ _ Exy Eyx).
    + destruct (String.leb_total x y); congruence.
  - destruct (String.leb y z) eqn:Eyz, (String.leb x z) eqn:Exz; simpl;
      rewrite ?Eyz, ?Exz.
    + destruct (String.leb x y) eqn:Exy, (String.leb y x) eqn:Eyx;
        rewrite ?Exz, ?Eyz; try reflexivity.
      * now rewrite (String.leb_antisym _ _ Exy Eyx).
      * destruct (String.leb_total x y); congruence.
    + destruct (String.leb x y) eqn:Exy; [| reflexivity].
      now rewrite (string_leb_trans _ _ _ Exy Eyz) in Exz.
    + destruct (String.leb y x) eqn:Eyx; [| reflexivity].
      now rewrite (string_leb_trans _ _ _ Eyx Exz) in Eyz.
    + now rewrite IH.
Qed.

Lemma sorted_Permutation (l l' : list string) :
  Permutation l l' -> Py.sorted l = Py.sorted l'.
Proof.
  unfold Py.sorted. induction 1; simpl.
  - reflexivity.
  - now f_equal.
  - apply insert_sorted_comm.
  - congruence.
Qed.

(** ** [list.sort] by a key, and slices *)

Section SortReverse.
Context {A : Type} (key : A -> F64.float).

Lemma insert_desc_Permutation (x : A) (l : list A) :
  Permutation (Py.insert_desc key x l) (x :: l).
Proof.
  induction l as [| y l IH]; simpl; [reflexivity |].
  destruct (F64.ltb (key x) (key y)); [| reflexivity].
  rewrite IH. apply perm_swap.
Qed.

Lemma sort_reverse_Permutation (l : list A) :
  Permutation (Py.sort_reverse key l) l.
Proof.
  unfold Py.sort_reverse. induction l as [| x l IH]; simpl; [reflexivity |].
  rewrite insert_desc_Permutation. now constructor.
Qed.

Lemma insert_desc_sorted (x : A) (l : list A) :
  F64.is_nan (key x) = false ->
  Forall (fun y => F64.is_nan (key y) = false) l ->
  StronglySorted (Py.desc key) l -> StronglySorted (Py.desc key) (Py.insert_desc key x l).
Proof.
  intros Hx Hl Hs. induction Hs as [| y l Hs IH Hy]; simpl.
  - repeat constructor.
  - apply List.Forall_cons_iff in Hl as [Hyn Hl].
    destruct (F64.ltb (key x) (key y)) eqn:E.
    + constructor; [now apply IH |].
      rewrite (insert_desc_Permutation x l).
      constructor; [apply ltb_leb, E | exact Hy].
    + assert (Hxy : Py.desc key x y) by (apply ltb_false_leb; assumption).
      constructor; [now constructor |].
      constructor; [exact Hxy |].
      eapply List.Forall_impl; [| exact Hy].
      intros z Hz. unfold Py.desc in *. eapply leb_trans; eassumption.
Qed.

Lemma sort_reverse_sorted (l : list A) :
  Forall (fun y => F64.is_nan (key y) = false) l ->
  StronglySorted (Py.desc key) (Py.sort_reverse key l).
Proof.
  unfold Py.sort_reverse. induction l as [| x l IH]; intros H; simpl.
  - constructor.
  - apply List.Forall_cons_iff in H as [Hx Hl].
    apply insert_desc_sorted; [exact Hx | | now apply IH].
    eapply Permutation_Forall; [| exact Hl].
    symmetry. apply sort_reverse_Permutation.
Qed.

Lemma eqb_ltb_false (a b p : F64.float) :
  F64.eqb a p = true -> F64.ltb a b = true -> F64.eqb b p = false.
Proof. destruct a, b, p; simpl; try easy; lia. Qed.

Lemma insert_desc_stable (p : F64.float) (x : A) (l : list A) :
  List.filter (fun y => F64.eqb (key y) p) (Py.insert_desc key x l)
  = List.filter (fun y => F64.eqb (key y) p) (x :: l).
Proof.
  induction l as [| y l IH]; simpl; [reflexivity |].
  destruct (F64.ltb (key x) (key y)) eqn:E; [| reflexivity].
  simpl. rewrite IH. simpl.
  destruct (F64.eqb (key x) p) eqn:Ex; [| reflexivity].
  now rewrite (eqb_ltb_false _ _ _ Ex E).
Qed.

Lemma sort_reverse_stable (p : F64.float) (l : list A) :
  List.filter (fun y => F64.eqb (key y) p) (Py.sort_reverse key l)
  = List.filter (fun y => F64.eqb (key y) p) l.
Proof.
  unfold Py.sort_reverse. induction l as [| x l IH]; simpl; [reflexivity |].
  rewrite insert_desc_stable. simpl. now rewrite IH.
Qed.
End SortReverse.

Lemma slice_to_length {A : Type} (n : Z) (l : list A) :
  0 <= n -> Z.of_nat (length (Py.slice_to n l)) <= n.
Proof.
  intros Hn. unfold Py.slice_to. replace (0 <=? n) with true by lia.
  rewrite List.length_firstn. lia.
Qed.

Lemma firstn_In {A : Type} (n : nat) (l : list A) (x : A) :
  In x (firstn n l) -> In x l.
Proof.
  intros H. rewrite <- (firstn_skipn n l). apply in_or_app. now left.
Qed.

Lemma slice_to_In {A : Type} (n : Z) (l : list A) (x : A) :
  In x (Py.slice_to n l) -> In x l.
Proof.
  unfold Py.slice_to. destruct (0 <=? n); apply firstn_In.
Qed.

(** ** Dicts and [min] *)

Section Dict.
Context {V : Type}.
Implicit Types (d : Py.dict V) (k : string) (v : V).

Lemma dict_set_length d k v :
  (length d <= length (Py.dict_set k v d) <= S (length d))%nat.
Proof.
  induction d as [| [k' v'] d IH]; simpl; [lia |].
  destruct (String.eqb k k'); simpl; lia.
Qed.

Lemma dict_set_length_in d k v :
  In k (map fst d) -> length (Py.dict_set k v d) = length d.
Proof.
  induction d as [| [k' v'] d IH]; simpl; [tauto |].
  destruct (String.eqb_spec k k') as [-> | Hne]; simpl; [reflexivity |].
  intros [H | H]; [congruence | now rewrite IH].
Qed.

Lemma dict_set_In_keys d k v n :
  In n (map fst (Py.dict_set k v d)) <-> n = k \/ In n (map fst d).
Proof.
  induction d as [| [k' v'] d IH]; simpl.
  - intuition.
  - destruct (String.eqb_spec k k') as [-> | Hne]; simpl.
    + intuition.
    + rewrite IH. intuition.
Qed.

Lemma dict_set_NoDup d k v :
  List.NoDup (map fst d) -> List.NoDup (map fst (Py.dict_set k v d)).
Proof.
  induction d as [| [k' v'] d IH]; simpl; intros H.
  - repeat constructor. simpl. tauto.
  - apply List.NoDup_cons_iff in H as [Hk Hd].
    destruct (String.eqb_spec k k') as [-> | Hne]; simpl.
    + now constructor.
    + constructor; [| now apply IH].
      rewrite dict_set_In_keys. intuition.
Qed.

Lemma dict_get_set d k v : Py.dict_get k (Py.dict_set k v d) = Some v.
Proof.
  induction d as [| [k' v'] d IH]; simpl.
  - now rewrite String.eqb_refl.
  - destruct (String.eqb_spec k k') as [-> | Hne]; simpl.
    + now rewrite String.eqb_refl.
    + destruct (String.eqb_spec k k'); [contradiction | exact IH].
Qed.

Lemma dict_get_In d k v : Py.dict_get k d = Some v -> In k (map fst d).
Proof.
  induction d as [| [k' v'] d IH]; simpl; [discriminate |].
  destruct (String.eqb_spec k k') as [-> | Hne]; [now left |].
  intros H. right. now apply IH.
Qed.

Lemma dict_del_In_keys d k n :
  In n (map fst (Py.dict_del k d)) -> In n (map fst d).
Proof.
  induction d as [| [k' v'] d IH]; simpl; [tauto |].
  destruct (String.eqb k k'); simpl; intuition.
Qed.

Lemma dict_del_NoDup d k :
  List.NoDup (map fst d) -> List.NoDup (map fst (Py.dict_del k d)).
Proof.
  induction d as [| [k' v'] d IH]; simpl; intros H; [constructor |].
  apply List.NoDup_cons_iff in H as [Hk Hd].
  destruct (String.eqb k k'); simpl; [exact Hd |].
  constructor; [| now apply IH].
  intros Hin. apply Hk. now apply (dict_del_In_keys d k).
Qed.

Lemma dict_del_length d k :
  In k (map fst d) -> S (length (Py.dict_del k d)) = length d.
Proof.
  induction d as [| [k' v'] d IH]; simpl; [tauto |].
  destruct (String.eqb_spec k k') as [-> | Hne]; simpl; [reflexivity |].
  intros [H | H]; [congruence | now rewrite IH].
Qed.

Lemma dict_del_length_le d k : (length (Py.dict_del k d) <= length d)%nat.
Proof.
  induction d as [| [k' v'] d IH]; simpl; [lia |].
  destruct (String.eqb k k'); simpl; lia.
Qed.

(** Deleting the key of an entry of a dict removes that entry. *)
Lemma dict_del_middle (l1 l2 : Py.dict V) (e : string * V) :
  List.NoDup (map fst (l1 ++ e :: l2)) ->
  Py.dict_del (fst e) (l1 ++ e :: l2) = l1 ++ l2.
Proof.
  induction l1 as [| [k' v'] l1 IH]; simpl; intros H.
  - destruct e as [k v]. simpl. now rewrite String.eqb_refl.
  - apply List.NoDup_cons_iff in H as [Hk Hd].
    destruct (String.eqb_spec (fst e) k') as [E | Hne].
    + exfalso. apply Hk. rewrite map_app, in_app_iff. right. simpl. now left.
    + now rewrite IH.
Qed.
End Dict.

Section MinBy.
Context {A : Type} (key : A -> Z).

(** [min] returns the first of the elements with the least key. *)
Lemma min_from_first (best : A) (l : list A) :
  exists l1 l2,
    best :: l = l1 ++ Py.min_from key best l :: l2
    /\ Forall (fun x => key (Py.min_from key best l) < key x) l1
    /\ Forall (fun x => key (Py.min_from key best l) <= key x) l2.
Proof.
  revert best. induction l as [| x l IH]; intros best; simpl.
  - exists [], []. repeat split; constructor.
  - destruct (Z.ltb_spec (key x) (key best)) as [Hlt | Hge].
    + destruct (IH x) as (l1 & l2 & E & H1 & H2).
      set (m := Py.min_from key x l) in *.
      exists (best :: l1), l2. repeat split; [simpl; now rewrite E | | exact H2].
      constructor; [| exact H1].
      destruct l1 as [| y l1]; simpl in E.
      * injection E as E _. rewrite <- E. exact Hlt.
      * injection E as E _. subst y.
        apply List.Forall_cons_iff in H1 as [H1 _]. lia.
    + destruct (IH best) as (l1 & l2 & E & H1 & H2).
      set (m := Py.min_from key best l) in *.
      destruct l1 as [| y l1]; simpl in E.
      * injection E as E El. exists [], (x :: l2).
        repeat split; [simpl; now rewrite <- E, El | constructor |].
        constructor; [rewrite <- E; lia | exact H2].
      * injection E as E El. subst y.
        exists (best :: x :: l1), l2.
        repeat split; [simpl; now rewrite El | | exact H2].
        apply List.Forall_cons_iff in H1 as [Hb H1].
        constructor; [exact Hb |]. constructor; [lia | exact H1].
Qed.

Lemma min_by_first (l : list A) :
  l <> [] ->
  exists m l1 l2,
    Py.min_by key l = Ok m
    /\ l = l1 ++ m :: l2
    /\ Forall (fun x => key m < key x) l1
    /\ Forall (fun x => key m <= key x) l2.
Proof.
  destruct l as [| x l]; [congruence |]. intros _.
  destruct (min_from_first x l) as (l1 & l2 & E & H1 & H2).
  exists (Py.min_from key x l), l1, l2. repeat split; assumption.
Qed.
End MinBy.

(* ===================================================================== *)
(** * The scorer                                                          *)
(* ===================================================================== *)

(** ** The two loops of the scorer *)

Lemma extrair_sintomas_ok (l : list sintoma_json) (es : list (string * F64.float))
    (sd : Py.dict F64.float) (mx : F64.float) :
  mapM nome_e_peso l = Ok es ->
  extrair_sintomas l sd mx
  = Ok (dict_of es sd, fold_left F64.add (map snd es) mx).
Proof.
  revert es sd mx. induction l as [| s l IH]; intros es sd mx H; simpl in *.
  - injection H as <-. reflexivity.
  - destruct (nome_e_peso s) as [np | e]; [| discriminate]. simpl in *.
    destruct (mapM nome_e_peso l) as [es' | e]; [| discriminate]. simpl in H.
    injection H as <-. simpl. now apply IH.
Qed.

Lemma extrair_sintomas_raise (l : list sintoma_json) (e : exn)
    (sd : Py.dict F64.float) (mx : F64.float) :
  mapM nome_e_peso l = Raise e -> extrair_sintomas l sd mx = Raise e.
Proof.
  revert sd mx. induction l as [| s l IH]; intros sd mx H; simpl in *.
  - discriminate.
  - destruct (nome_e_peso s) as [np | e']; simpl in *; [| congruence].
    destruct (mapM nome_e_peso l) as [es' | e']; simpl in *; [discriminate |].
    injection H as <-. now apply IH.
Qed.

Lemma verificar_correspondencia_spec (items : Py.dict F64.float)
    (q : list string) (b : F64.float) (c f : list string) :
  verificar_correspondencia items q b c f
  = (fold_left F64.add
       (map snd (List.filter (fun e => Py.contains q (fst e)) items)) b,
     c ++ List.filter (Py.contains q) (map fst items),
     f ++ List.filter (fun n => negb (Py.contains q n)) (map fst items)).
Proof.
  revert b c f. induction items as [| [n w] items IH]; intros b c f; simpl.
  - now rewrite !app_nil_r.
  - destruct (Py.contains q n); simpl; rewrite IH, <- ?app_assoc; reflexivity.
Qed.

Lemma calcular_porcentagem_ok (b m : F64.float) :
  calcular_porcentagem b m
  = Ok (if F64.ltb F64.zero m then code_percentage b m else F64.zero).
Proof.
  unfold calcular_porcentagem, Py.truediv.
  destruct (F64.ltb F64.zero m) eqn:E; [| reflexivity].
  now rewrite (ltb_zero_not_eqb _ E).
Qed.

Lemma calcular_ok (d : Doenca) (q : list string) (es : list (string * F64.float)) :
  entradas d = Ok es ->
  _calcular d q
  = Ok {| doenca := d;
          sintomas_selecionados := q;
          sintomas_correspondentes := spec_matched (dict_of es []) q;
          sintomas_faltantes := spec_missing (dict_of es []) q;
          pontuacao_bruta := spec_raw_score (dict_of es []) q;
          pontuacao_maxima := spec_max_score es;
          porcentagem :=
            if F64.ltb F64.zero (spec_max_score es)
            then code_percentage (spec_raw_score (dict_of es []) q) (spec_max_score es)
            else F64.zero |}.
Proof.
  intros H. unfold _calcular, entradas in *.
  rewrite (extrair_sintomas_ok _ _ _ _ H). cbn [bind fst snd].
  rewrite verificar_correspondencia_spec, calcular_porcentagem_ok.
  reflexivity.
Qed.

Lemma calcular_raise (d : Doenca) (q : list string) (e : exn) :
  entradas d = Raise e -> _calcular d q = Raise e.
Proof.
  intros H. unfold _calcular, entradas in *.
  now rewrite (extrair_sintomas_raise _ _ _ _ H).
Qed.

(** With names that do not repeat, the dict holds the entries as they are. *)
Lemma dict_set_fresh (k : string) (v : F64.float) (sd : Py.dict F64.float) :
  ~ In k (map fst sd) -> Py.dict_set k v sd = sd ++ [(k, v)].
Proof.
  induction sd as [| [k' v'] sd IH]; intros H; simpl in *; [reflexivity |].
  destruct (String.eqb_spec k k') as [-> | Hne]; [tauto |].
  rewrite IH; tauto.
Qed.

Lemma dict_of_NoDup (es sd : Py.dict F64.float) :
  List.NoDup (map fst (sd ++ es)) -> dict_of es sd = sd ++ es.
Proof.
  revert sd. induction es as [| [k v] es IH]; intros sd H; simpl.
  - now rewrite app_nil_r.
  - assert (Hfresh : ~ In k (map fst sd)).
    { rewrite map_app in H. simpl in H.
      apply List.NoDup_remove_2 in H. rewrite in_app_iff in H. tauto. }
    rewrite (dict_set_fresh _ _ _ Hfresh).
    change (dict_of es (sd ++ [(k, v)]) = sd ++ (k, v) :: es).
    rewrite IH; rewrite <- app_assoc; [reflexivity | exact H].
Qed.

(** ** C1 *)

(** C1, as the claim states it, fails on two inputs.  A condition that
    lists the symptom [a] twice, with weights 1.0 and 2.0, scores the query
    [a] with raw_score 2.0 and matched [a], where the sum of the weights of
    the symptoms whose name is in the query is 3.0 and the sequence of
    their names is [a, a].  And with raw_score 11.5 and max_score 40.0 the
    percentage is 28.7, where [round(100 * raw_score / max_score, 1)] is
    28.8. *)
Lemma C1_counterexample :
  (exists es r,
      entradas repetida = Ok es /\ _calcular repetida ["a"%string] = Ok r
      /\ pontuacao_bruta r = F64.of_Z 2
      /\ spec_raw_score es ["a"%string] = F64.of_Z 3
      /\ pontuacao_bruta r <> spec_raw_score es ["a"%string]
      /\ sintomas_correspondentes r = ["a"%string]
      /\ spec_matched es ["a"%string] = ["a"%string; "a"%string])
  /\ (exists r,
      _calcular empate ["x"%string] = Ok r
      /\ pontuacao_bruta r = F64.of_dec 115 10
      /\ pontuacao_maxima r = F64.of_Z 40
      /\ F64.ltb F64.zero (pontuacao_maxima r) = true
      /\ porcentagem r = F64.of_dec 287 10
      /\ spec_percentage (pontuacao_bruta r) (pontuacao_maxima r)
         = F64.of_dec 288 10
      /\ porcentagem r
         <> spec_percentage (pontuacao_bruta r) (pontuacao_maxima r)).
Proof.
  split.
  - eexists. eexists.
    split; [vm_compute; reflexivity |].
    split; [vm_compute; reflexivity |].
    split; [vm_compute; reflexivity |].
    split; [vm_compute; reflexivity |].
    split; [vm_compute; discriminate |].
    split; vm_compute; reflexivity.
  - eexists.
    split; [vm_compute; reflexivity |].
    split; [vm_compute; reflexivity |].
    split; [vm_compute; reflexivity |].
    split; [vm_compute; reflexivity |].
    split; [vm_compute; reflexivity |].
    split; [vm_compute; reflexivity |].
    vm_compute; discriminate.
Qed.

(** C1, amended.  For every condition whose entries are well formed and
    whose symptom names do not repeat, and for every query, the scorer
    returns a result with max_score the sum of the weights of the
    condition's symptoms, raw_score the sum of the weights of those
    symptoms whose name is a member of the query, matched_symptoms and
    missing_symptoms the corresponding sequences of names, and percentage
    [round((raw_score / max_score) * 100, 1)] when [max_score > 0], else
    0.0.  In particular Flu = {fever: 1.0, cough: 1.0, fatigue: 0.5} with
    the query {fever, cough} yields raw 2.0, max 2.5, percentage 80.0,
    matched [fever, cough] and missing [fatigue]. *)
Theorem C1_scorer (d : Doenca) (q : list string)
    (es : list (string * F64.float)) :
  entradas d = Ok es ->
  List.NoDup (map fst es) ->
  (exists r,
      _calcular d q = Ok r
      /\ pontuacao_maxima r = spec_max_score es
      /\ pontuacao_bruta r = spec_raw_score es q
      /\ sintomas_correspondentes r = spec_matched es q
      /\ sintomas_faltantes r = spec_missing es q
      /\ porcentagem r
         = if F64.ltb F64.zero (pontuacao_maxima r)
           then code_percentage (pontuacao_bruta r) (pontuacao_maxima r)
           else F64.zero)
  /\ (exists r,
      _calcular flu ["fever"%string; "cough"%string] = Ok r
      /\ pontuacao_bruta r = F64.of_Z 2
      /\ pontuacao_maxima r = F64.of_dec 25 10
      /\ porcentagem r = F64.of_Z 80
      /\ sintomas_correspondentes r = ["fever"%string; "cough"%string]
      /\ sintomas_faltantes r = ["fatigue"%string]).
Proof.
  intros Hes Hnd. split.
  - eexists. split; [apply (calcular_ok d q es Hes) |].
    cbn [pontuacao_maxima pontuacao_bruta sintomas_correspondentes
         sintomas_faltantes porcentagem].
    rewrite (dict_of_NoDup es [] Hnd). cbn [app].
    repeat (split; [reflexivity |]). reflexivity.
  - eexists.
    split; [vm_compute; reflexivity |].
    split; [vm_compute; reflexivity |].
    split; [vm_compute; reflexivity |].
    split; [vm_compute; reflexivity |].
    split; vm_compute; reflexivity.
Qed.

Lemma C1_scorer_witness :
  exists es, entradas flu = Ok es /\ List.NoDup (map fst es)
    /\ exists r, _calcular flu ["fever"%string] = Ok r
                 /\ pontuacao_bruta r = spec_raw_score es ["fever"%string].
Proof.
  exists [("fever"%string, F64.of_Z 1); ("cough"%string, F64.of_Z 1);
          ("fatigue"%string, F64.of_dec 5 10)].
  split; [vm_compute; reflexivity |].
  assert (Hnd : List.NoDup ["fever"%string; "cough"%string; "fatigue"%string]).
  { repeat constructor; simpl; intuition discriminate. }
  split; [exact Hnd |].
  assert (Hes : entradas flu
                = Ok [("fever"%string, F64.of_Z 1); ("cough"%string, F64.of_Z 1);
                      ("fatigue"%string, F64.of_dec 5 10)])
    by (vm_compute; reflexivity).
  destruct (C1_scorer flu ["fever"%string] _ Hes Hnd)
    as [(r & Hr & _ & Hraw & _) _].
  exists r. split; [exact Hr | exact Hraw].
Defined.

(** ** C7 *)

Lemma Ok_inj {A : Type} (a b : A) : Ok a = Ok b -> a = b.
Proof. congruence. Qed.










(** ** C8 *)

Lemma of_Z_100 : F64.of_Z 100 = F64.Fin (100 * F64.one_ulps).
Proof. vm_compute. reflexivity. Qed.

Lemma dict_set_positivo (k : string) (v : F64.float) (sd : Py.dict F64.float) :
  F64.ltb F64.zero v = true -> Forall peso_positivo sd ->
  Forall peso_positivo (Py.dict_set k v sd).
Proof.
  intros Hv. induction sd as [| [k' v'] sd IH]; intros H; simpl.
  - repeat constructor. exact Hv.
  - apply List.Forall_cons_iff in H as [H1 H2].
    destruct (String.eqb k k'); constructor; auto.
Qed.

Lemma dict_of_positivo (es sd : Py.dict F64.float) :
  Forall peso_positivo es -> Forall peso_positivo sd ->
  Forall peso_positivo (dict_of es sd).
Proof.
  revert sd. induction es as [| [k v] es IH]; intros sd Hes Hsd; simpl.
  - exact Hsd.
  - apply List.Forall_cons_iff in Hes as [H1 H2].
    apply IH; [exact H2 |]. apply dict_set_positivo; assumption.
Qed.

(** The sum over the matched items does not decrease when the query
    gains members. *)
Lemma soma_correspondentes_mono (items : Py.dict F64.float)
    (q q' : list string) (b b' : F64.float) :
  Forall peso_positivo items ->
  (forall n, In n q -> In n q') ->
  F64.soma_valida b -> F64.soma_valida b' -> F64.leb b b' = true ->
  let r := fold_left F64.add
             (map snd (List.filter (fun e => Py.contains q (fst e)) items)) b in
  let r' := fold_left F64.add
             (map snd (List.filter (fun e => Py.contains q' (fst e)) items)) b' in
  F64.soma_valida r /\ F64.soma_valida r' /\ F64.leb r r' = true.
Proof.
  intros Hpos Hsub. revert b b'.
  induction items as [| [n w] items IH]; intros b b' Hb Hb' Hle; simpl.
  - auto.
  - apply List.Forall_cons_iff in Hpos as [Hw Hpos]. unfold peso_positivo in Hw.
    simpl in Hw. specialize (IH Hpos).
    destruct (Py.contains q n) eqn:Eq.
    + assert (Eq' : Py.contains q' n = true).
      { apply contains_In, Hsub, contains_In, Eq. }
      rewrite Eq'. simpl. apply IH.
      * now apply add_soma_valida.
      * now apply add_soma_valida.
      * now apply add_mono.
    + destruct (Py.contains q' n) eqn:Eq'; simpl; apply IH; auto.
      * now apply add_soma_valida.
      * eapply leb_trans; [exact Hle |]. now apply add_incr.
Qed.

Lemma code_percentage_mono (raw raw' mx : F64.float) :
  F64.soma_valida raw -> F64.soma_valida raw' -> F64.leb raw raw' = true ->
  F64.ltb F64.zero mx = true ->
  F64.le_or_nan (code_percentage raw mx) (code_percentage raw' mx).
Proof.
  intros Hr Hr' Hle Hm. unfold code_percentage.
  apply round_le_or_nan. rewrite of_Z_100.
  apply mul_le_or_nan; [pose proof one_ulps_pos; lia |].
  now apply div_le_or_nan.
Qed.

(** The percentage of a condition with positive weights does not decrease
    when the query gains members. *)
Lemma porcentagem_monotona (d : Doenca) (es : list (string * F64.float))
    (q q' : list string) :
  entradas d = Ok es ->
  Forall peso_positivo es ->
  (forall n, In n q -> In n q') ->
  exists r r',
    _calcular d q = Ok r /\ _calcular d q' = Ok r'
    /\ F64.le_or_nan (porcentagem r) (porcentagem r').
Proof.
  intros Hes Hpos Hsub.
  eexists. eexists.
  split; [apply (calcular_ok d q es Hes) |].
  split; [apply (calcular_ok d q' es Hes) |].
  cbn [porcentagem].
  destruct (F64.ltb F64.zero (spec_max_score es)) eqn:Hm.
  - pose proof (soma_correspondentes_mono (dict_of es []) q q'
                  F64.zero F64.zero
                  (dict_of_positivo es [] Hpos (List.Forall_nil _)) Hsub
                  soma_valida_zero soma_valida_zero eq_refl)
      as (V & V' & L).
    apply code_percentage_mono; assumption.
  - right. reflexivity.
Qed.

(** C8.  For every condition whose weights are all [> 0] and every query,
    adding to the query a symptom name of the condition that was missing
    never decreases the percentage, and removing a matched symptom name
    from the query never increases it: the later percentage is not below
    (not above) the earlier one, and it is at least (at most) the earlier
    one whenever it is a number at all. *)
Theorem C8_monotonic (d : Doenca) (es : list (string * F64.float))
    (q : list string) (s : string) :
  entradas d = Ok es ->
  Forall peso_positivo es ->
  In s (map fst es) ->
  (forall q_mais,
      ~ In s q -> (forall n, In n q_mais <-> n = s \/ In n q) ->
      exists r r',
        _calcular d q = Ok r /\ _calcular d q_mais = Ok r'
        /\ F64.ltb (porcentagem r') (porcentagem r) = false
        /\ (F64.is_nan (porcentagem r') = false ->
            F64.leb (porcentagem r) (porcentagem r') = true))
  /\ (forall q_menos,
      In s q -> (forall n, In n q_menos <-> n <> s /\ In n q) ->
      exists r r',
        _calcular d q = Ok r /\ _calcular d q_menos = Ok r'
        /\ F64.ltb (porcentagem r) (porcentagem r') = false
        /\ (F64.is_nan (porcentagem r) = false ->
            F64.leb (porcentagem r') (porcentagem r) = true)).
Proof.
  intros Hes Hpos _. split.
  - intros q_mais _ Hq.
    destruct (porcentagem_monotona d es q q_mais Hes Hpos) as (r & r' & Hr & Hr' & L).
    { intros n Hn. apply Hq. now right. }
    exists r, r'. repeat split; try assumption.
    + now apply le_or_nan_ltb.
    + now apply le_or_nan_leb.
  - intros q_menos _ Hq.
    destruct (porcentagem_monotona d es q_menos q Hes Hpos) as (r' & r & Hr' & Hr & L).
    { intros n Hn. now apply Hq. }
    exists r, r'. repeat split; try assumption.
    + now apply le_or_nan_ltb.
    + now apply le_or_nan_leb.
Qed.

Lemma C8_monotonic_witness :
  exists r r',
    _calcular flu ["fever"%string] = Ok r
    /\ _calcular flu ["cough"%string; "fever"%string] = Ok r'
    /\ F64.ltb (porcentagem r') (porcentagem r) = false.
Proof.
  assert (Hes : entradas flu
                = Ok [("fever"%string, F64.of_Z 1); ("cough"%string, F64.of_Z 1);
                      ("fatigue"%string, F64.of_dec 5 10)])
    by (vm_compute; reflexivity).
  destruct (C8_monotonic flu _ ["fever"%string] "cough"%string Hes) as [Hadd _].
  - repeat (constructor; [vm_compute; reflexivity |]). constructor.
  - simpl. tauto.
  - destruct (Hadd ["cough"%string; "fever"%string]) as (r & r' & H1 & H2 & H3 & _).
    + simpl. intros [H | []]. discriminate H.
    + simpl. intros n. intuition (subst; auto).
    + exists r, r'. split; [exact H1 | split; [exact H2 | exact H3]].
Defined.

(** ** C10 *)

Lemma nomes_de_entradas (l : list sintoma_json) (es : list (string * F64.float)) :
  mapM nome_e_peso l = Ok es -> mapM nome_de l = Ok (map fst es).
Proof.
  revert es. induction l as [| s l IH]; intros es H; simpl in *.
  - apply Ok_inj in H. now subst.
  - destruct (nome_e_peso s) as [np | e] eqn:E; [| discriminate]. simpl in H.
    destruct (mapM nome_e_peso l) as [es' | e]; [| discriminate]. simpl in H.
    apply Ok_inj in H. subst es. rewrite (IH es' eq_refl). simpl.
    destruct s as [[n |] p | t]; simpl in *; try discriminate.
    + destruct (float_of_peso p); simpl in E; [| discriminate].
      apply Ok_inj in E. now subst.
    + apply Ok_inj in E. now subst.
Qed.

Lemma dict_of_keys (es sd : Py.dict F64.float) (n : string) :
  In n (map fst (dict_of es sd)) <-> In n (map fst sd) \/ In n (map fst es).
Proof.
  revert sd. induction es as [| [k v] es IH]; intros sd; simpl.
  - intuition.
  - change (In n (map fst (dict_of es (Py.dict_set k v sd))) <->
            In n (map fst sd) \/ k = n \/ In n (map fst es)).
    rewrite IH, dict_set_In_keys. intuition.
Qed.

Lemma filter_items_ext (items : Py.dict F64.float) (q q0 : list string) :
  (forall n, In n (map fst items) -> (In n q <-> In n q0)) ->
  List.filter (fun e => Py.contains q (fst e)) items
  = List.filter (fun e => Py.contains q0 (fst e)) items.
Proof.
  intros H. apply List.filter_ext_in. intros [n w] Hin. simpl.
  apply contains_ext, H. apply in_map_iff. exists (n, w). auto.
Qed.

(** The result depends on the query only through which names of the
    condition are, as they are written, among its elements. *)
Lemma calcular_ext (d : Doenca) (es : list (string * F64.float))
    (q q0 : list string) :
  entradas d = Ok es ->
  (forall n, In n (map fst es) -> (In n q <-> In n q0)) ->
  res_map to_dict (_calcular d q) = res_map to_dict (_calcular d q0).
Proof.
  intros Hes H.
  assert (Hk : forall n, In n (map fst (dict_of es [])) -> (In n q <-> In n q0)).
  { intros n Hn. apply H. apply dict_of_keys in Hn as [[] | Hn]. exact Hn. }
  rewrite (calcular_ok d q es Hes), (calcular_ok d q0 es Hes).
  unfold res_map, to_dict, spec_raw_score, spec_matched, spec_missing.
  cbn [doenca porcentagem sintomas_correspondentes sintomas_faltantes
       pontuacao_bruta pontuacao_maxima].
  rewrite (filter_items_ext _ q q0 Hk).
  assert (E1 : List.filter (Py.contains q) (map fst (dict_of es []))
               = List.filter (Py.contains q0) (map fst (dict_of es []))).
  { apply List.filter_ext_in. intros n Hn. now apply contains_ext, Hk. }
  assert (E2 : List.filter (fun n => negb (Py.contains q n)) (map fst (dict_of es []))
               = List.filter (fun n => negb (Py.contains q0 n)) (map fst (dict_of es []))).
  { apply List.filter_ext_in. intros n Hn. f_equal. now apply contains_ext, Hk. }
  now rewrite E1, E2.
Qed.

Lemma verificar_condicoes_ext (d : Doenca) (q q0 : list string) :
  (forall n, In n (default [] (sintomas_obrigatorios (condicoes d))) ->
             (In n q <-> In n q0)) ->
  (forall nomes n, mapM nome_de (sintomas d) = Ok nomes -> In n nomes ->
                   (In n q <-> In n q0)) ->
  _verificar_condicoes d q = _verificar_condicoes d q0.
Proof.
  intros Hob Hno. unfold _verificar_condicoes.
  assert (E : forallb (Py.contains q) (default [] (sintomas_obrigatorios (condicoes d)))
              = forallb (Py.contains q0) (default [] (sintomas_obrigatorios (condicoes d)))).
  { induction (default [] (sintomas_obrigatorios (condicoes d))) as [| o l IH];
      simpl; [reflexivity |].
    rewrite IH by (intros; apply Hob; now right).
    f_equal. apply contains_ext, Hob. now left. }
  rewrite E.
  destruct (mapM nome_de (sintomas d)) as [nomes | e]; [| reflexivity].
  cbn [bind].
  rewrite (List.filter_ext_in (Py.contains q) (Py.contains q0) nomes); [reflexivity |].
  intros n Hn. apply contains_ext. now apply (Hno nomes).
Qed.

Lemma verificar_condicoes_obrigatorio (d : Doenca) (q : list string) (n : string) :
  In n (default [] (sintomas_obrigatorios (condicoes d))) -> ~ In n q ->
  _verificar_condicoes d q = Ok false.
Proof.
  intros Hin Hq. unfold _verificar_condicoes.
  assert (E : forallb (Py.contains q)
                (default [] (sintomas_obrigatorios (condicoes d))) = false).
  { apply not_true_is_false. intros H.
    rewrite forallb_forall in H. apply Hq, contains_In, H, Hin. }
  now rewrite E.
Qed.

Lemma in_remove_iff (v : string) (q : list string) (n : string) :
  n <> v -> (In n q <-> In n (List.remove string_dec v q)).
Proof.
  intros Hne. split.
  - intros H. now apply List.in_in_remove.
  - intros H. now apply List.in_remove in H.
Qed.

(** C10.  Symptom names are matched by exact equality of strings, and no
    normalization comes before a membership test.  Let [n] be a symptom
    name of the condition and [v] a member of the query that is another
    string with the same normal form, for whatever normalization [norm]
    (letter case, spacing, accents), the query not having [n] itself.
    Then [n] is counted as missing and not as matched; when [v] is not
    itself a name of the condition, [v] contributes nothing (the result of
    the scorer is the one of the query without [v], raw_score included);
    when [n] is required, the condition is not eligible; and when [v] is
    neither a name of the condition nor required, eligibility, the minimum
    overlap included, is the one of the query without [v]. *)
Theorem C10_exact_matching (norm : string -> string) (d : Doenca)
    (es : list (string * F64.float)) (q : list string) (n v : string) :
  entradas d = Ok es ->
  In n (map fst es) ->
  v <> n -> norm v = norm n ->
  In v q -> ~ In n q ->
  (exists r, _calcular d q = Ok r
             /\ In n (sintomas_faltantes r)
             /\ ~ In n (sintomas_correspondentes r))
  /\ (~ In v (map fst es) ->
      res_map to_dict (_calcular d q)
      = res_map to_dict (_calcular d (List.remove string_dec v q)))
  /\ (In n (default [] (sintomas_obrigatorios (condicoes d))) ->
      _verificar_condicoes d q = Ok false)
  /\ (~ In v (map fst es) ->
      ~ In v (default [] (sintomas_obrigatorios (condicoes d))) ->
      _verificar_condicoes d q
      = _verificar_condicoes d (List.remove string_dec v q)).
Proof.
  intros Hes Hn Hvn _ Hv Hnq.
  split; [| split; [| split]].
  - eexists. split; [apply (calcular_ok d q es Hes) |].
    cbn [sintomas_faltantes sintomas_correspondentes].
    unfold spec_missing, spec_matched. rewrite !filter_In.
    assert (Hk : In n (map fst (dict_of es []))) by (apply dict_of_keys; now right).
    assert (Hc : Py.contains q n = false) by now apply contains_not_In.
    rewrite Hc. split; [auto | intros [_ H]; discriminate H].
  - intros Hvd. apply (calcular_ext d es); [exact Hes |].
    intros m Hm. apply in_remove_iff. intros ->. contradiction.
  - intros Hob. now apply (verificar_condicoes_obrigatorio d q n).
  - intros Hvd Hvo. apply verificar_condicoes_ext.
    + intros m Hm. apply in_remove_iff. intros ->. contradiction.
    + intros nomes m Hnomes Hm. apply in_remove_iff. intros ->.
      unfold entradas in Hes. rewrite (nomes_de_entradas _ _ Hes) in Hnomes.
      apply Ok_inj in Hnomes. subst nomes. contradiction.
Qed.

Lemma C10_exact_matching_witness :
  exists r, _calcular flu ["Fever"%string] = Ok r
            /\ In "fever"%string (sintomas_faltantes r)
            /\ ~ In "fever"%string (sintomas_correspondentes r).
Proof.
  assert (Hes : entradas flu
                = Ok [("fever"%string, F64.of_Z 1); ("cough"%string, F64.of_Z 1);
                      ("fatigue"%string, F64.of_dec 5 10)])
    by (vm_compute; reflexivity).
  apply (C10_exact_matching Py.lower flu _ ["Fever"%string]
           "fever"%string "Fever"%string Hes).
  - simpl. tauto.
  - discriminate.
  - reflexivity.
  - simpl. tauto.
  - simpl. intros [H | []]. discriminate H.
Defined.

(* ===================================================================== *)
(** * The engine                                                          *)
(* ===================================================================== *)

Lemma gerar_cache_key_Permutation (l l' : list string) :
  Permutation l l' -> _gerar_cache_key l = _gerar_cache_key l'.
Proof. intros H. unfold _gerar_cache_key. now rewrite (sorted_Permutation l l' H). Qed.

Lemma inelegivel_verificar (d : Doenca) (q : list string) :
  inelegivel d q -> _verificar_condicoes d q = Ok false.
Proof.
  intros [(o & Ho & Hq) | (Hmin & nomes & Hn & Hlt)].
  - now apply (verificar_condicoes_obrigatorio d q o).
  - unfold _verificar_condicoes.
    destruct (negb (forallb (Py.contains q)
                      (default [] (sintomas_obrigatorios (condicoes d)))));
      [reflexivity |].
    replace (0 <? default 0 (min_sintomas (condicoes d))) with true by lia.
    rewrite Hn. cbn [bind].
    now replace (Z.of_nat (length (List.filter (Py.contains q) nomes))
                 <? default 0 (min_sintomas (condicoes d))) with true by lia.
Qed.

Lemma calcular_doenca (d : Doenca) (q : list string) (r : ResultadoDiagnostico) :
  _calcular d q = Ok r -> doenca r = d.
Proof.
  intros H. destruct (entradas d) as [es | e] eqn:E.
  - rewrite (calcular_ok d q es E) in H. apply Ok_inj in H. now subst r.
  - rewrite (calcular_raise d q e E) in H. discriminate.
Qed.

(** The loop returns what the specification keeps, after what it had. *)
Lemma avaliar_doencas_mantidos (cfg : Config) (ds : list Doenca)
    (q : list string) (acc out : list ResultadoDict) :
  avaliar_doencas cfg ds q acc = Ok out ->
  exists rs, mantidos cfg q ds rs /\ out = acc ++ map to_dict rs.
Proof.
  revert acc. induction ds as [| d ds IH]; intros acc H; simpl in H.
  - apply Ok_inj in H. subst. exists []. split; [constructor | now rewrite app_nil_r].
  - destruct (_verificar_condicoes d q) as [[|] | e] eqn:Ev; simpl in H;
      [| | discriminate].
    + destruct (_calcular d q) as [r | e] eqn:Ec; simpl in H; [| discriminate].
      destruct (F64.leb (PORCENTAGEM_MINIMA cfg) (porcentagem r)) eqn:El.
      * destruct (IH _ H) as (rs & Hm & ->).
        exists (r :: rs). split; [now apply mantidos_resultado |].
        simpl. now rewrite <- app_assoc.
      * destruct (IH _ H) as (rs & Hm & ->).
        exists rs. split; [now apply (mantidos_abaixo cfg q d ds r) | reflexivity].
    + destruct (IH _ H) as (rs & Hm & ->).
      exists rs. split; [now apply mantidos_inelegivel | reflexivity].
Qed.



Lemma avaliar_vazio (cfg : Config) (self : DiagnosticoEngine) :
  avaliar cfg self [] = Ok ([], self).
Proof. reflexivity. Qed.

Lemma avaliar_hit (cfg : Config) (self : DiagnosticoEngine) (q : list string)
    (guardado : list ResultadoDict) :
  q <> [] -> cache self !! _gerar_cache_key q = Some guardado ->
  avaliar cfg self q = Ok (guardado, self).
Proof.
  intros Hq Hc. destruct q as [| s q]; [congruence |].
  unfold avaliar. now rewrite Hc.
Qed.

Lemma avaliar_miss (cfg : Config) (self : DiagnosticoEngine) (q : list string) :
  q <> [] -> cache self !! _gerar_cache_key q = None ->
  avaliar cfg self q
  = (resultados <- avaliar_doencas cfg (db_doencas self) q [] ;;
     Ok (Py.slice_to (LIMITE_RESULTADOS cfg)
           (Py.sort_reverse rd_porcentagem resultados),
         {| db_doencas := db_doencas self;
            cache := <[_gerar_cache_key q :=
                         Py.slice_to (LIMITE_RESULTADOS cfg)
                           (Py.sort_reverse rd_porcentagem resultados)]>
                       (cache self) |})).
Proof.
  intros Hq Hc. destruct q as [| s q]; [congruence |].
  unfold avaliar. now rewrite Hc.
Qed.

(** What a call that missed the cache and returned has done. *)
Lemma avaliar_miss_Ok (cfg : Config) (self : DiagnosticoEngine)
    (q : list string) (out : list ResultadoDict) (self' : DiagnosticoEngine) :
  q <> [] -> cache self !! _gerar_cache_key q = None ->
  avaliar cfg self q = Ok (out, self') ->
  exists res,
    avaliar_doencas cfg (db_doencas self) q [] = Ok res
    /\ out = Py.slice_to (LIMITE_RESULTADOS cfg)
               (Py.sort_reverse rd_porcentagem res)
    /\ self' = {| db_doencas := db_doencas self;
                  cache := <[_gerar_cache_key q := out]> (cache self) |}.
Proof.
  intros Hq Hmiss H. rewrite (avaliar_miss cfg self q Hq Hmiss) in H.
  destruct (avaliar_doencas cfg (db_doencas self) q []) as [res | e];
    [| discriminate].
  cbn [bind] in H. apply Ok_inj in H. exists res.
  split; [reflexivity |]. split; congruence.
Qed.

Lemma avaliar_vazio_Ok (cfg : Config) (self : DiagnosticoEngine)
    (out : list ResultadoDict) (self' : DiagnosticoEngine) :
  avaliar cfg self [] = Ok (out, self') -> out = [] /\ self' = self.
Proof.
  rewrite avaliar_vazio. intros H. apply Ok_inj in H. split; congruence.
Qed.

Lemma mantidos_validos (cfg : Config) (q : list string) (ds : list Doenca)
    (rs : list ResultadoDiagnostico) :
  mantidos cfg q ds rs ->
  Forall (fun r => In (doenca r) ds
                   /\ _verificar_condicoes (doenca r) q = Ok true
                   /\ _calcular (doenca r) q = Ok r
                   /\ F64.leb (PORCENTAGEM_MINIMA cfg) (porcentagem r) = true) rs.
Proof.
  induction 1 as [| d ds rs Hv Hm IH | d ds r rs Hv Hc Hl Hm IH
                  | d ds r rs Hv Hc Hl Hm IH].
  - constructor.
  - eapply List.Forall_impl; [| exact IH]. intros r (? & ? & ? & ?).
    repeat split; try assumption. now right.
  - eapply List.Forall_impl; [| exact IH]. intros r' (? & ? & ? & ?).
    repeat split; try assumption. now right.
  - constructor.
    + rewrite (calcular_doenca d q r Hc). repeat split; try assumption. now left.
    + eapply List.Forall_impl; [| exact IH]. intros r' (? & ? & ? & ?).
      repeat split; try assumption. now right.
Qed.

(** Two queries with the same elements are scanned alike. *)
Lemma calcular_mesmo_conjunto (d : Doenca) (a b : list string) :
  (forall x, In x a <-> In x b) ->
  res_map to_dict (_calcular d a) = res_map to_dict (_calcular d b).
Proof.
  intros H. destruct (entradas d) as [es | e] eqn:E.
  - apply (calcular_ext d es); [exact E | intros n _; apply H].
  - now rewrite !(calcular_raise d _ e E).
Qed.

Lemma avaliar_doencas_mesmo_conjunto (cfg : Config) (ds : list Doenca)
    (a b : list string) (acc : list ResultadoDict) :
  (forall x, In x a <-> In x b) ->
  avaliar_doencas cfg ds a acc = avaliar_doencas cfg ds b acc.
Proof.
  intros H. revert acc. induction ds as [| d ds IH]; intros acc; simpl.
  - reflexivity.
  - rewrite (verificar_condicoes_ext d a b) by (intros; apply H).
    destruct (_verificar_condicoes d b) as [ok | e]; [| reflexivity].
    cbn [bind]. destruct ok; simpl; [| apply IH].
    pose proof (calcular_mesmo_conjunto d a b H) as Hc.
    destruct (_calcular d a) as [ra | ea], (_calcular d b) as [rb | eb];
      simpl in Hc; try discriminate Hc.
    + apply Ok_inj in Hc. cbn [bind].
      assert (Hp : porcentagem ra = porcentagem rb)
        by exact (f_equal rd_porcentagem Hc).
      rewrite Hp, Hc. destruct (F64.leb _ _); apply IH.
    + cbn [bind]. congruence.
Qed.

(** ** C9 *)

(** C9.  For the empty query, [avaliar] returns the empty sequence and
    leaves the engine, its cache included, as it was, whatever the cache
    holds and whatever the catalog is (a catalog with a malformed record,
    which would raise if it were scanned, included). *)
Theorem C9_empty_query (cfg : Config) (self : DiagnosticoEngine) :
  avaliar cfg self [] = Ok ([], self).
Proof. apply avaliar_vazio. Qed.

(** ** C5 *)

Lemma sem_repeticao_NoDup (l : list string) :
  sem_repeticao l = true -> List.NoDup l.
Proof.
  induction l as [| x l IH]; simpl; intros H; [constructor |].
  apply andb_true_iff in H as [Hx Hl]. apply negb_true_iff in Hx.
  constructor; [now apply contains_not_In | now apply IH].
Qed.

Lemma spec_regular_entradas (d : Doenca) :
  spec_regular d = true ->
  entradas d = Ok (spec_sintomas d)
  /\ List.NoDup (map fst (spec_sintomas d)).
Proof.
  unfold spec_regular. intros H. apply andb_true_iff in H as [Hf Hn].
  split; [| now apply sem_repeticao_NoDup].
  clear Hn. unfold spec_legivel in Hf. unfold entradas, spec_sintomas.
  induction (sintomas d) as [| s l IH]; [reflexivity |].
  cbn [forallb] in Hf. apply andb_true_iff in Hf as [Hs Hl].
  cbn [mapM omap list_omap]. rewrite (IH Hl).
  destruct s as [[n |] [[w | b |] |] | t]; simpl in Hs; try discriminate;
    reflexivity.
Qed.

Lemma spec_regular_verificar (d : Doenca) (q : list string) :
  spec_regular d = true ->
  _verificar_condicoes d q = Ok (spec_elegivel d q).
Proof.
  intros H. destruct (spec_regular_entradas d H) as [Hf Hnd].
  unfold _verificar_condicoes, spec_elegivel.
  destruct (forallb (Py.contains q)
              (default [] (sintomas_obrigatorios (condicoes d))));
    cbn [negb andb]; [| reflexivity].
  destruct (0 <? default 0 (min_sintomas (condicoes d))) eqn:Hm;
    [| reflexivity].
  rewrite (nomes_de_entradas _ _ Hf). cbn [bind].
  rewrite (nodup_fixed_point string_dec Hnd).
  destruct (Z.ltb_spec
              (Z.of_nat (length (List.filter (Py.contains q)
                                   (map fst (spec_sintomas d)))))
              (default 0 (min_sintomas (condicoes d))));
    destruct (Z.leb_spec
                (default 0 (min_sintomas (condicoes d)))
                (Z.of_nat (length (List.filter (Py.contains q)
                                     (map fst (spec_sintomas d))))));
    try reflexivity; lia.
Qed.

Lemma spec_regular_calcular (d : Doenca) (q : list string) :
  spec_regular d = true ->
  exists r, _calcular d q = Ok r
    /\ to_dict r = spec_resultado code_percentage d q.
Proof.
  intros H. destruct (spec_regular_entradas d H) as [Hf Hnd].
  rewrite (calcular_ok d q _ Hf).
  eexists. split; [reflexivity |].
  unfold to_dict, spec_resultado.
  cbn [doenca porcentagem sintomas_correspondentes sintomas_faltantes
       pontuacao_bruta pontuacao_maxima].
  rewrite (dict_of_NoDup (spec_sintomas d) []) by exact Hnd.
  reflexivity.
Qed.

Lemma avaliar_doencas_spec (cfg : Config) (ds : list Doenca)
    (q : list string) (acc : list ResultadoDict) :
  forallb spec_regular ds = true ->
  avaliar_doencas cfg ds q acc
  = Ok (acc ++ spec_mantidos code_percentage cfg ds q).
Proof.
  revert acc. induction ds as [| d ds IH]; intros acc H.
  - simpl. now rewrite app_nil_r.
  - cbn [forallb] in H. apply andb_true_iff in H as [Hd Hds].
    specialize (fun acc => IH acc Hds).
    cbn [avaliar_doencas]. rewrite (spec_regular_verificar d q Hd).
    cbn [bind]. unfold spec_mantidos. cbn [List.filter].
    destruct (spec_elegivel d q); cbn [negb].
    + destruct (spec_regular_calcular d q Hd) as (r & -> & Er). cbn [bind].
      cbn [map List.filter]. rewrite <- Er.
      change (rd_porcentagem (to_dict r)) with (porcentagem r).
      destruct (F64.leb (PORCENTAGEM_MINIMA cfg) (porcentagem r)).
      * rewrite IH, <- app_assoc. reflexivity.
      * apply IH.
    + apply IH.
Qed.

Lemma spec_mantidos_sem_nan (pct : F64.float -> F64.float -> F64.float)
    (cfg : Config) (ds : list Doenca) (q : list string) :
  Forall (fun x => F64.is_nan (rd_porcentagem x) = false)
    (spec_mantidos pct cfg ds q).
Proof.
  apply List.Forall_forall. intros x Hx. unfold spec_mantidos in Hx.
  apply filter_In in Hx as [_ Hx]. now apply leb_not_nan in Hx.
Qed.

(** C5 fails in three ways.  With a minimum percentage of 28.8, Empate is
    eligible for [["x"]] and its percentage by the formula of the claim,
    [round(100 * 11.5 / 40.0, 1)], is 28.8, and yet nothing is returned:
    the engine computes 28.7.  Dupla, which lists the name [a] twice and
    asks for an overlap of 2, is not eligible for [["a"; "fever"]], one of
    its symptom names being in the query, and yet its result is returned,
    in front of that of Flu.  And with a record whose symptom entry has no
    name behind Flu, nothing is returned at all: the call raises. *)
Lemma C5_counterexample :
  (spec_elegivel empate ["x"%string] = true
   /\ spec_mantidos spec_percentage config_min_288 [empate] ["x"%string]
      = [spec_resultado spec_percentage empate ["x"%string]]
   /\ rd_porcentagem (spec_resultado spec_percentage empate ["x"%string])
      = F64.of_dec 288 10
   /\ exists self',
        avaliar config_min_288 (novo_engine [empate]) ["x"%string]
        = Ok ([], self'))
  /\ (spec_elegivel dupla ["a"; "fever"]%string = false
      /\ exists out self',
           avaliar CONFIG (novo_engine [flu; dupla]) ["a"; "fever"]%string
           = Ok (out, self')
           /\ map rd_doenca out = ["Dupla"; "Flu"]%string)
  /\ avaliar CONFIG (novo_engine [flu; malformada]) ["fever"%string]
     = Raise (KeyError "s").
Proof.
  split; [| split].
  - split; [vm_compute; reflexivity |].
    split; [vm_compute; reflexivity |].
    split; [vm_compute; reflexivity |].
    eexists. vm_compute. reflexivity.
  - split; [vm_compute; reflexivity |].
    eexists. eexists. split; [vm_compute; reflexivity |].
    vm_compute. reflexivity.
  - vm_compute. reflexivity.
Qed.

(** C5, amended.  Let the catalog hold conditions of the data model only
    (every symptom entry has a name and a weight, and no condition lists
    a name twice), and let the percentage be the one that the scorer
    computes, [round((raw_score / max_score) * 100, 1)].  On a cache miss
    of a query that is not empty, [avaliar] returns; what it returns is
    made of exactly the output records of the eligible conditions whose
    percentage is at least the minimum ([spec_mantidos], in catalog
    order): these records arranged by descending percentage, records of
    equal percentage staying in catalog order ([ordenados]), and cut by
    [[:LIMITE_RESULTADOS]], which are the first [LIMITE_RESULTADOS]
    entries when that is not negative.  That same sequence is stored in
    the cache under the key of the query, and nothing else of the engine
    changes. *)
Theorem C5_cache_miss (cfg : Config) (self : DiagnosticoEngine)
    (q : list string) :
  q <> [] ->
  cache self !! _gerar_cache_key q = None ->
  forallb spec_regular (db_doencas self) = true ->
  exists out self' ordenados,
    avaliar cfg self q = Ok (out, self')
    /\ Permutation ordenados
         (spec_mantidos code_percentage cfg (db_doencas self) q)
    /\ StronglySorted porcentagem_desc ordenados
    /\ (forall p, com_porcentagem p ordenados
                  = com_porcentagem p
                      (spec_mantidos code_percentage cfg (db_doencas self) q))
    /\ out = Py.slice_to (LIMITE_RESULTADOS cfg) ordenados
    /\ (0 <= LIMITE_RESULTADOS cfg ->
        out = firstn (Z.to_nat (LIMITE_RESULTADOS cfg)) ordenados
        /\ Z.of_nat (length out) <= LIMITE_RESULTADOS cfg)
    /\ cache self' = <[_gerar_cache_key q := out]> (cache self)
    /\ db_doencas self' = db_doencas self.
Proof.
  intros Hq Hmiss Hreg.
  rewrite (avaliar_miss cfg self q Hq Hmiss).
  rewrite (avaliar_doencas_spec cfg (db_doencas self) q [] Hreg).
  cbn [bind app].
  set (kept := spec_mantidos code_percentage cfg (db_doencas self) q).
  eexists. eexists. exists (Py.sort_reverse rd_porcentagem kept).
  split; [reflexivity |].
  split; [apply sort_reverse_Permutation |].
  split.
  { apply (sort_reverse_sorted rd_porcentagem). apply spec_mantidos_sem_nan. }
  split; [intros p; apply (sort_reverse_stable rd_porcentagem) |].
  split; [reflexivity |].
  split.
  { intros Hn. split.
    - unfold Py.slice_to.
      now replace (0 <=? LIMITE_RESULTADOS cfg) with true by lia.
    - now apply slice_to_length. }
  split; reflexivity.
Qed.

Lemma C5_cache_miss_witness :
  exists out self' ordenados,
    avaliar config_limite_2 (novo_engine catalogo_misto)
      ["fever"; "cough"; "p"]%string = Ok (out, self')
    /\ Permutation ordenados
         (spec_mantidos code_percentage config_limite_2 catalogo_misto
            ["fever"; "cough"; "p"]%string)
    /\ StronglySorted porcentagem_desc ordenados
    /\ (forall p, com_porcentagem p ordenados
                  = com_porcentagem p
                      (spec_mantidos code_percentage config_limite_2
                         catalogo_misto ["fever"; "cough"; "p"]%string))
    /\ out = Py.slice_to (LIMITE_RESULTADOS config_limite_2) ordenados
    /\ (0 <= LIMITE_RESULTADOS config_limite_2 ->
        out = firstn (Z.to_nat (LIMITE_RESULTADOS config_limite_2)) ordenados
        /\ Z.of_nat (length out) <= LIMITE_RESULTADOS config_limite_2)
    /\ cache self'
       = <[_gerar_cache_key ["fever"; "cough"; "p"]%string := out]>
           (cache (novo_engine catalogo_misto))
    /\ db_doencas self' = db_doencas (novo_engine catalogo_misto).
Proof.
  apply (C5_cache_miss config_limite_2 (novo_engine catalogo_misto)
           ["fever"; "cough"; "p"]%string).
  - discriminate.
  - apply lookup_empty.
  - vm_compute. reflexivity.
Defined.

(** The catalog of the witness: of Quarenta (40.0, below the minimum of
    50.0), Flu (80.0), Rare (not eligible), B (80.0) and C (100.0), the
    evaluation keeps Flu, B and C, arranges them as C, Flu, B, and returns
    the first two. *)
Example cache_miss_misto :
  map rd_doenca
    (spec_mantidos code_percentage config_limite_2 catalogo_misto
       ["fever"; "cough"; "p"]%string)
  = ["Flu"; "B"; "C"]%string
  /\ exists out self',
       avaliar config_limite_2 (novo_engine catalogo_misto)
         ["fever"; "cough"; "p"]%string = Ok (out, self')
       /\ map rd_doenca out = ["C"; "Flu"]%string
       /\ map rd_porcentagem out = [F64.of_Z 100; F64.of_Z 80].
Proof.
  split; [vm_compute; reflexivity |].
  eexists. eexists. split; [vm_compute; reflexivity |].
  split; [vm_compute; reflexivity |].
  vm_compute. reflexivity.
Qed.

(** ** C4 *)

(** C4 fails in two ways.  Dupla lists the name [a] twice and has a
    minimum overlap of 2: only one of its symptom names is in the query
    [["a"]], which is fewer than 2, and yet on a cache miss the output
    holds the result of Dupla, because the filter counts the two entries.
    And a cache hit does not look at the catalog: the query [["a"]] was
    answered with the result of Rare when Rare required no symptom; when
    the catalog has been replaced by one in which Rare requires [b], the
    same query is still answered with the result of Rare. *)
Lemma C4_counterexample :
  (spec_inelegivel dupla ["a"%string]
   /\ cache (novo_engine [dupla]) !! _gerar_cache_key ["a"%string] = None
   /\ exists out self' r,
        avaliar CONFIG (novo_engine [dupla]) ["a"%string] = Ok (out, self')
        /\ _calcular dupla ["a"%string] = Ok r
        /\ doenca r = dupla
        /\ out = [to_dict r])
  /\ (spec_inelegivel rare ["a"%string]
      /\ exists out e1,
           avaliar CONFIG (novo_engine [rare_antes]) ["a"%string]
           = Ok (out, e1)
           /\ map rd_doenca out = ["Rare"%string]
           /\ avaliar CONFIG (engine_de [rare] (cache e1)) ["a"%string]
              = Ok (out, engine_de [rare] (cache e1))).
Proof.
  split.
  - split.
    { right. split; [simpl; lia |].
      exists ["a"%string; "a"%string]. split; [reflexivity |]. simpl. lia. }
    split; [apply lookup_empty |].
    eexists. eexists. eexists.
    split; [vm_compute; reflexivity |].
    split; [vm_compute; reflexivity |].
    split; [reflexivity |].
    vm_compute. reflexivity.
  - split.
    { left. exists "b"%string. split; [simpl; tauto |].
      simpl. intros [H | []]. discriminate H. }
    eexists. eexists.
    split; [vm_compute; reflexivity |].
    split; [vm_compute; reflexivity |].
    vm_compute. reflexivity.
Qed.

(** Apart from that, the key of [["a"; "b"]] is the key of [["a,b"]], so
    after the first query the second is answered from the cache with the
    result of Rare, whose required symptom [b] the second query does not
    have.  The statement below is about queries with the same symptoms,
    and says nothing of two queries that the key confuses. *)
Example colisao_de_chaves :
  exists out e1 e2 r,
    avaliar CONFIG (novo_engine [rare]) ["a"%string; "b"%string] = Ok (out, e1)
    /\ avaliar CONFIG e1 ["a,b"%string] = Ok (out, e2)
    /\ _calcular rare ["a"%string; "b"%string] = Ok r
    /\ out = [to_dict r]
    /\ inelegivel rare ["a,b"%string].
Proof.
  eexists. eexists. eexists. eexists.
  split; [vm_compute; reflexivity |].
  split; [vm_compute; reflexivity |].
  split; [vm_compute; reflexivity |].
  split; [vm_compute; reflexivity |].
  left. exists "b"%string. split; [simpl; tauto |].
  simpl. intros [H | []]. discriminate H.
Qed.

(** What the entries of an output are when the filter has been applied
    for the query [q]: each is the result of a condition of the catalog
    that is eligible for [q], and so of a condition other than a given
    one, [d], that is not. *)
Lemma saida_elegivel (cfg : Config) (self : DiagnosticoEngine)
    (q : list string) (d : Doenca) (out : list ResultadoDict)
    (self' : DiagnosticoEngine) :
  inelegivel d q ->
  cache self !! _gerar_cache_key q = None ->
  avaliar cfg self q = Ok (out, self') ->
  Forall (fun x => exists r,
              x = to_dict r
              /\ In (doenca r) (db_doencas self)
              /\ _verificar_condicoes (doenca r) q = Ok true
              /\ res_map to_dict (_calcular (doenca r) q) = Ok x
              /\ doenca r <> d) out.
Proof.
  intros Hin Hmiss H.
  destruct q as [| s q].
  { apply avaliar_vazio_Ok in H as [-> _]. constructor. }
  destruct (avaliar_miss_Ok cfg self (s :: q) out self' ltac:(discriminate) Hmiss H)
    as (res & E & Eout & _).
  destruct (avaliar_doencas_mantidos _ _ _ _ _ E) as (rs & Hm & Hres).
  simpl in Hres. subst res.
  clear H. rewrite Eout. apply List.Forall_forall. intros x Hx.
  apply slice_to_In in Hx.
  apply (Permutation_in _ (sort_reverse_Permutation rd_porcentagem _)) in Hx.
  apply in_map_iff in Hx as (r & <- & Hr).
  pose proof (mantidos_validos _ _ _ _ Hm) as V.
  rewrite List.Forall_forall in V. destruct (V r Hr) as (V1 & V2 & V3 & _).
  exists r. split; [reflexivity |]. split; [exact V1 |]. split; [exact V2 |].
  split; [now rewrite V3 |].
  intros Hd. rewrite Hd, (inelegivel_verificar _ _ Hin) in V2. discriminate.
Qed.

Lemma inelegivel_mesmo_conjunto (d : Doenca) (q q0 : list string) :
  (forall x, In x q0 <-> In x q) ->
  inelegivel d q -> inelegivel d q0.
Proof.
  intros Hset [(o & Ho & Hq) | (Hmin & nomes & Hn & Hlt)].
  - left. exists o. split; [exact Ho |]. now rewrite Hset.
  - right. split; [exact Hmin |]. exists nomes. split; [exact Hn |].
    rewrite (List.filter_ext_in (Py.contains q0) (Py.contains q) nomes);
      [exact Hlt |].
    intros n _. now apply contains_ext.
Qed.

Lemma spec_inelegivel_distintos (d : Doenca) (q : list string) :
  (forall nomes, mapM nome_de (sintomas d) = Ok nomes -> List.NoDup nomes) ->
  spec_inelegivel d q -> inelegivel d q.
Proof.
  intros ND [H | (Hmin & nomes & E & Hc)]; [now left |].
  right. split; [exact Hmin |]. exists nomes. split; [exact E |].
  now rewrite (nodup_fixed_point string_dec (ND nomes E)) in Hc.
Qed.

(** C4, amended.  Eligibility is a pre-filter of every computation of
    results.  Let the condition [d] be excluded for the query: a required
    symptom is absent from the query, or the minimum overlap is positive
    and fewer of the condition's symptom entries than that have their name
    in the query, a name that the condition lists more than once being
    counted each time (for a condition whose symptom names are pairwise
    distinct that is the count of its symptom names in the query, as the
    specification has it).  Whenever [avaliar] misses the cache, [d]
    appears nowhere in the output, whatever its percentage: every entry of
    the output is the result of a condition of the catalog that is
    eligible, hence of another condition.  The same holds of an answer
    from the cache that was computed, over the same catalog, for a query
    with the same symptoms.  (A cache hit returns what is stored as it is;
    neither the filter is run again nor the catalog looked at.) *)
Theorem C4_eligibility_gate (cfg : Config) (self : DiagnosticoEngine)
    (q : list string) (d : Doenca) :
  ((forall nomes, mapM nome_de (sintomas d) = Ok nomes -> List.NoDup nomes) ->
   spec_inelegivel d q -> inelegivel d q)
  /\ (inelegivel d q ->
      (forall out self',
          cache self !! _gerar_cache_key q = None ->
          avaliar cfg self q = Ok (out, self') ->
          Forall (fun x => exists r,
                      x = to_dict r
                      /\ In (doenca r) (db_doencas self)
                      /\ _verificar_condicoes (doenca r) q = Ok true
                      /\ res_map to_dict (_calcular (doenca r) q) = Ok x
                      /\ doenca r <> d) out)
      /\ (forall q0 self0 out self0',
          (forall x, In x q0 <-> In x q) ->
          db_doencas self0 = db_doencas self ->
          cache self0 !! _gerar_cache_key q0 = None ->
          avaliar cfg self0 q0 = Ok (out, self0') ->
          q <> [] ->
          cache self !! _gerar_cache_key q = Some out ->
          avaliar cfg self q = Ok (out, self)
          /\ Forall (fun x => exists r,
                      x = to_dict r
                      /\ In (doenca r) (db_doencas self)
                      /\ _verificar_condicoes (doenca r) q = Ok true
                      /\ res_map to_dict (_calcular (doenca r) q) = Ok x
                      /\ doenca r <> d) out)).
Proof.
  split; [apply spec_inelegivel_distintos |].
  intros Hin. split.
  - intros out self'. now apply saida_elegivel.
  - intros q0 self0 out self0' Hset Hdb Hmiss0 H0 Hq Hhit.
    split; [now apply avaliar_hit |].
    pose proof (saida_elegivel cfg self0 q0 d out self0'
                  (inelegivel_mesmo_conjunto d q q0 Hset Hin) Hmiss0 H0) as F.
    eapply List.Forall_impl; [| exact F].
    intros x (r & Hx & Hcat & Hv & Hc & Hd).
    exists r. split; [exact Hx |]. split; [now rewrite <- Hdb |].
    split; [| split; [| exact Hd]].
    + rewrite <- Hv. apply verificar_condicoes_ext; intros; symmetry; apply Hset.
    + rewrite <- Hc. apply calcular_mesmo_conjunto. intros y. symmetry. apply Hset.
Qed.

Lemma C4_eligibility_gate_witness :
  spec_inelegivel rare ["fever"%string]
  /\ inelegivel rare ["fever"%string]
  /\ exists out self',
       avaliar CONFIG (novo_engine [rare; flu]) ["fever"%string]
       = Ok (out, self')
       /\ map rd_doenca out = ["Flu"%string]
       /\ Forall (fun x => exists r,
              x = to_dict r
              /\ In (doenca r) [rare; flu]
              /\ _verificar_condicoes (doenca r) ["fever"%string] = Ok true
              /\ res_map to_dict (_calcular (doenca r) ["fever"%string]) = Ok x
              /\ doenca r <> rare) out.
Proof.
  assert (Hs : spec_inelegivel rare ["fever"%string]).
  { left. exists "b"%string. split; [simpl; tauto |].
    simpl. intros [H | []]. discriminate H. }
  assert (Hin : inelegivel rare ["fever"%string]).
  { apply (proj1 (C4_eligibility_gate CONFIG (novo_engine [rare; flu])
                    ["fever"%string] rare)); [| exact Hs].
    intros nomes E. injection E as <-. repeat constructor. intros []. }
  split; [exact Hs |]. split; [exact Hin |].
  eexists. eexists. split; [vm_compute; reflexivity |].
  split; [vm_compute; reflexivity |].
  eapply (proj1 (proj2 (C4_eligibility_gate CONFIG (novo_engine [rare; flu])
                          ["fever"%string] rare) Hin)).
  - apply lookup_empty.
  - vm_compute. reflexivity.
Defined.

(** ** C6 *)

Lemma avaliar_doencas_app (cfg : Config) (pre post : list Doenca)
    (q : list string) (acc : list ResultadoDict) :
  avaliar_doencas cfg (pre ++ post) q acc
  = (mid <- avaliar_doencas cfg pre q acc ;; avaliar_doencas cfg post q mid).
Proof.
  revert acc. induction pre as [| d pre IH]; intros acc; simpl.
  - reflexivity.
  - destruct (_verificar_condicoes d q) as [b | e]; [| reflexivity]. cbn [bind].
    destruct b; simpl; [| apply IH].
    destruct (_calcular d q) as [r | e]; [| reflexivity]. cbn [bind].
    destruct (F64.leb _ _); apply IH.
Qed.

(** C6 fails: with a record whose symptom entry has no name in front of
    Flu, the query [fever] raises [KeyError], where the catalog of Flu alone
    gives the result of Flu. *)
Lemma C6_counterexample :
  avaliar CONFIG (novo_engine [malformada; flu]) ["fever"%string]
  = Raise (KeyError "s")
  /\ exists out self' r,
       avaliar CONFIG (novo_engine [flu]) ["fever"%string] = Ok (out, self')
       /\ _calcular flu ["fever"%string] = Ok r
       /\ out = [to_dict r].
Proof.
  split; [vm_compute; reflexivity |].
  eexists. eexists. eexists.
  split; [vm_compute; reflexivity |].
  split; [vm_compute; reflexivity |].
  vm_compute. reflexivity.
Qed.

Lemma avaliar_miss_Raise (cfg : Config) (self : DiagnosticoEngine)
    (q : list string) (e : exn) :
  q <> [] ->
  cache self !! _gerar_cache_key q = None ->
  avaliar_doencas cfg (db_doencas self) q [] = Raise e ->
  avaliar cfg self q = Raise e.
Proof.
  intros Hq Hmiss H. rewrite (avaliar_miss cfg self q Hq Hmiss), H.
  reflexivity.
Qed.

Lemma avaliar_Ok_doencas (cfg : Config) (self self' : DiagnosticoEngine)
    (q : list string) (out : list ResultadoDict) :
  q <> [] ->
  cache self !! _gerar_cache_key q = None ->
  avaliar cfg self q = Ok (out, self') ->
  exists mid, avaliar_doencas cfg (db_doencas self) q [] = Ok mid.
Proof.
  intros Hq Hmiss H.
  destruct (avaliar_miss_Ok cfg self q out self' Hq Hmiss H) as (mid & E & _).
  now exists mid.
Qed.

(** C6, amended.  The engine has no skip-and-continue.  A record of the
    catalog is passed over when the eligibility filter rejects it: the
    answer is what it is without the record.  A record is not looked at
    when the answer comes from the cache.  Otherwise, on a cache miss of
    a query that is not empty, when the evaluation of the records in
    front of a record returns and the filter or, the filter having let
    the record pass, the scorer raises an exception at that record, then
    [avaliar] raises that exception to the caller; neither results nor a
    cache entry come out of the call. *)
Theorem C6_malformed_records (cfg : Config) (q : list string)
    (pre post : list Doenca) (d : Doenca)
    (c : gmap string (list ResultadoDict)) :
  (_verificar_condicoes d q = Ok false ->
   res_map fst (avaliar cfg (engine_de (pre ++ d :: post) c) q)
   = res_map fst (avaliar cfg (engine_de (pre ++ post) c) q))
  /\ (forall guardado,
        q <> [] ->
        c !! _gerar_cache_key q = Some guardado ->
        avaliar cfg (engine_de (pre ++ d :: post) c) q
        = Ok (guardado, engine_de (pre ++ d :: post) c))
  /\ (forall e out self',
        q <> [] ->
        c !! _gerar_cache_key q = None ->
        avaliar cfg (engine_de pre c) q = Ok (out, self') ->
        _verificar_condicoes d q = Raise e
        \/ (_verificar_condicoes d q = Ok true /\ _calcular d q = Raise e) ->
        avaliar cfg (engine_de (pre ++ d :: post) c) q = Raise e).
Proof.
  split; [| split].
  - intros Hv. destruct q as [| s q]; [reflexivity |].
    destruct (c !! _gerar_cache_key (s :: q)) as [g |] eqn:Ec.
    + rewrite !(avaliar_hit cfg _ (s :: q) g) by (first [discriminate | exact Ec]).
      reflexivity.
    + rewrite !avaliar_miss by (first [discriminate | exact Ec]).
      cbn [db_doencas engine_de]. rewrite !avaliar_doencas_app.
      destruct (avaliar_doencas cfg pre (s :: q) []) as [mid | e];
        [| reflexivity].
      cbn [bind avaliar_doencas]. rewrite Hv. cbn [bind negb].
      destruct (avaliar_doencas cfg post (s :: q) mid); reflexivity.
  - intros g Hq Hhit. now apply avaliar_hit.
  - intros e out self' Hq Hmiss Hpre Hraise.
    destruct (avaliar_Ok_doencas cfg (engine_de pre c) self' q out Hq Hmiss
                Hpre) as [mid E].
    cbn [db_doencas engine_de] in E.
    apply (avaliar_miss_Raise cfg (engine_de (pre ++ d :: post) c));
      [exact Hq | exact Hmiss |].
    cbn [db_doencas engine_de]. rewrite avaliar_doencas_app, E.
    cbn [bind avaliar_doencas].
    destruct Hraise as [-> | [-> ->]]; reflexivity.
Qed.

Lemma C6_malformed_records_witness :
  avaliar CONFIG (engine_de ([flu] ++ malformada :: [quarenta]) ∅)
    ["fever"%string]
  = Raise (KeyError "s").
Proof.
  assert (H : exists out self',
             avaliar CONFIG (engine_de [flu] ∅) ["fever"%string]
             = Ok (out, self')).
  { eexists. eexists. vm_compute. reflexivity. }
  destruct H as (out & self' & H).
  apply (proj2 (proj2 (C6_malformed_records CONFIG ["fever"%string] [flu]
                         [quarenta] malformada ∅))
           (KeyError "s") out self').
  - discriminate.
  - apply lookup_empty.
  - exact H.
  - right. split; reflexivity.
Defined.

(** ** C2 *)

(** C2 fails for lists that differ in repeated elements: [["fever"]] and
    [["fever"; "fever"]] have the same elements and different keys, and
    after the first has been evaluated the second finds no entry under its
    key. *)
Lemma C2_counterexample :
  (forall x, In x ["fever"%string] <-> In x ["fever"%string; "fever"%string])
  /\ _gerar_cache_key ["fever"%string]
     = "6c1562051db6c994bf5b6db8afe5605e"%string
  /\ _gerar_cache_key ["fever"%string; "fever"%string]
     = "55a81f1bdfd1e3bcf0f19bff2e9dd8ad"%string
  /\ _gerar_cache_key ["fever"%string]
     <> _gerar_cache_key ["fever"%string; "fever"%string]
  /\ exists out e1,
       avaliar CONFIG (novo_engine [flu]) ["fever"%string] = Ok (out, e1)
       /\ cache e1 !! _gerar_cache_key ["fever"%string] = Some out
       /\ cache e1 !! _gerar_cache_key ["fever"%string; "fever"%string] = None.
Proof.
  split; [simpl; tauto |].
  split; [vm_compute; reflexivity |].
  split; [vm_compute; reflexivity |].
  split; [vm_compute; discriminate |].
  eexists. eexists.
  split; [vm_compute; reflexivity |].
  split; [vm_compute; reflexivity |].
  vm_compute. reflexivity.
Qed.

(** C2, amended.  Two query lists that are permutations of one another
    (the same names, each as many times) have the same cache key, and
    when [avaliar] has returned for the first, [avaliar] of the second
    returns the identical sequence and leaves the engine as it is: it is
    answered from the entry of the first.  Two lists with the same
    elements that differ in repetitions may have two keys; when both calls
    miss the cache, the second computes the identical sequence anew. *)
Theorem C2_same_key (a b : list string) :
  (Permutation a b ->
   _gerar_cache_key a = _gerar_cache_key b
   /\ forall cfg self out self',
        avaliar cfg self a = Ok (out, self') ->
        avaliar cfg self' b = Ok (out, self'))
  /\ ((forall x, In x a <-> In x b) ->
      forall cfg self out self',
        cache self !! _gerar_cache_key a = None ->
        avaliar cfg self a = Ok (out, self') ->
        cache self' !! _gerar_cache_key b = None ->
        exists self'', avaliar cfg self' b = Ok (out, self'')).
Proof.
  split.
  - intros Hp. pose proof (gerar_cache_key_Permutation a b Hp) as Hk.
    split; [exact Hk |].
    intros cfg self out self' H.
    destruct a as [| s a].
    { apply Permutation_nil in Hp. subst b.
      apply avaliar_vazio_Ok in H as [-> ->]. apply avaliar_vazio. }
    assert (Hb : b <> []).
    { intros ->. apply Permutation_sym, Permutation_nil in Hp. discriminate. }
    destruct (cache self !! _gerar_cache_key (s :: a)) as [g |] eqn:Ec.
    + rewrite (avaliar_hit cfg self (s :: a) g ltac:(discriminate) Ec) in H.
      apply Ok_inj in H.
      assert (out = g) by congruence. assert (self' = self) by congruence. subst.
      apply avaliar_hit; [exact Hb | now rewrite <- Hk].
    + destruct (avaliar_miss_Ok cfg self (s :: a) out self' ltac:(discriminate) Ec H)
        as (res & _ & _ & Eself).
      apply avaliar_hit; [exact Hb |].
      rewrite Eself, <- Hk. cbn [cache]. apply lookup_insert_eq.
  - intros Hset cfg self out self' Hma H Hmb.
    destruct a as [| s a].
    { assert (b = []) as ->.
      { destruct b as [| y b]; [reflexivity |].
        exfalso. apply (proj2 (Hset y)). now left. }
      apply avaliar_vazio_Ok in H as [-> _]. rewrite avaliar_vazio. eauto. }
    assert (Hb : b <> []).
    { intros ->. apply (proj1 (Hset s)). now left. }
    destruct (avaliar_miss_Ok cfg self (s :: a) out self' ltac:(discriminate) Hma H)
      as (res & E & Eout & Eself).
    rewrite (avaliar_miss cfg self' b Hb Hmb).
    replace (db_doencas self') with (db_doencas self) by (now rewrite Eself).
    rewrite <- (avaliar_doencas_mesmo_conjunto cfg _ (s :: a) b [] Hset), E.
    cbn [bind]. rewrite <- Eout. eauto.
Qed.

Lemma C2_same_key_witness :
  _gerar_cache_key ["tosse"%string; "febre"%string]
  = _gerar_cache_key ["febre"%string; "tosse"%string].
Proof.
  apply (proj1 (C2_same_key ["tosse"%string; "febre"%string]
                  ["febre"%string; "tosse"%string])).
  apply perm_swap.
Defined.

(* ===================================================================== *)
(** * The two caches                                                      *)
(* ===================================================================== *)

(** C3 fails for the engine's cache.  Under a configuration whose cache
    size is 1, two queries leave two entries in the cache of the engine:
    nothing is evicted, and the entry of the first query is still there. *)
Lemma C3_counterexample :
  CACHE_MAX_SIZE config_cache_1 = 1
  /\ exists o1 e1 o2 e2,
       avaliar config_cache_1 (novo_engine [flu]) ["fever"%string] = Ok (o1, e1)
       /\ avaliar config_cache_1 e1 ["cough"%string] = Ok (o2, e2)
       /\ size (cache e2) = 2%nat
       /\ cache e2 !! _gerar_cache_key ["fever"%string] = Some o1.
Proof.
  split; [reflexivity |].
  eexists. eexists. eexists. eexists.
  split; [vm_compute; reflexivity |].
  split; [vm_compute; reflexivity |].
  split; [vm_compute; reflexivity |].
  vm_compute. reflexivity.
Qed.

(** C3, amended.  The bounded cache is the one of the loader
    ([DataManager]).  With a maximum size of at least 1, the bound (no
    more than [cache_max_size] entries) is preserved by [_save_to_cache],
    by [_get_from_cache] and by [clear_cache].  [_save_to_cache] returns;
    the new entry is in the cache with [hits = 1]; and at capacity the
    entry it removes first is the first, in the order of the dict, of the
    entries with the lowest [hits].  A successful [_get_from_cache]
    returns the data of the entry and adds 1 to its [hits], the number of
    entries staying the same.  The cache of the engine has no bound, no hit
    counts and no eviction: a miss adds one entry and keeps every other. *)
Theorem C3_caches {A : Type} (now : F64.float) (self : DataManager.t A)
    (key : string) (d : A) :
  1 <= DataManager.cache_max_size self ->
  DataManager.limitado self ->
  (exists self',
      DataManager._save_to_cache now self key d = Ok self'
      /\ DataManager.limitado self'
      /\ DataManager.cache_max_size self' = DataManager.cache_max_size self
      /\ Py.dict_get key (DataManager.cache self')
         = Some {| DataManager.data := d; DataManager.timestamp := now;
                   DataManager.hits := 1 |}
      /\ (Z.of_nat (length (DataManager.cache self))
          = DataManager.cache_max_size self ->
          exists l1 lru l2,
            DataManager.cache self = l1 ++ lru :: l2
            /\ Forall (fun e => DataManager.hits (snd lru)
                                < DataManager.hits (snd e)) l1
            /\ Forall (fun e => DataManager.hits (snd lru)
                                <= DataManager.hits (snd e)) l2
            /\ DataManager.cache self'
               = Py.dict_set key
                   {| DataManager.data := d; DataManager.timestamp := now;
                      DataManager.hits := 1 |} (l1 ++ l2)))
  /\ (DataManager.limitado (snd (DataManager._get_from_cache now self key))
      /\ forall v,
          fst (DataManager._get_from_cache now self key) = Some v ->
          exists e,
            Py.dict_get key (DataManager.cache self) = Some e
            /\ v = DataManager.data e
            /\ Py.dict_get key
                 (DataManager.cache
                    (snd (DataManager._get_from_cache now self key)))
               = Some {| DataManager.data := DataManager.data e;
                         DataManager.timestamp := DataManager.timestamp e;
                         DataManager.hits := DataManager.hits e + 1 |}
            /\ length (DataManager.cache
                         (snd (DataManager._get_from_cache now self key)))
               = length (DataManager.cache self))
  /\ DataManager.cache (DataManager.clear_cache self) = []
  /\ (forall cfg eng q out eng',
      q <> [] ->
      cache eng !! _gerar_cache_key q = None ->
      avaliar cfg eng q = Ok (out, eng') ->
      size (cache eng') = S (size (cache eng))
      /\ forall k v, cache eng !! k = Some v -> cache eng' !! k = Some v).
Proof.
  intros Hmax [Hnd Hlen].
  split; [| split; [| split]].
  - unfold DataManager._save_to_cache.
    destruct (Z.geb_spec (Z.of_nat (length (DataManager.cache self)))
                (DataManager.cache_max_size self)) as [Hfull | Hroom].
    + assert (Hne : DataManager.cache self <> []).
      { intros E. rewrite E in Hfull. simpl in Hfull. lia. }
      destruct (min_by_first (fun kv => DataManager.hits (snd kv)) _ Hne)
        as (lru & l1 & l2 & Hmin & Hsplit & H1 & H2).
      rewrite Hmin. cbn [bind].
      assert (Hdel : Py.dict_del (fst lru) (DataManager.cache self) = l1 ++ l2).
      { rewrite Hsplit. apply dict_del_middle. now rewrite <- Hsplit. }
      rewrite Hdel. eexists. split; [reflexivity |].
      assert (Hnd' : List.NoDup (map fst (l1 ++ l2))).
      { rewrite <- Hdel. now apply dict_del_NoDup. }
      assert (Hl : S (length (l1 ++ l2)) = length (DataManager.cache self)).
      { rewrite Hsplit, !length_app. simpl. lia. }
      split; [split |]; cbn [DataManager.cache DataManager.with_cache
                             DataManager.cache_max_size].
      * now apply dict_set_NoDup.
      * pose proof (dict_set_length (l1 ++ l2) key
                      {| DataManager.data := d; DataManager.timestamp := now;
                         DataManager.hits := 1 |}). lia.
      * split; [reflexivity |]. split; [apply dict_get_set |].
        intros _. exists l1, lru, l2. repeat split; assumption.
    + cbn [bind]. eexists. split; [reflexivity |].
      split; [split |]; cbn [DataManager.cache DataManager.with_cache
                             DataManager.cache_max_size].
      * now apply dict_set_NoDup.
      * pose proof (dict_set_length (DataManager.cache self) key
                      {| DataManager.data := d; DataManager.timestamp := now;
                         DataManager.hits := 1 |}). lia.
      * split; [reflexivity |]. split; [apply dict_get_set |]. lia.
  - unfold DataManager._get_from_cache.
    destruct (Py.dict_get key (DataManager.cache self)) as [e |] eqn:Eg.
    + destruct (Py.float_lt_int _ _);
        cbn [fst snd DataManager.cache DataManager.with_cache].
      * split.
        -- split; cbn [DataManager.cache DataManager.with_cache
                       DataManager.cache_max_size].
           ++ now apply dict_set_NoDup.
           ++ rewrite dict_set_length_in; [exact Hlen |].
              now apply (dict_get_In _ _ e).
        -- intros v Hv. exists e.
           split; [reflexivity |]. split; [congruence |].
           split; [apply dict_get_set |].
           apply dict_set_length_in. now apply (dict_get_In _ _ e).
      * split; [| discriminate].
        split; cbn [DataManager.cache DataManager.with_cache
                    DataManager.cache_max_size].
        -- now apply dict_del_NoDup.
        -- pose proof (dict_del_length_le (DataManager.cache self) key). lia.
    + cbn [fst snd]. split; [split; assumption | discriminate].
  - reflexivity.
  - intros cfg eng q out eng' Hq Hmiss H.
    destruct (avaliar_miss_Ok cfg eng q out eng' Hq Hmiss H)
      as (res & _ & _ & Eself).
    rewrite Eself. cbn [cache]. split.
    + now apply map_size_insert_None.
    + intros k v Hk. rewrite lookup_insert_ne; [exact Hk |].
      intros <-. congruence.
Qed.

Lemma C3_caches_witness :
  exists self' : DataManager.t nat,
    DataManager._save_to_cache F64.zero
      {| DataManager.cache :=
           [("k1"%string,
             {| DataManager.data := 1%nat; DataManager.timestamp := F64.zero;
                DataManager.hits := 3 |})];
         DataManager.cache_ttl := 300;
         DataManager.cache_max_size := 1 |}
      "k2"%string 2%nat = Ok self'
    /\ DataManager.limitado self'.
Proof.
  destruct (C3_caches F64.zero
              {| DataManager.cache :=
                   [("k1"%string,
                     {| DataManager.data := 1%nat;
                        DataManager.timestamp := F64.zero;
                        DataManager.hits := 3 |})];
                 DataManager.cache_ttl := 300;
                 DataManager.cache_max_size := 1 |}
              "k2"%string 2%nat)
    as [(self' & Hs & Hl & _) _].
  - simpl. lia.
  - split; simpl; [repeat constructor; simpl; tauto | lia].
  - exists self'. split; assumption.
Defined.

(* ===================================================================== *)
(** * Scenarios of the specification                                      *)
(* ===================================================================== *)

(** Scenario 2: Rare, which requires [b], is filtered out for the query
    [a]. *)
Example scenario_2 :
  exists self', avaliar CONFIG (novo_engine [rare]) ["a"%string] = Ok ([], self').
Proof. eexists. vm_compute. reflexivity. Qed.

(** Scenario 3: with a minimum of 50.0 and two conditions that score 80.0
    and 40.0, the first alone is returned. *)
Example scenario_3 :
  exists r40 r80 out self',
    _calcular quarenta ["fever"%string; "cough"%string; "p"%string] = Ok r40
    /\ porcentagem r40 = F64.of_Z 40
    /\ _calcular flu ["fever"%string; "cough"%string; "p"%string] = Ok r80
    /\ porcentagem r80 = F64.of_Z 80
    /\ avaliar config_min_50 (novo_engine [quarenta; flu])
         ["fever"%string; "cough"%string; "p"%string] = Ok (out, self')
    /\ out = [to_dict r80].
Proof.
  eexists. eexists. eexists. eexists.
  split; [vm_compute; reflexivity |].
  split; [vm_compute; reflexivity |].
  split; [vm_compute; reflexivity |].
  split; [vm_compute; reflexivity |].
  split; [vm_compute; reflexivity |].
  vm_compute. reflexivity.
Qed.

(** Equal percentages keep the order of the catalog: two copies of Flu
    under other names come out in the order they have in the catalog. *)
Example empate_estavel :
  exists out self',
    avaliar CONFIG
      (novo_engine [doenca_de "B" (sintomas flu) sem_condicoes;
                    doenca_de "A" (sintomas flu) sem_condicoes; flu])
      ["fever"%string] = Ok (out, self')
    /\ map rd_doenca out = ["B"%string; "A"%string; "Flu"%string].
Proof.
  eexists. eexists.
  split; [vm_compute; reflexivity |].
  vm_compute. reflexivity.
Qed.

(* ===================================================================== *)
(** * More on the scorer                                                  *)
(* ===================================================================== *)

(** ** The two lists of a result *)

Lemma dict_of_keys_NoDup (es sd : Py.dict F64.float) :
  List.NoDup (map fst sd) -> List.NoDup (map fst (dict_of es sd)).
Proof.
  revert sd. induction es as [| [n w] es IH]; intros sd H; simpl.
  - exact H.
  - apply IH. now apply dict_set_NoDup.
Qed.

Lemma NoDup_filter_particao {A : Type} (p : A -> bool) (l : list A) :
  List.NoDup l ->
  List.NoDup (List.filter p l ++ List.filter (fun x => negb (p x)) l).
Proof.
  induction 1 as [| x l Hx Hl IH]; simpl.
  - constructor.
  - destruct (p x); simpl.
    + constructor; [| exact IH].
      rewrite in_app_iff, !filter_In. tauto.
    + apply List.NoDup_app_remove_l with (l := []). simpl.
      apply Permutation_NoDup with
        (l := x :: List.filter p l ++ List.filter (fun x => negb (p x)) l).
      * apply Permutation_middle.
      * constructor; [| exact IH].
        rewrite in_app_iff, !filter_In. tauto.
Qed.

Lemma calcular_Ok_entradas (d : Doenca) (q : list string)
    (r : ResultadoDiagnostico) :
  _calcular d q = Ok r -> exists es, entradas d = Ok es.
Proof.
  intros H. destruct (entradas d) as [es | e] eqn:E; [now exists es |].
  rewrite (calcular_raise d q e E) in H. discriminate.
Qed.

(** X1: the matched and the missing symptoms of every result are a
    partition of the condition's symptom names: together they hold each
    name once, the matched ones are those of the query and the missing
    ones those not in it. *)
Theorem calcular_particao (d : Doenca) (q : list string)
    (r : ResultadoDiagnostico) :
  _calcular d q = Ok r ->
  exists nomes,
    mapM nome_de (sintomas d) = Ok nomes
    /\ List.NoDup (sintomas_correspondentes r ++ sintomas_faltantes r)
    /\ (forall n, In n (sintomas_correspondentes r) <-> In n nomes /\ In n q)
    /\ (forall n, In n (sintomas_faltantes r) <-> In n nomes /\ ~ In n q).
Proof.
  intros H. destruct (calcular_Ok_entradas d q r H) as [es E].
  rewrite (calcular_ok d q es E) in H. apply Ok_inj in H. subst r.
  cbn [sintomas_correspondentes sintomas_faltantes].
  exists (map fst es). split; [now apply nomes_de_entradas |].
  unfold spec_matched, spec_missing.
  assert (K : forall n, In n (map fst (dict_of es [])) <-> In n (map fst es)).
  { intros n. rewrite dict_of_keys. simpl. tauto. }
  split; [| split].
  - apply NoDup_filter_particao, dict_of_keys_NoDup. constructor.
  - intros n. rewrite filter_In, K, contains_In. tauto.
  - intros n. rewrite filter_In, K, negb_true_iff, contains_not_In. tauto.
Qed.

Lemma calcular_particao_witness :
  exists r,
    _calcular repetida ["a"%string] = Ok r
    /\ exists nomes,
         mapM nome_de (sintomas repetida) = Ok nomes
         /\ List.NoDup (sintomas_correspondentes r ++ sintomas_faltantes r)
         /\ (forall n, In n (sintomas_correspondentes r)
                       <-> In n nomes /\ In n ["a"%string])
         /\ (forall n, In n (sintomas_faltantes r)
                       <-> In n nomes /\ ~ In n ["a"%string]).
Proof.
  eexists. split; [vm_compute; reflexivity |].
  apply (calcular_particao repetida ["a"%string]).
  vm_compute. reflexivity.
Defined.

(** ** The ends of the scale *)

Lemma round_q_zero (b : Z) : 0 < b -> F64.round_q 0 b = F64.zero.
Proof.
  intros Hb. unfold F64.round_q, F64.round_core, F64.shift_of.
  rewrite Z.div_0_l by lia.
  change (Z.max 0 (Z.log2 0 - 52)) with 0.
  rewrite Z.pow_0_r, !Z.mul_1_r.
  rewrite (rhe_exact 0 b Hb : F64.rhe 0 b = 0).
  reflexivity.
Qed.

Lemma round_q_self (m : Z) :
  0 < m -> F64.round_q (m * F64.one_ulps) m = F64.Fin F64.one_ulps.
Proof.
  intros Hm. pose proof one_ulps_pos as H1.
  unfold F64.round_q, F64.round_core, F64.shift_of.
  rewrite Z.abs_eq by nia.
  rewrite (Z.mul_comm m F64.one_ulps), Z.div_mul by lia.
  assert (Hk : Z.max 0 (Z.log2 F64.one_ulps - 52) = 1022)
    by (vm_compute; reflexivity).
  rewrite Hk.
  replace (F64.one_ulps * m) with (2 ^ 52 * (m * 2 ^ 1022)).
  2:{ unfold F64.one_ulps. change 1074 with (52 + 1022).
      rewrite Z.pow_add_r by lia. ring. }
  rewrite rhe_exact.
  2:{ assert (0 < 2 ^ 1022) by (apply Z.pow_pos_nonneg; lia). nia. }
  vm_compute. reflexivity.
Qed.

Lemma code_percentage_zero (mx : F64.float) :
  F64.ltb F64.zero mx = true -> code_percentage F64.zero mx = F64.zero.
Proof.
  intros H. unfold code_percentage.
  assert (E : F64.div F64.zero mx = F64.zero).
  { destruct mx as [m | | |]; simpl in H; try discriminate; [| reflexivity].
    apply Z.ltb_lt in H. unfold F64.zero, F64.div.
    replace (Z.sgn m * 0 * F64.one_ulps) with 0 by lia.
    apply round_q_zero. lia. }
  rewrite E. vm_compute. reflexivity.
Qed.

Lemma code_percentage_self (m : Z) :
  0 < m -> code_percentage (F64.Fin m) (F64.Fin m) = F64.of_Z 100.
Proof.
  intros Hm. unfold code_percentage.
  assert (E : F64.div (F64.Fin m) (F64.Fin m) = F64.Fin F64.one_ulps).
  { unfold F64.div. rewrite Z.sgn_pos, Z.abs_eq by lia.
    replace (1 * m * F64.one_ulps) with (m * F64.one_ulps) by lia.
    now apply round_q_self. }
  rewrite E. vm_compute. reflexivity.
Qed.

Lemma filter_todos {A : Type} (p : A -> bool) (l : list A) :
  (forall x, In x l -> p x = true) -> List.filter p l = l.
Proof.
  induction l as [| x l IH]; intros H; simpl; [reflexivity |].
  rewrite (H x) by now left. f_equal. apply IH. intros y Hy. apply H. now right.
Qed.

Lemma filter_nenhum {A : Type} (p : A -> bool) (l : list A) :
  (forall x, In x l -> p x = false) -> List.filter p l = [].
Proof.
  induction l as [| x l IH]; intros H; simpl; [reflexivity |].
  rewrite (H x) by now left. apply IH. intros y Hy. apply H. now right.
Qed.

Lemma spec_raw_score_todos (es : list (string * F64.float)) (q : list string) :
  (forall n, In n (map fst es) -> In n q) ->
  spec_raw_score es q = spec_max_score es.
Proof.
  intros H. unfold spec_raw_score, spec_max_score.
  rewrite filter_todos; [reflexivity |].
  intros [n w] Hx. apply contains_In, H, in_map_iff. now exists (n, w).
Qed.

(** X2: a condition with distinct symptom names whose weights sum to a
    positive finite number scores exactly 100.0 on every query that holds
    all its names, and nothing is missing then. *)
Theorem porcentagem_cheia (d : Doenca) (es : list (string * F64.float))
    (q : list string) (m : Z) :
  entradas d = Ok es ->
  List.NoDup (map fst es) ->
  (forall n, In n (map fst es) -> In n q) ->
  spec_max_score es = F64.Fin m -> 0 < m ->
  exists r, _calcular d q = Ok r
    /\ porcentagem r = F64.of_Z 100
    /\ sintomas_faltantes r = []
    /\ sintomas_correspondentes r = map fst es.
Proof.
  intros E ND Hq Hmax Hm.
  rewrite (calcular_ok d q es E). eexists. split; [reflexivity |].
  cbn [porcentagem sintomas_faltantes sintomas_correspondentes].
  rewrite (dict_of_NoDup es []) by exact ND. simpl app.
  rewrite (spec_raw_score_todos es q Hq), Hmax.
  assert (L : F64.ltb F64.zero (F64.Fin m) = true) by (simpl; lia).
  rewrite L. split; [now apply code_percentage_self |].
  unfold spec_missing, spec_matched. split.
  - apply filter_nenhum. intros n Hn. apply negb_false_iff, contains_In.
    now apply Hq.
  - apply filter_todos. intros n Hn. now apply contains_In, Hq.
Qed.

Lemma porcentagem_cheia_witness :
  exists r, _calcular flu ["fatigue"; "fever"; "cough"; "chills"]%string = Ok r
    /\ porcentagem r = F64.of_Z 100
    /\ sintomas_faltantes r = []
    /\ sintomas_correspondentes r = ["fever"; "cough"; "fatigue"]%string.
Proof.
  assert (M : spec_max_score
                [("fever"%string, F64.of_Z 1); ("cough"%string, F64.of_Z 1);
                 ("fatigue"%string, F64.of_dec 5 10)]
              = F64.Fin (5 * 2 ^ 1073)) by (vm_compute; reflexivity).
  apply (porcentagem_cheia flu
           [("fever"%string, F64.of_Z 1); ("cough"%string, F64.of_Z 1);
            ("fatigue"%string, F64.of_dec 5 10)]
           ["fatigue"; "fever"; "cough"; "chills"]%string (5 * 2 ^ 1073)).
  - vm_compute. reflexivity.
  - simpl. repeat constructor; simpl; intuition discriminate.
  - simpl. intuition (subst; auto).
  - exact M.
  - lia.
Defined.

(** X3: a query that holds none of the symptom names of a condition
    scores 0.0 on it, whatever the weights are: nothing is matched and
    the raw score is 0.0. *)
Theorem porcentagem_nula (d : Doenca) (q : list string)
    (r : ResultadoDiagnostico) (nomes : list string) :
  _calcular d q = Ok r ->
  mapM nome_de (sintomas d) = Ok nomes ->
  (forall n, In n nomes -> ~ In n q) ->
  porcentagem r = F64.zero
  /\ pontuacao_bruta r = F64.zero
  /\ sintomas_correspondentes r = [].
Proof.
  intros H N Hq. destruct (calcular_Ok_entradas d q r H) as [es E].
  rewrite (nomes_de_entradas _ _ E) in N. apply Ok_inj in N. subst nomes.
  rewrite (calcular_ok d q es E) in H. apply Ok_inj in H. subst r.
  cbn [porcentagem pontuacao_bruta sintomas_correspondentes].
  assert (K : forall n, In n (map fst (dict_of es [])) -> ~ In n q).
  { intros n Hn. apply Hq. apply dict_of_keys in Hn. simpl in Hn. tauto. }
  assert (R : spec_raw_score (dict_of es []) q = F64.zero).
  { unfold spec_raw_score. rewrite filter_nenhum; [reflexivity |].
    intros [n w] Hx. apply contains_not_In, K, in_map_iff. now exists (n, w). }
  rewrite R. split; [| split; [reflexivity |]].
  - destruct (F64.ltb F64.zero (spec_max_score es)) eqn:L; [| reflexivity].
    now apply code_percentage_zero.
  - unfold spec_matched. apply filter_nenhum. intros n Hn.
    now apply contains_not_In, K.
Qed.

Lemma porcentagem_nula_witness :
  exists r, _calcular flu ["headache"%string] = Ok r
    /\ porcentagem r = F64.zero
    /\ pontuacao_bruta r = F64.zero
    /\ sintomas_correspondentes r = [].
Proof.
  eexists. split; [vm_compute; reflexivity |].
  apply (porcentagem_nula flu ["headache"%string] _
           ["fever"; "cough"; "fatigue"]%string).
  - vm_compute. reflexivity.
  - vm_compute. reflexivity.
  - simpl. intros n Hn [Hq | []]. subst n. intuition discriminate.
Defined.

Lemma soma_todos_valida (es : list (string * F64.float)) (q : list string) :
  Forall peso_positivo es ->
  F64.soma_valida (spec_raw_score es q)
  /\ F64.soma_valida (spec_max_score es)
  /\ F64.leb (spec_raw_score es q) (spec_max_score es) = true.
Proof.
  intros P.
  rewrite <- (spec_raw_score_todos es (q ++ map fst es))
    by (intros n Hn; apply in_app_iff; now right).
  apply (soma_correspondentes_mono es q (q ++ map fst es) F64.zero F64.zero P).
  - intros n Hn. apply in_app_iff. now left.
  - apply soma_valida_zero.
  - apply soma_valida_zero.
  - reflexivity.
Qed.

(** X4: with distinct symptom names and positive weights whose sum does
    not overflow, the percentage of every query is a number between 0.0
    and 100.0. *)
Theorem porcentagem_entre_0_e_100 (d : Doenca)
    (es : list (string * F64.float)) (q : list string) :
  entradas d = Ok es ->
  List.NoDup (map fst es) ->
  Forall peso_positivo es ->
  spec_max_score es <> F64.PInf ->
  exists r, _calcular d q = Ok r
    /\ F64.leb F64.zero (porcentagem r) = true
    /\ F64.leb (porcentagem r) (F64.of_Z 100) = true.
Proof.
  intros E ND P Hfin.
  rewrite (calcular_ok d q es E). eexists. split; [reflexivity |].
  cbn [porcentagem].
  rewrite (dict_of_NoDup es []) by exact ND. simpl app.
  destruct (soma_todos_valida es q P) as (Vr & Vm & Hle).
  destruct (F64.ltb F64.zero (spec_max_score es)) eqn:L.
  2:{ split; vm_compute; reflexivity. }
  destruct (spec_max_score es) as [m | | |] eqn:M;
    try contradiction; try discriminate.
  assert (Hm : 0 < m) by (simpl in L; lia).
  assert (U : F64.leb (code_percentage (spec_raw_score es q) (F64.Fin m))
                (F64.of_Z 100) = true).
  { rewrite <- (code_percentage_self m Hm).
    apply le_or_nan_leb.
    - apply code_percentage_mono; assumption.
    - rewrite (code_percentage_self m Hm). vm_compute. reflexivity. }
  split; [| exact U].
  apply leb_not_nan in U as [Hn _].
  rewrite <- (code_percentage_zero (F64.Fin m) L) at 1.
  apply le_or_nan_leb; [| exact Hn].
  apply code_percentage_mono; try assumption.
  - apply soma_valida_zero.
  - destruct (spec_raw_score es q); simpl in Vr |- *; try easy. lia.
Qed.

Lemma porcentagem_entre_0_e_100_witness :
  exists r, _calcular flu ["fever"%string] = Ok r
    /\ F64.leb F64.zero (porcentagem r) = true
    /\ F64.leb (porcentagem r) (F64.of_Z 100) = true.
Proof.
  apply (porcentagem_entre_0_e_100 flu
           [("fever"%string, F64.of_Z 1); ("cough"%string, F64.of_Z 1);
            ("fatigue"%string, F64.of_dec 5 10)]).
  - vm_compute. reflexivity.
  - simpl. repeat constructor; simpl; intuition discriminate.
  - constructor; [vm_compute; reflexivity |].
    constructor; [vm_compute; reflexivity |].
    constructor; [vm_compute; reflexivity |]. constructor.
  - vm_compute. discriminate.
Defined.

(* ===================================================================== *)
(** * More on the engine                                                  *)
(* ===================================================================== *)

(** The cache key of a query is the key of the one-name query made of
    its sorted names joined by commas. *)
Lemma gerar_cache_key_juncao (q : list string) :
  _gerar_cache_key [Py.join "," (Py.sorted q)] = _gerar_cache_key q.
Proof.
  unfold _gerar_cache_key. apply (f_equal MD5.hexdigest). reflexivity.
Qed.

(** X5: the cache cannot tell a query from the single name that its
    sorted names joined by commas spell: after [avaliar] has answered a
    query, the query of that one name gets the same answer from the
    cache, whatever the catalog says about it. *)
Theorem avaliar_confunde_juncao (cfg : Config)
    (self self' : DiagnosticoEngine) (q : list string)
    (out : list ResultadoDict) :
  q <> [] ->
  avaliar cfg self q = Ok (out, self') ->
  avaliar cfg self' [Py.join "," (Py.sorted q)] = Ok (out, self').
Proof.
  intros Hq H.
  assert (C : cache self' !! _gerar_cache_key q = Some out).
  { destruct (cache self !! _gerar_cache_key q) as [g |] eqn:C.
    - rewrite (avaliar_hit cfg self q g Hq C) in H.
      apply Ok_inj in H. injection H as <- <-. exact C.
    - destruct (avaliar_miss_Ok cfg self q out self' Hq C H)
        as (res0 & _ & _ & ->).
      simpl. apply lookup_insert_eq. }
  apply avaliar_hit; [discriminate |].
  now rewrite gerar_cache_key_juncao.
Qed.

Lemma avaliar_confunde_juncao_witness :
  exists out self',
    avaliar CONFIG (novo_engine [flu]) ["fever"; "cough"]%string
      = Ok (out, self')
    /\ avaliar CONFIG self' ["cough,fever"%string] = Ok (out, self').
Proof.
  eexists. eexists. split; [vm_compute; reflexivity |].
  apply (avaliar_confunde_juncao CONFIG (novo_engine [flu]) _
           ["fever"; "cough"]%string).
  - discriminate.
  - vm_compute. reflexivity.
Defined.

(* ===================================================================== *)
(** * More on the cache of the loader                                     *)
(* ===================================================================== *)

Lemma dict_get_set_ne {V : Type} (d : Py.dict V) (k k' : string) (v : V) :
  k' <> k -> Py.dict_get k' (Py.dict_set k v d) = Py.dict_get k' d.
Proof.
  intros Hne. induction d as [| [k0 v0] d IH]; simpl.
  - destruct (String.eqb_spec k' k); [contradiction | reflexivity].
  - destruct (String.eqb_spec k k0) as [-> | Hk]; simpl.
    + destruct (String.eqb_spec k' k0); [contradiction | reflexivity].
    + destruct (String.eqb_spec k' k0); [reflexivity | exact IH].
Qed.

Lemma dict_get_del_ne {V : Type} (d : Py.dict V) (k k' : string) :
  k' <> k -> Py.dict_get k' (Py.dict_del k d) = Py.dict_get k' d.
Proof.
  intros Hne. induction d as [| [k0 v0] d IH]; simpl; [reflexivity |].
  destruct (String.eqb_spec k k0) as [-> | Hk]; simpl.
  - destruct (String.eqb_spec k' k0); [contradiction | reflexivity].
  - destruct (String.eqb_spec k' k0); [reflexivity | exact IH].
Qed.

Lemma dict_get_None {V : Type} (d : Py.dict V) (k : string) :
  ~ In k (map fst d) -> Py.dict_get k d = None.
Proof.
  induction d as [| [k0 v0] d IH]; simpl; intros H; [reflexivity |].
  destruct (String.eqb_spec k k0) as [-> | Hk]; [tauto |].
  apply IH. tauto.
Qed.

Lemma dict_get_del_eq {V : Type} (d : Py.dict V) (k : string) :
  List.NoDup (map fst d) -> Py.dict_get k (Py.dict_del k d) = None.
Proof.
  induction d as [| [k0 v0] d IH]; simpl; intros H; [reflexivity |].
  apply List.NoDup_cons_iff in H as [Hk0 Hd].
  destruct (String.eqb_spec k k0) as [-> | Hk]; simpl.
  - now apply dict_get_None.
  - destruct (String.eqb_spec k k0); [contradiction | now apply IH].
Qed.

(** X6: the time to live of an entry counts from the moment it was saved.
    Until then a lookup returns the saved data; a lookup that hits does
    not renew the entry, so at [cache_ttl] seconds after the save, or
    later, the lookup returns [None], whether the entry was read in
    between or not. *)
Theorem validade_conta_do_salvamento {A : Type} (now t1 t2 : F64.float)
    (self s1 : DataManager.t A) (key : string) (d : A) :
  DataManager._save_to_cache now self key d = Ok s1 ->
  Py.float_lt_int (F64.sub t1 now) (DataManager.cache_ttl self) = true ->
  Py.float_lt_int (F64.sub t2 now) (DataManager.cache_ttl self) = false ->
  fst (DataManager._get_from_cache t1 s1 key) = Some d
  /\ fst (DataManager._get_from_cache t2
            (snd (DataManager._get_from_cache t1 s1 key)) key) = None
  /\ fst (DataManager._get_from_cache t2 s1 key) = None.
Proof.
  intros S H1 H2.
  assert (E : exists kept,
             s1 = DataManager.with_cache self
                    (Py.dict_set key
                       {| DataManager.data := d; DataManager.timestamp := now;
                          DataManager.hits := 1 |} kept)).
  { unfold DataManager._save_to_cache in S.
    destruct (_ >=? _).
    - destruct (Py.min_by _ _) as [lru | e]; [| discriminate].
      cbn [bind] in S. apply Ok_inj in S. eexists. symmetry. exact S.
    - cbn [bind] in S. apply Ok_inj in S. eexists. symmetry. exact S. }
  destruct E as [kept ->].
  unfold DataManager._get_from_cache.
  cbn [DataManager.cache DataManager.with_cache DataManager.cache_ttl].
  rewrite dict_get_set.
  cbn [DataManager.timestamp DataManager.data DataManager.hits].
  rewrite H1, H2.
  cbn [fst snd DataManager.cache DataManager.with_cache DataManager.cache_ttl].
  rewrite dict_get_set.
  cbn [DataManager.timestamp DataManager.data DataManager.hits].
  rewrite H2. cbn [fst]. split; [reflexivity | split; reflexivity].
Qed.

Lemma validade_conta_do_salvamento_witness :
  exists s1 : DataManager.t nat,
    DataManager._save_to_cache (F64.of_Z 1000) (DataManager.novo CONFIG)
      "k"%string 7%nat = Ok s1
    /\ fst (DataManager._get_from_cache (F64.of_Z 1299) s1 "k"%string)
       = Some 7%nat
    /\ fst (DataManager._get_from_cache (F64.of_Z 1300)
              (snd (DataManager._get_from_cache (F64.of_Z 1299) s1
                      "k"%string))
              "k"%string) = None
    /\ fst (DataManager._get_from_cache (F64.of_Z 1300) s1 "k"%string) = None.
Proof.
  eexists. split; [vm_compute; reflexivity |].
  apply (validade_conta_do_salvamento (F64.of_Z 1000) (F64.of_Z 1299)
           (F64.of_Z 1300) (DataManager.novo CONFIG)).
  - vm_compute. reflexivity.
  - vm_compute. reflexivity.
  - vm_compute. reflexivity.
Defined.

(** X7: a lookup of an entry that has expired removes that entry and no
    other: the key is not in the cache any more, the cache has one entry
    less, and every other key is found as before. *)
Theorem expirada_removida {A : Type} (now : F64.float)
    (self : DataManager.t A) (key : string) (e : DataManager.CacheEntry A) :
  List.NoDup (map fst (DataManager.cache self)) ->
  Py.dict_get key (DataManager.cache self) = Some e ->
  Py.float_lt_int (F64.sub now (DataManager.timestamp e))
    (DataManager.cache_ttl self) = false ->
  let self' := snd (DataManager._get_from_cache now self key) in
  fst (DataManager._get_from_cache now self key) = None
  /\ Py.dict_get key (DataManager.cache self') = None
  /\ S (length (DataManager.cache self')) = length (DataManager.cache self)
  /\ forall k', k' <> key ->
       Py.dict_get k' (DataManager.cache self')
       = Py.dict_get k' (DataManager.cache self).
Proof.
  intros ND G X. unfold DataManager._get_from_cache. rewrite G, X.
  cbn [fst snd DataManager.cache DataManager.with_cache].
  split; [reflexivity |]. split; [now apply dict_get_del_eq |].
  split.
  - apply dict_del_length. now apply (dict_get_In _ _ e).
  - intros k' Hk. now apply dict_get_del_ne.
Qed.

Lemma expirada_removida_witness :
  let self : DataManager.t nat :=
    {| DataManager.cache :=
         [("k1"%string,
           {| DataManager.data := 1%nat; DataManager.timestamp := F64.zero;
              DataManager.hits := 3 |});
          ("k2"%string,
           {| DataManager.data := 2%nat;
              DataManager.timestamp := F64.of_Z 200;
              DataManager.hits := 1 |})];
       DataManager.cache_ttl := 300;
       DataManager.cache_max_size := 10 |} in
  let self' := snd (DataManager._get_from_cache (F64.of_Z 300) self "k1") in
  fst (DataManager._get_from_cache (F64.of_Z 300) self "k1") = None
  /\ Py.dict_get "k1" (DataManager.cache self') = None
  /\ S (length (DataManager.cache self')) = length (DataManager.cache self)
  /\ forall k', k' <> "k1"%string ->
       Py.dict_get k' (DataManager.cache self')
       = Py.dict_get k' (DataManager.cache self).
Proof.
  intros self.
  apply (expirada_removida (F64.of_Z 300) self "k1"%string
           {| DataManager.data := 1%nat; DataManager.timestamp := F64.zero;
              DataManager.hits := 3 |}).
  - simpl. repeat constructor; simpl; intuition discriminate.
  - reflexivity.
  - vm_compute. reflexivity.
Defined.

(** X8: [_save_to_cache] raises in one case only, and then a
    [ValueError]: the cache is empty and its maximum size is zero or
    less, so that [min] is asked for the least of no entries. *)
Theorem save_to_cache_raise {A : Type} (now : F64.float)
    (self : DataManager.t A) (key : string) (d : A) (e : exn) :
  DataManager._save_to_cache now self key d = Raise e
  <-> e = ValueError
      /\ DataManager.cache self = []
      /\ DataManager.cache_max_size self <= 0.
Proof.
  unfold DataManager._save_to_cache.
  destruct (Z.geb_spec (Z.of_nat (length (DataManager.cache self)))
              (DataManager.cache_max_size self)) as [Hfull | Hroom].
  - destruct (DataManager.cache self) as [| kv c] eqn:C; cbn [Py.min_by bind].
    + simpl in Hfull. split.
      * intros H. injection H as <-. repeat split. lia.
      * intros (-> & _ & _). reflexivity.
    + split; [discriminate |]. intros (_ & H & _). discriminate.
  - cbn [bind]. split; [discriminate |].
    intros (_ & H & Hm). rewrite H in Hroom. simpl in Hroom. lia.
Qed.

Lemma save_to_cache_raise_witness :
  DataManager._save_to_cache F64.zero
    {| DataManager.cache := []; DataManager.cache_ttl := 300;
       DataManager.cache_max_size := 0 |} "k"%string 1%nat
  = Raise ValueError
  <-> ValueError = ValueError
      /\ DataManager.cache
           {| DataManager.cache := @nil (string * DataManager.CacheEntry nat);
              DataManager.cache_ttl := 300;
              DataManager.cache_max_size := 0 |} = []
      /\ DataManager.cache_max_size
           {| DataManager.cache := @nil (string * DataManager.CacheEntry nat);
              DataManager.cache_ttl := 300;
              DataManager.cache_max_size := 0 |} <= 0.
Proof.
  exact (save_to_cache_raise F64.zero
           {| DataManager.cache := []; DataManager.cache_ttl := 300;
              DataManager.cache_max_size := 0 |} "k"%string 1%nat ValueError).
Defined.

(** X9: the entries of the other keys are left alone: a lookup never
    changes what is stored under a key other than the one looked up, and
    neither does a save while the cache has room. *)
Theorem cache_outras_chaves {A : Type} (now : F64.float)
    (self : DataManager.t A) (key k' : string) (d : A) :
  k' <> key ->
  Py.dict_get k'
    (DataManager.cache (snd (DataManager._get_from_cache now self key)))
  = Py.dict_get k' (DataManager.cache self)
  /\ (Z.of_nat (length (DataManager.cache self))
        < DataManager.cache_max_size self ->
      exists s1,
        DataManager._save_to_cache now self key d = Ok s1
        /\ Py.dict_get k' (DataManager.cache s1)
           = Py.dict_get k' (DataManager.cache self)).
Proof.
  intros Hk. split.
  - unfold DataManager._get_from_cache.
    destruct (Py.dict_get key (DataManager.cache self)) as [e |];
      [| reflexivity].
    destruct (Py.float_lt_int _ _);
      cbn [snd DataManager.cache DataManager.with_cache].
    + now apply dict_get_set_ne.
    + now apply dict_get_del_ne.
  - intros Hroom. unfold DataManager._save_to_cache.
    destruct (Z.geb_spec (Z.of_nat (length (DataManager.cache self)))
                (DataManager.cache_max_size self)); [lia |].
    cbn [bind]. eexists. split; [reflexivity |].
    cbn [DataManager.cache DataManager.with_cache].
    now apply dict_get_set_ne.
Qed.

Lemma cache_outras_chaves_witness :
  let self : DataManager.t nat :=
    {| DataManager.cache :=
         [("k1"%string,
           {| DataManager.data := 1%nat; DataManager.timestamp := F64.zero;
              DataManager.hits := 3 |})];
       DataManager.cache_ttl := 300;
       DataManager.cache_max_size := 10 |} in
  Py.dict_get "k1"
    (DataManager.cache
       (snd (DataManager._get_from_cache (F64.of_Z 10) self "k2")))
  = Py.dict_get "k1" (DataManager.cache self)
  /\ (Z.of_nat (length (DataManager.cache self))
        < DataManager.cache_max_size self ->
      exists s1,
        DataManager._save_to_cache (F64.of_Z 10) self "k2" 2%nat = Ok s1
        /\ Py.dict_get "k1" (DataManager.cache s1)
           = Py.dict_get "k1" (DataManager.cache self)).
Proof.
  intros self.
  apply (cache_outras_chaves (F64.of_Z 10) self "k2"%string "k1"%string
           2%nat).
  discriminate.
Defined.

(* ===================================================================== *)
(** * The loaders of the catalog                                          *)
(* ===================================================================== *)

(** ** Records that read the same *)

Lemma mapM_map_ext {A B : Type} (f : A -> res B) (l1 l2 : list A) :
  map f l1 = map f l2 -> mapM f l1 = mapM f l2.
Proof.
  revert l2. induction l1 as [| a l1 IH]; intros [| b l2] H;
    simpl in H; try discriminate; [reflexivity |].
  injection H as Hab Hl. simpl. rewrite Hab, (IH l2 Hl). reflexivity.
Qed.

Lemma mesma_leitura_refl (d : Doenca) : mesma_leitura d d.
Proof. unfold mesma_leitura. tauto. Qed.

Lemma mesma_leitura_verificar (d1 d2 : Doenca) (q : list string) :
  mesma_leitura d1 d2 ->
  _verificar_condicoes d1 q = _verificar_condicoes d2 q.
Proof.
  intros (_ & _ & _ & _ & _ & _ & _ & Hn & Ho & Hm).
  unfold _verificar_condicoes. rewrite Ho, Hm.
  now rewrite (mapM_map_ext nome_de _ _ Hn).
Qed.

Lemma mesma_leitura_calcular (d1 d2 : Doenca) (q : list string) :
  mesma_leitura d1 d2 ->
  res_map to_dict (_calcular d1 q) = res_map to_dict (_calcular d2 q).
Proof.
  intros (H1 & H2 & H3 & H4 & H5 & H6 & Hs & _).
  assert (E : entradas d1 = entradas d2)
    by (unfold entradas; now apply mapM_map_ext).
  destruct (entradas d2) as [es | e] eqn:E2.
  - rewrite (calcular_ok d1 q es E), (calcular_ok d2 q es E2).
    unfold res_map, to_dict. cbn [doenca porcentagem sintomas_correspondentes
      sintomas_faltantes pontuacao_bruta pontuacao_maxima].
    now rewrite H1, H2, H3, H4, H5, H6.
  - now rewrite (calcular_raise d1 q e E), (calcular_raise d2 q e E2).
Qed.

Lemma avaliar_doencas_mesma_leitura (cfg : Config) (ds1 ds2 : list Doenca)
    (q : list string) (acc : list ResultadoDict) :
  Forall2 mesma_leitura ds1 ds2 ->
  avaliar_doencas cfg ds1 q acc = avaliar_doencas cfg ds2 q acc.
Proof.
  intros H. revert acc. induction H as [| d1 d2 ds1 ds2 Hd Hds IH]; intros acc.
  - reflexivity.
  - simpl. rewrite (mesma_leitura_verificar d1 d2 q Hd).
    destruct (_verificar_condicoes d2 q) as [[|] | e]; cbn [bind negb];
      [| apply IH | reflexivity].
    pose proof (mesma_leitura_calcular d1 d2 q Hd) as C.
    destruct (_calcular d1 q) as [r1 | e1], (_calcular d2 q) as [r2 | e2];
      simpl in C; try discriminate; cbn [bind].
    + apply Ok_inj in C.
      assert (P : porcentagem r1 = porcentagem r2)
        by exact (f_equal rd_porcentagem C).
      rewrite P, C. destruct (F64.leb _ _); apply IH.
    + congruence.
Qed.

Lemma avaliar_mesma_leitura (cfg : Config) (ds1 ds2 : list Doenca)
    (q : list string) :
  Forall2 mesma_leitura ds1 ds2 ->
  res_map fst (avaliar cfg (novo_engine ds1) q)
  = res_map fst (avaliar cfg (novo_engine ds2) q).
Proof.
  intros H. destruct q as [| s q']; [reflexivity |].
  rewrite !avaliar_miss by (first [discriminate | apply lookup_empty]).
  cbn [db_doencas novo_engine].
  rewrite (avaliar_doencas_mesma_leitura cfg ds1 ds2 (s :: q') [] H).
  destruct (avaliar_doencas cfg ds2 (s :: q') []); reflexivity.
Qed.

(** ** [_normalizar_doenca] *)

Lemma normalizar_sintoma_Ok (d : DoencaDict) (t : string)
    (x : sintoma_arquivo) :
  k_tipo d = Some t ->
  exists y, Loader.normalizar_sintoma d x = Ok y
    /\ Loader.normalizar_sintoma d y = Ok y
    /\ nome_e_peso (sintoma_lido y) = nome_e_peso (sintoma_lido x)
    /\ nome_de (sintoma_lido y) = nome_de (sintoma_lido x).
Proof.
  intros Ht. unfold Loader.normalizar_sintoma, Loader.subscript_tipo.
  rewrite Ht. destruct x as [s peso tp | texto]; cbn [bind].
  - eexists. split; [reflexivity |]. cbn [default bind sintoma_lido].
    split; [reflexivity |]. split; [| reflexivity].
    destruct peso as [p |]; reflexivity.
  - eexists. split; [reflexivity |]. cbn [default bind sintoma_lido].
    split; [reflexivity |]. split; reflexivity.
Qed.

Lemma normalizar_sintomas_Ok (d : DoencaDict) (t : string)
    (l : list sintoma_arquivo) :
  k_tipo d = Some t ->
  exists l', mapM (Loader.normalizar_sintoma d) l = Ok l'
    /\ mapM (Loader.normalizar_sintoma d) l' = Ok l'
    /\ map nome_e_peso (map sintoma_lido l')
       = map nome_e_peso (map sintoma_lido l)
    /\ map nome_de (map sintoma_lido l') = map nome_de (map sintoma_lido l).
Proof.
  intros Ht. induction l as [| x l (l' & E & I & P & N)].
  - exists []. repeat split.
  - destruct (normalizar_sintoma_Ok d t x Ht) as (y & Ey & Iy & Py & Ny).
    exists (y :: l'). cbn [mapM map].
    rewrite Ey, Iy. cbn [bind]. rewrite E, I. cbn [bind].
    rewrite Py, P, Ny, N. repeat split.
Qed.

Lemma normalizar_sintomas_raise (d : DoencaDict) (l : list sintoma_arquivo) :
  k_tipo d = None -> l <> [] ->
  mapM (Loader.normalizar_sintoma d) l = Raise (KeyError "tipo").
Proof.
  intros Ht Hl. destruct l as [| x l]; [contradiction |].
  simpl. unfold Loader.normalizar_sintoma, Loader.subscript_tipo.
  rewrite Ht. destruct x; reflexivity.
Qed.

Lemma normalizar_sintoma_tipo_ext (d d' : DoencaDict) (x : sintoma_arquivo) :
  k_tipo d = k_tipo d' ->
  Loader.normalizar_sintoma d x = Loader.normalizar_sintoma d' x.
Proof.
  intros H. unfold Loader.normalizar_sintoma, Loader.subscript_tipo.
  now rewrite H.
Qed.

Lemma mapM_ext {A B : Type} (f g : A -> res B) (l : list A) :
  (forall a, f a = g a) -> mapM f l = mapM g l.
Proof.
  intros H. induction l as [| a l IH]; simpl; [reflexivity |].
  now rewrite H, IH.
Qed.

Lemma normalizar_doenca_aux (d : DoencaDict) :
  (forall e, Loader._normalizar_doenca d = Raise e
             <-> e = KeyError "tipo" /\ k_tipo d = None
                 /\ default [] (k_sintomas d) <> [])
  /\ (forall n, Loader._normalizar_doenca d = Ok n ->
        Loader._normalizar_doenca n = Ok n
        /\ mesma_leitura (from_dict n) (from_dict d)).
Proof.
  unfold Loader._normalizar_doenca.
  destruct (k_tipo d) as [t |] eqn:Ht.
  - destruct (normalizar_sintomas_Ok d t (default [] (k_sintomas d)) Ht)
      as (l' & E & I & P & N).
    rewrite E. cbn [bind]. split.
    + intros e. split; [discriminate |]. intros (_ & H & _). discriminate.
    + intros n H. apply Ok_inj in H. subst n.
      simpl.
      split.
      * rewrite (mapM_ext _ (Loader.normalizar_sintoma d)).
        -- rewrite I. cbn [bind]. rewrite ?Ht. reflexivity.
        -- intros a. apply normalizar_sintoma_tipo_ext. simpl. now rewrite Ht.
      * unfold mesma_leitura, from_dict.
        simpl.
        rewrite ?Ht, P, N. repeat split; reflexivity.
  - destruct (default [] (k_sintomas d)) as [| x l] eqn:S.
    + cbn [mapM bind]. split.
      * intros e. split; [discriminate |]. intros (_ & _ & H). contradiction.
      * intros n H. apply Ok_inj in H. subst n.
        simpl.
        split; [rewrite ?Ht; reflexivity |].
        unfold mesma_leitura, from_dict.
        simpl.
        rewrite ?Ht, ?S. repeat split; reflexivity.
    + rewrite (normalizar_sintomas_raise d (x :: l) Ht) by discriminate.
      cbn [bind]. split.
      * intros e. split.
        -- intros H. injection H as <-. repeat split. discriminate.
        -- intros (-> & _ & _). reflexivity.
      * intros n H. discriminate.
Qed.

(** X10: on a record in the catalog format (a dict whose ["sintomas"],
    when it is there, is a list, and whose ["condicoes"], when it is
    there, is a dict), [_normalizar_doenca] raises in one case only, a
    [KeyError] for ["tipo"] when the record has symptoms and no type; the
    loader sets the type before it calls.  When it returns,
    the record it leaves is a fixed point of the normalisation, and it
    reads the same for [Doenca.from_dict] and the engine as the record
    before: what the normalisation writes are the defaults that these
    assume. *)
Theorem normalizar_doenca_spec (d : DoencaDict) :
  (forall e, Loader._normalizar_doenca d = Raise e
             <-> e = KeyError "tipo" /\ k_tipo d = None
                 /\ default [] (k_sintomas d) <> [])
  /\ (forall n, Loader._normalizar_doenca d = Ok n ->
        Loader._normalizar_doenca n = Ok n
        /\ mesma_leitura (from_dict n) (from_dict d)).
Proof. exact (normalizar_doenca_aux d). Qed.

Lemma normalizar_doenca_spec_witness :
  (forall e, Loader._normalizar_doenca gripe_arquivo = Raise e
             <-> e = KeyError "tipo" /\ k_tipo gripe_arquivo = None
                 /\ default [] (k_sintomas gripe_arquivo) <> [])
  /\ (forall n, Loader._normalizar_doenca gripe_arquivo = Ok n ->
        Loader._normalizar_doenca n = Ok n
        /\ mesma_leitura (from_dict n) (from_dict gripe_arquivo)).
Proof. exact (normalizar_doenca_spec gripe_arquivo). Defined.

(** ** The two loaders *)

Lemma normalizar_marcada (t c : string) (d : DoencaDict) :
  exists n, Loader._normalizar_doenca (marcar t c d) = Ok n
    /\ Loader._normalizar_doenca n = Ok n
    /\ mesma_leitura (from_dict n) (from_dict (marcar t c d))
    /\ k_tipo n = Some t /\ k_categoria n = Some c.
Proof.
  destruct (Loader._normalizar_doenca (marcar t c d)) as [n | e] eqn:E.
  - exists n. split; [reflexivity |].
    destruct (proj2 (normalizar_doenca_aux (marcar t c d)) n E) as [I M].
    split; [exact I |]. split; [exact M |].
    unfold Loader._normalizar_doenca in E.
    destruct (mapM _ _) in E; [| discriminate].
    cbn [bind] in E. apply Ok_inj in E. subst n. split; reflexivity.
  - apply (proj1 (normalizar_doenca_aux (marcar t c d)) e)
      in E as (_ & H & _).
    discriminate.
Qed.

Lemma tipo_de_marcada (t c : string) (d : DoencaDict) :
  tipo (from_dict (marcar t c d)) = t
  /\ categoria (from_dict (marcar t c d)) = c.
Proof. split; reflexivity. Qed.


Lemma processar_carregar_secao (t c : string) (l : list item_arquivo)
    (acc : list DoencaDict) (acc' : list Doenca) :
  Forall2 mesma_leitura (map from_dict acc) acc' ->
  Forall (fun n => Loader._normalizar_doenca n = Ok n) acc ->
  exists out,
    Loader.processar_secao t c l acc = Ok out
    /\ Forall2 mesma_leitura (map from_dict out)
         (Database.carregar_secao t c l acc')
    /\ Forall (fun n => Loader._normalizar_doenca n = Ok n) out.
Proof.
  revert acc acc'. induction l as [| [d |] l IH]; intros acc acc' H F; simpl.
  - exists acc. split; [reflexivity |]. split; assumption.
  - destruct (normalizar_marcada t c d) as (n & E & I & M & _).
    rewrite E. cbn [bind]. apply IH.
    + rewrite map_app. apply Forall2_app; [exact H |].
      constructor; [exact M | constructor].
    + apply Forall_app. split; [exact F |]. constructor; [exact I | constructor].
  - now apply IH.
Qed.

(** X11: for a file in the catalog format (an object whose ["doencas"],
    when it is there, is an object whose sections are lists of records of
    the format), [_processar_dados] returns, and what it returns is
    normalised: every record is a fixed point of [_normalizar_doenca].
    The records it returns, read by [Doenca.from_dict], are for the
    engine the catalog that [Database._carregar_doencas] leaves in the
    database when it loads the same file: [avaliar] gives the same
    results, or raises the same exception, on both, for every query. *)
Theorem carregadores_concordam (cfg : Config) (data : DadosArquivo)
    (self : Database.t) (q : list string) :
  exists l,
    Loader._processar_dados data = Ok l
    /\ Forall (fun n => Loader._normalizar_doenca n = Ok n) l
    /\ res_map fst (avaliar cfg (novo_engine (map from_dict l)) q)
       = res_map fst
           (avaliar cfg
              (novo_engine
                 (Database.doencas
                    (Database._carregar_doencas (Json (Objeto data)) self)))
              q).
Proof.
  cbn [Database._carregar_doencas Database.com_doencas Database.doencas].
  unfold Loader._processar_dados, Database.doencas_do_arquivo.
  destruct (processar_carregar_secao "físico" "fisica" (secao fisicas data)
              [] []) as (l1 & E1 & M1 & F1); [constructor | constructor |].
  rewrite E1. cbn [bind].
  destruct (processar_carregar_secao "psicológico" "mental"
              (secao mentais data) l1 _ M1 F1) as (l2 & E2 & M2 & F2).
  exists l2. split; [exact E2 |]. split; [exact F2 |].
  now apply avaliar_mesma_leitura.
Qed.








(** ** The engine on a loaded catalog *)







(* ===================================================================== *)
(** * The database                                                        *)
(* ===================================================================== *)

(** ** The history of diagnoses *)

Lemma firstn_prefixo {A : Type} (n : nat) (l : list A) :
  exists resto, l = firstn n l ++ resto
    /\ (length l <= n -> resto = [])%nat.
Proof.
  exists (skipn n l). split; [symmetry; apply firstn_skipn |].
  intros H. now apply skipn_all2.
Qed.

(** X14: with a limit of at least one entry, [adicionar_diagnostico]
    puts the new diagnosis first and keeps the older ones behind it in
    their order, dropping from the end what exceeds the limit (nothing
    when there was room); the history never has more entries than the
    limit, and the new diagnosis is the first of the history of its
    patient. *)
Theorem adicionar_diagnostico_spec (max_hist_itens : Z) (salvou : bool)
    (self : Database.t) (d : Diagnostico.t) :
  1 <= max_hist_itens ->
  let self' :=
    snd (Database.adicionar_diagnostico max_hist_itens salvou self d) in
  Z.of_nat (length (Database.historico self')) <= max_hist_itens
  /\ (exists mantidos descartados,
        Database.historico self' = d :: mantidos
        /\ Database.historico self = mantidos ++ descartados
        /\ (Z.of_nat (length (Database.historico self)) < max_hist_itens ->
            descartados = []))
  /\ (exists anteriores,
        Database.obter_historico_paciente self' (Diagnostico.paciente_id d)
        = d :: anteriores)
  /\ Database.pacientes self' = Database.pacientes self
  /\ Database.doencas self' = Database.doencas self.
Proof.
  intros Hmax self'. subst self'. unfold Database.adicionar_diagnostico.
  cbn [snd Database.historico Database.pacientes Database.doencas].
  assert (E : (if Z.of_nat (length (d :: Database.historico self))
                  >? max_hist_itens
               then Py.slice_to max_hist_itens (d :: Database.historico self)
               else d :: Database.historico self)
              = d :: firstn (Z.to_nat (max_hist_itens - 1))
                       (Database.historico self)).
  { destruct (Z.gtb_spec (Z.of_nat (length (d :: Database.historico self)))
                max_hist_itens) as [Hgt | Hle].
    - unfold Py.slice_to. replace (0 <=? max_hist_itens) with true by lia.
      replace (Z.to_nat max_hist_itens)
        with (S (Z.to_nat (max_hist_itens - 1))) by lia.
      reflexivity.
    - f_equal. symmetry. apply firstn_all2. simpl length in Hle. lia. }
  unfold Database.obter_historico_paciente.
  cbn [Database.historico]. rewrite E.
  destruct (firstn_prefixo (Z.to_nat (max_hist_itens - 1))
              (Database.historico self)) as (resto & Hsplit & Hresto).
  split; [| split; [| split; [| split; reflexivity]]].
  - simpl length. rewrite length_firstn. lia.
  - exists (firstn (Z.to_nat (max_hist_itens - 1)) (Database.historico self)),
      resto.
    split; [reflexivity |]. split; [exact Hsplit |].
    intros Hroom. apply Hresto. lia.
  - simpl. rewrite String.eqb_refl. eexists. reflexivity.
Qed.

Lemma adicionar_diagnostico_spec_witness :
  let d :=
    Diagnostico.criar_novo "d1" "2024-01-01T00:00:00"
      (paciente_de "p1" "Ana" "" true) ["febre"%string] [] in
  let self' := snd (Database.adicionar_diagnostico 500 true database_vazia d) in
  Z.of_nat (length (Database.historico self')) <= 500
  /\ (exists mantidos descartados,
        Database.historico self' = d :: mantidos
        /\ Database.historico database_vazia = mantidos ++ descartados
        /\ (Z.of_nat (length (Database.historico database_vazia)) < 500 ->
            descartados = []))
  /\ (exists anteriores,
        Database.obter_historico_paciente self' (Diagnostico.paciente_id d)
        = d :: anteriores)
  /\ Database.pacientes self' = Database.pacientes database_vazia
  /\ Database.doencas self' = Database.doencas database_vazia.
Proof.
  intros d.
  apply (adicionar_diagnostico_spec 500 true database_vazia d). lia.
Defined.

(** ** The diagnosis made of the results of the engine *)

Lemma firstn_StronglySorted {A : Type} (R : A -> A -> Prop) (n : nat)
    (l : list A) :
  StronglySorted R l -> StronglySorted R (firstn n l).
Proof.
  intros H. revert n. induction H as [| x l Hl IH Hx]; intros [| n]; simpl;
    try constructor.
  - apply IH.
  - apply List.Forall_forall. intros y Hy.
    rewrite List.Forall_forall in Hx. apply Hx. now apply (firstn_In n).
Qed.

Lemma slice_to_StronglySorted {A : Type} (R : A -> A -> Prop) (n : Z)
    (l : list A) :
  StronglySorted R l -> StronglySorted R (Py.slice_to n l).
Proof.
  intros H. unfold Py.slice_to.
  destruct (0 <=? n); now apply firstn_StronglySorted.
Qed.

Lemma avaliar_miss_ordenado (cfg : Config) (self self' : DiagnosticoEngine)
    (q : list string) (out : list ResultadoDict) :
  cache self !! _gerar_cache_key q = None ->
  avaliar cfg self q = Ok (out, self') ->
  StronglySorted porcentagem_desc out
  /\ Forall (fun x => F64.is_nan (rd_porcentagem x) = false) out.
Proof.
  intros Hmiss H. destruct q as [| s q'].
  - apply avaliar_vazio_Ok in H as [-> _]. split; constructor.
  - assert (Hq : s :: q' <> []) by discriminate.
    destruct (avaliar_miss_Ok cfg self (s :: q') out self' Hq Hmiss H)
      as (res0 & E & Eout & _).
    destruct (avaliar_doencas_mantidos _ _ _ _ _ E) as (rs & Hm & Hres).
    simpl in Hres. subst res0.
    assert (N : Forall (fun x => F64.is_nan (rd_porcentagem x) = false)
                  (map to_dict rs)).
    { apply List.Forall_map.
      eapply List.Forall_impl; [| exact (mantidos_validos _ _ _ _ Hm)].
      intros r (_ & _ & _ & Hl). apply leb_not_nan in Hl. apply Hl. }
    subst out. split.
    + apply slice_to_StronglySorted.
      now apply (sort_reverse_sorted rd_porcentagem).
    + apply List.Forall_forall. intros x Hx. apply slice_to_In in Hx.
      apply (Permutation_in _ (sort_reverse_Permutation rd_porcentagem _))
        in Hx.
      rewrite List.Forall_forall in N. now apply N.
Qed.

(** X15: the answers of [avaliar] are in descending order of the
    percentages, none of which is NaN, whether they are computed or come
    from the cache: the cache of a new engine holds such lists only, and
    [avaliar] keeps it so. *)
Theorem avaliar_cache_ordenado (cfg : Config) (self self' : DiagnosticoEngine)
    (q : list string) (out : list ResultadoDict) :
  cache_ordenado self ->
  avaliar cfg self q = Ok (out, self') ->
  cache_ordenado self'
  /\ StronglySorted porcentagem_desc out
  /\ Forall (fun x => F64.is_nan (rd_porcentagem x) = false) out.
Proof.
  intros Inv H. destruct q as [| s q'].
  - apply avaliar_vazio_Ok in H as [-> ->].
    split; [exact Inv |]. split; constructor.
  - assert (Hq : s :: q' <> []) by discriminate.
    destruct (cache self !! _gerar_cache_key (s :: q')) as [g |] eqn:C.
    + rewrite (avaliar_hit cfg self (s :: q') g Hq C) in H.
      apply Ok_inj in H. injection H as <- <-.
      split; [exact Inv |]. exact (Inv _ _ C).
    + destruct (avaliar_miss_ordenado cfg self self' (s :: q') out C H)
        as [S N].
      destruct (avaliar_miss_Ok cfg self (s :: q') out self' Hq C H)
        as (res0 & _ & _ & ->).
      split; [| split; assumption].
      intros k v. cbn [cache].
      destruct (decide (k = _gerar_cache_key (s :: q'))) as [-> | Hk].
      * rewrite lookup_insert_eq. intros E. injection E as <-.
        split; assumption.
      * rewrite lookup_insert_ne by congruence. apply Inv.
Qed.

Lemma cache_ordenado_novo (doencas : list Doenca) :
  cache_ordenado (novo_engine doencas).
Proof. intros k v H. cbn [cache novo_engine] in H. now rewrite lookup_empty in H. Qed.

Lemma avaliar_cache_ordenado_witness :
  exists out self',
    avaliar CONFIG (novo_engine [quarenta; flu]) ["fever"; "p"]%string
      = Ok (out, self')
    /\ cache_ordenado self'
    /\ StronglySorted porcentagem_desc out
    /\ Forall (fun x => F64.is_nan (rd_porcentagem x) = false) out.
Proof.
  eexists. eexists. split; [vm_compute; reflexivity |].
  apply (avaliar_cache_ordenado CONFIG (novo_engine [quarenta; flu]) _
           ["fever"; "p"]%string).
  - apply cache_ordenado_novo.
  - vm_compute. reflexivity.
Defined.

Lemma avaliar_ordenado (cfg : Config) (self self' : DiagnosticoEngine)
    (q : list string) (out : list ResultadoDict) :
  cache_ordenado self ->
  avaliar cfg self q = Ok (out, self') ->
  StronglySorted porcentagem_desc out
  /\ Forall (fun x => F64.is_nan (rd_porcentagem x) = false) out.
Proof.
  intros Inv H. destruct q as [| s q'].
  - apply avaliar_vazio_Ok in H as [-> _]. split; constructor.
  - assert (Hq : s :: q' <> []) by discriminate.
    destruct (cache self !! _gerar_cache_key (s :: q')) as [g |] eqn:C.
    + rewrite (avaliar_hit cfg self (s :: q') g Hq C) in H.
      apply Ok_inj in H. injection H as <- <-. exact (Inv _ _ C).
    + exact (avaliar_miss_ordenado cfg self self' (s :: q') out C H).
Qed.

(** X16: the diagnosis that [criar_novo] makes of an answer of [avaliar]
    names the first result as the top result, and its percentage is the
    greatest of all results; without results the top is
    ["Nenhum resultado"] with 0.0.  The diagnosis keeps the first ten
    results at most, in their order. *)
Theorem criar_novo_do_motor (cfg : Config) (self self' : DiagnosticoEngine)
    (q : list string) (out : list ResultadoDict) (novo_id agora : string)
    (paciente : Paciente.t) :
  cache_ordenado self ->
  avaliar cfg self q = Ok (out, self') ->
  let d := Diagnostico.criar_novo novo_id agora paciente q out in
  Forall (fun x => F64.leb (rd_porcentagem x) (Diagnostico.top_porcentagem d)
                   = true) out
  /\ (out = [] -> Diagnostico.top_resultado d = "Nenhum resultado"%string
                  /\ Diagnostico.top_porcentagem d = F64.zero)
  /\ (forall x resto, out = x :: resto ->
        Diagnostico.top_resultado d = rd_doenca x
        /\ Diagnostico.top_porcentagem d = rd_porcentagem x)
  /\ Diagnostico.resultados d = firstn 10 out
  /\ (length (Diagnostico.resultados d) <= 10)%nat.
Proof.
  intros Inv H d. subst d.
  destruct (avaliar_ordenado cfg self self' q out Inv H) as [S N].
  unfold Diagnostico.criar_novo.
  cbn [Diagnostico.top_porcentagem Diagnostico.top_resultado
       Diagnostico.resultados].
  split; [| split; [| split; [| split]]].
  - destruct out as [| x resto]; [constructor |]. cbn [snd].
    apply StronglySorted_inv in S as [_ Hx].
    apply List.Forall_cons_iff in N as [Nx _].
    constructor; [now apply leb_refl | exact Hx].
  - intros ->. split; reflexivity.
  - intros x resto ->. split; reflexivity.
  - reflexivity.
  - unfold Py.slice_to. simpl. rewrite length_firstn. lia.
Qed.

Lemma criar_novo_do_motor_witness :
  exists out self',
    avaliar CONFIG (novo_engine [quarenta; flu]) ["fever"; "p"]%string
      = Ok (out, self')
    /\ let d := Diagnostico.criar_novo "d1" "2024-01-01T00:00:00"
                  (paciente_de "p1" "Ana" "" true) ["fever"; "p"]%string out in
       Forall (fun x => F64.leb (rd_porcentagem x)
                          (Diagnostico.top_porcentagem d) = true) out
       /\ (out = [] -> Diagnostico.top_resultado d = "Nenhum resultado"%string
                       /\ Diagnostico.top_porcentagem d = F64.zero)
       /\ (forall x resto, out = x :: resto ->
             Diagnostico.top_resultado d = rd_doenca x
             /\ Diagnostico.top_porcentagem d = rd_porcentagem x)
       /\ Diagnostico.resultados d = firstn 10 out
       /\ (length (Diagnostico.resultados d) <= 10)%nat.
Proof.
  eexists. eexists. split; [vm_compute; reflexivity |].
  eapply (criar_novo_do_motor CONFIG (novo_engine [quarenta; flu])).
  - apply cache_ordenado_novo.
  - vm_compute. reflexivity.
Defined.

(** ** The list of all symptoms *)

Lemma insert_sorted_Permutation (x : string) (l : list string) :
  Permutation (Py.insert_sorted x l) (x :: l).
Proof.
  induction l as [| y l IH]; simpl; [reflexivity |].
  destruct (String.leb x y); [reflexivity |].
  rewrite IH. apply perm_swap.
Qed.

Lemma py_sorted_Permutation (l : list string) : Permutation (Py.sorted l) l.
Proof.
  induction l as [| x l IH]; simpl; [reflexivity |].
  rewrite insert_sorted_Permutation. now constructor.
Qed.

Lemma insert_sorted_sorted (x : string) (l : list string) :
  StronglySorted (fun a b => String.leb a b = true) l ->
  StronglySorted (fun a b => String.leb a b = true) (Py.insert_sorted x l).
Proof.
  induction 1 as [| y l Hl IH Hy]; simpl.
  - repeat constructor.
  - destruct (String.leb x y) eqn:E.
    + constructor; [now constructor |].
      constructor; [exact E |].
      eapply List.Forall_impl; [| exact Hy].
      intros z Hz. exact (string_leb_trans _ _ _ E Hz).
    + constructor; [exact IH |].
      apply List.Forall_forall. intros z Hz.
      apply (Permutation_in _ (insert_sorted_Permutation x l)) in Hz.
      destruct Hz as [<- | Hz].
      * destruct (String.leb_total x y); congruence.
      * rewrite List.Forall_forall in Hy. now apply Hy.
Qed.

Lemma py_sorted_sorted (l : list string) :
  StronglySorted (fun a b => String.leb a b = true) (Py.sorted l).
Proof.
  induction l as [| x l IH]; simpl; [constructor |].
  now apply insert_sorted_sorted.
Qed.

Lemma leb_ne_ltb (a b : string) :
  String.leb a b = true -> a <> b -> String.ltb a b = true.
Proof.
  unfold String.leb, String.ltb. intros H Hne.
  destruct (String.compare a b) eqn:E; try easy.
  apply String.compare_eq_iff in E. contradiction.
Qed.

Lemma sorted_NoDup_strict (l : list string) :
  List.NoDup l ->
  StronglySorted (fun a b => String.leb a b = true) l ->
  StronglySorted (fun a b => String.ltb a b = true) l.
Proof.
  induction 2 as [| x l Hl IH Hx]; [constructor |].
  apply List.NoDup_cons_iff in H as [Hnx Hnd].
  constructor; [now apply IH |].
  apply List.Forall_forall. intros y Hy.
  rewrite List.Forall_forall in Hx.
  apply leb_ne_ltb; [now apply Hx |]. intros ->. contradiction.
Qed.

Lemma set_add_In (x n : string) (s : list string) :
  In n (Database.set_add x s) <-> n = x \/ In n s.
Proof.
  unfold Database.set_add. destruct (Py.contains s x) eqn:E.
  - apply contains_In in E. split; [tauto |]. intros [-> | H]; assumption.
  - rewrite in_app_iff. simpl. intuition.
Qed.

Lemma set_add_NoDup (x : string) (s : list string) :
  List.NoDup s -> List.NoDup (Database.set_add x s).
Proof.
  intros H. unfold Database.set_add. destruct (Py.contains s x) eqn:E.
  - exact H.
  - apply contains_not_In in E.
    apply (Permutation_NoDup (l := x :: s)).
    + apply Permutation_cons_append.
    + now constructor.
Qed.

Lemma nome_de_raise (x : sintoma_json) (e : exn) :
  nome_de x = Raise e -> e = KeyError "s".
Proof.
  destruct x as [[s |] peso | texto]; simpl; intros H; try discriminate.
  now injection H as <-.
Qed.

Lemma coletar_sintomas_certa (l : list sintoma_json) (s : list string) :
  List.NoDup s -> coleta_certa l s (Database.coletar_sintomas l s).
Proof.
  revert s. induction l as [| x l IH]; intros s Hs; simpl.
  - split; [exact Hs |]. split.
    + intros n. split; [tauto |]. intros [H | (x & [] & _)]. exact H.
    + intros x [].
  - destruct (nome_de x) as [n |e] eqn:E; cbn [bind].
    + specialize (IH (Database.set_add n s) (set_add_NoDup n s Hs)).
      unfold coleta_certa in *.
      destruct (Database.coletar_sintomas l (Database.set_add n s))
        as [depois | e].
      * destruct IH as (ND & Hin & Hall). split; [exact ND |]. split.
        -- intros m. rewrite Hin, set_add_In. split.
           ++ intros [[-> | H] | (y & Hy & Ey)].
              ** right. exists x. split; [now left | exact E].
              ** now left.
              ** right. exists y. split; [now right | exact Ey].
           ++ intros [H | (y & [<- | Hy] & Ey)].
              ** left. now right.
              ** left. left. congruence.
              ** right. now exists y.
        -- intros y [<- | Hy]; [now exists n | now apply Hall].
      * destruct IH as (-> & y & Hy & Ey). split; [reflexivity |].
        exists y. split; [now right | exact Ey].
    + pose proof (nome_de_raise x e E) as ->.
      split; [reflexivity |]. exists x. split; [now left | exact E].
Qed.

Lemma coletar_doencas_certa (ds : list Doenca) (s : list string) :
  List.NoDup s ->
  coleta_certa (flat_map sintomas ds) s (Database.coletar_doencas ds s).
Proof.
  revert s. induction ds as [| d ds IH]; intros s Hs; simpl.
  - split; [exact Hs |]. split.
    + intros n. split; [tauto |]. intros [H | (x & [] & _)]. exact H.
    + intros x [].
  - pose proof (coletar_sintomas_certa (sintomas d) s Hs) as C.
    destruct (Database.coletar_sintomas (sintomas d) s) as [s1 | e];
      cbn [bind].
    + destruct C as (ND1 & Hin1 & Hall1).
      specialize (IH s1 ND1). unfold coleta_certa in *.
      destruct (Database.coletar_doencas ds s1) as [depois | e].
      * destruct IH as (ND & Hin & Hall). split; [exact ND |]. split.
        -- intros m. rewrite Hin, Hin1. split.
           ++ intros [[H | (y & Hy & Ey)] | (y & Hy & Ey)].
              ** now left.
              ** right. exists y. rewrite in_app_iff. tauto.
              ** right. exists y. rewrite in_app_iff. tauto.
           ++ intros [H | (y & Hy & Ey)].
              ** left. now left.
              ** apply in_app_iff in Hy as [Hy | Hy].
                 --- left. right. now exists y.
                 --- right. now exists y.
        -- intros y Hy. apply in_app_iff in Hy as [Hy | Hy]; auto.
      * destruct IH as (-> & y & Hy & Ey). split; [reflexivity |].
        exists y. rewrite in_app_iff. tauto.
    + destruct C as (-> & y & Hy & Ey). split; [reflexivity |].
      exists y. rewrite in_app_iff. tauto.
Qed.

(** X17: on a catalog in the catalog format (every condition has a list
    of symptom entries, and the names of the entries are strings),
    [obter_sintomas_unicos] returns the names of the symptom entries of
    all conditions, each once, in strictly ascending order; it returns
    when every entry has a name, and raises [KeyError] for ["s"] when a
    dict entry has none. *)
Theorem obter_sintomas_unicos_spec (self : Database.t) :
  match Database.obter_sintomas_unicos self with
  | Ok l =>
      StronglySorted (fun a b => String.ltb a b = true) l
      /\ (forall n, In n l
            <-> exists d x, In d (Database.doencas self)
                  /\ In x (sintomas d) /\ nome_de x = Ok n)
      /\ forall d x, In d (Database.doencas self) -> In x (sintomas d) ->
           exists n, nome_de x = Ok n
  | Raise e =>
      e = KeyError "s"
      /\ exists d x, In d (Database.doencas self)
           /\ In x (sintomas d) /\ nome_de x = Raise (KeyError "s")
  end.
Proof.
  unfold Database.obter_sintomas_unicos.
  pose proof (coletar_doencas_certa (Database.doencas self) []
                (List.NoDup_nil _)) as C.
  destruct (Database.coletar_doencas (Database.doencas self) [])
    as [s | e]; cbn [bind].
  - destruct C as (ND & Hin & Hall). split; [| split].
    + apply sorted_NoDup_strict; [| apply py_sorted_sorted].
      apply (Permutation_NoDup (l := s)); [| exact ND].
      symmetry. apply py_sorted_Permutation.
    + intros n. split.
      * intros H. apply (Permutation_in _ (py_sorted_Permutation s)) in H.
        apply Hin in H as [[] | (x & Hx & Ex)].
        apply in_flat_map in Hx as (d & Hd & Hx). now exists d, x.
      * intros (d & x & Hd & Hx & Ex).
        apply (Permutation_in _ (Permutation_sym (py_sorted_Permutation s))).
        apply Hin. right. exists x. split; [| exact Ex].
        apply in_flat_map. now exists d.
    + intros d x Hd Hx. apply Hall. apply in_flat_map. now exists d.
  - destruct C as (-> & x & Hx & Ex). split; [reflexivity |].
    apply in_flat_map in Hx as (d & Hd & Hx). now exists d, x.
Qed.

Lemma obter_sintomas_unicos_spec_witness :
  match Database.obter_sintomas_unicos
          {| Database.pacientes := []; Database.historico := [];
             Database.doencas := [flu; quarenta] |} with
  | Ok l =>
      StronglySorted (fun a b => String.ltb a b = true) l
      /\ (forall n, In n l
            <-> exists d x, In d [flu; quarenta]
                  /\ In x (sintomas d) /\ nome_de x = Ok n)
      /\ forall d x, In d [flu; quarenta] -> In x (sintomas d) ->
           exists n, nome_de x = Ok n
  | Raise e =>
      e = KeyError "s"
      /\ exists d x, In d [flu; quarenta]
           /\ In x (sintomas d) /\ nome_de x = Raise (KeyError "s")
  end.
Proof.
  exact (obter_sintomas_unicos_spec
           {| Database.pacientes := []; Database.historico := [];
              Database.doencas := [flu; quarenta] |}).
Defined.

(** ** Patients *)

Lemma cpfs_ativos_cons (k : string) (p : Paciente.t)
    (ps : Py.dict Paciente.t) :
  Database.cpfs_ativos ((k, p) :: ps)
  = (if Paciente.ativo p && negb (String.eqb (Paciente.cpf p) "")
     then [Paciente.cpf p] else []) ++ Database.cpfs_ativos ps.
Proof.
  unfold Database.cpfs_ativos. simpl.
  destruct (Paciente.ativo p && negb (String.eqb (Paciente.cpf p) ""));
    reflexivity.
Qed.

Lemma cpfs_ativos_dict_set_In (k : string) (p : Paciente.t)
    (ps : Py.dict Paciente.t) (c : string) :
  In c (Database.cpfs_ativos (Py.dict_set k p ps)) ->
  c = Paciente.cpf p \/ In c (Database.cpfs_ativos ps).
Proof.
  induction ps as [| [k' p'] ps IH]; simpl Py.dict_set.
  - rewrite cpfs_ativos_cons. intros H. apply in_app_iff in H as [H | []].
    destruct (_ && _); [destruct H as [<- | []]; now left | destruct H].
  - destruct (String.eqb k k').
    + rewrite !cpfs_ativos_cons, !in_app_iff. intros [H | H]; [| tauto].
      destruct (Paciente.ativo p && _); [| destruct H].
      destruct H as [<- | []]. now left.
    + rewrite !cpfs_ativos_cons, !in_app_iff. intros [H | H]; [tauto |].
      apply IH in H. tauto.
Qed.

Lemma cpfs_ativos_dict_set_NoDup (k : string) (p : Paciente.t)
    (ps : Py.dict Paciente.t) :
  ~ In (Paciente.cpf p) (Database.cpfs_ativos ps) ->
  List.NoDup (Database.cpfs_ativos ps) ->
  List.NoDup (Database.cpfs_ativos (Py.dict_set k p ps)).
Proof.
  induction ps as [| [k' p'] ps IH]; simpl Py.dict_set; intros Hn Hd.
  - rewrite cpfs_ativos_cons. destruct (_ && _); simpl.
    + constructor; [intros [] | constructor].
    + constructor.
  - rewrite cpfs_ativos_cons in Hn, Hd.
    destruct (String.eqb k k').
    + rewrite cpfs_ativos_cons.
      apply List.NoDup_app_remove_l in Hd as Hd'.
      destruct (Paciente.ativo p && _); simpl; [| exact Hd'].
      constructor; [| exact Hd'].
      intros H. apply Hn. apply in_app_iff. now right.
    + rewrite cpfs_ativos_cons.
      assert (Hn' : ~ In (Paciente.cpf p) (Database.cpfs_ativos ps))
        by (intros H; apply Hn, in_app_iff; now right).
      assert (Hd' : List.NoDup (Database.cpfs_ativos ps))
        by now apply List.NoDup_app_remove_l in Hd.
      specialize (IH Hn' Hd').
      destruct (Paciente.ativo p' && _) eqn:A; simpl in *; [| exact IH].
      constructor; [| exact IH].
      intros H. apply cpfs_ativos_dict_set_In in H as [H | H].
      * apply Hn. left. exact H.
      * now apply List.NoDup_cons_iff in Hd as [Hd _].
Qed.

Lemma cpf_ja_cadastrado_false (self : Database.t) (p : Paciente.t) :
  Database.cpf_ja_cadastrado self p = false ->
  Paciente.cpf p = ""%string
  \/ ~ In (Paciente.cpf p) (Database.cpfs_ativos (Database.pacientes self)).
Proof.
  unfold Database.cpf_ja_cadastrado, Database.cpfs_ativos.
  destruct (String.eqb_spec (Paciente.cpf p) "") as [E | Hne]; [now left |].
  simpl. intros H. right. intros Hin.
  apply in_map_iff in Hin as (e & Ec & He).
  apply filter_In in He as [He Ha]. apply andb_true_iff in Ha as [Ha _].
  assert (X : existsb
                (fun existing =>
                   String.eqb (Paciente.cpf existing) (Paciente.cpf p)
                   && Paciente.ativo existing)
                (map snd (Database.pacientes self)) = true).
  { apply existsb_exists. exists e. split; [exact He |].
    rewrite Ec, String.eqb_refl, Ha. reflexivity. }
  congruence.
Qed.

Lemma adicionar_paciente_aux (salvou : bool) (self : Database.t)
    (p : Paciente.t) :
  List.NoDup (Database.cpfs_ativos (Database.pacientes self)) ->
  match Database.adicionar_paciente salvou self p with
  | Ok (b, self') =>
      b = salvou
      /\ List.NoDup (Database.cpfs_ativos (Database.pacientes self'))
      /\ Py.dict_get (Paciente.id p) (Database.pacientes self') = Some p
      /\ (forall k, k <> Paciente.id p ->
            Py.dict_get k (Database.pacientes self')
            = Py.dict_get k (Database.pacientes self))
  | Raise e =>
      e = ValueError
      /\ Paciente.cpf p <> ""%string
      /\ exists k existing,
           In (k, existing) (Database.pacientes self)
           /\ Paciente.cpf existing = Paciente.cpf p
           /\ Paciente.ativo existing = true
  end.
Proof.
  intros ND. unfold Database.adicionar_paciente.
  destruct (Database.cpf_ja_cadastrado self p) eqn:C.
  - split; [reflexivity |].
    unfold Database.cpf_ja_cadastrado in C.
    apply andb_true_iff in C as [C1 C2].
    split.
    + intros E. rewrite E in C1. discriminate.
    + apply existsb_exists in C2 as (e & He & Hc).
      apply andb_true_iff in Hc as [Hc Ha]. apply String.eqb_eq in Hc.
      apply in_map_iff in He as ([k e'] & <- & Hk).
      now exists k, e'.
  - cbn [Database.pacientes]. split; [reflexivity |]. split; [| split].
    + destruct (cpf_ja_cadastrado_false self p C) as [E | Hn].
      * clear C. induction (Database.pacientes self) as [| [k' p'] ps IH];
          simpl Py.dict_set.
        -- rewrite cpfs_ativos_cons, E. simpl.
           rewrite andb_false_r. constructor.
        -- rewrite cpfs_ativos_cons in ND.
           destruct (String.eqb (Paciente.id p) k').
           ++ rewrite cpfs_ativos_cons, E. simpl. rewrite andb_false_r.
              now apply List.NoDup_app_remove_l in ND.
           ++ assert (ND' : List.NoDup (Database.cpfs_ativos ps))
                by now apply List.NoDup_app_remove_l in ND.
              specialize (IH ND'). rewrite cpfs_ativos_cons.
              destruct (Paciente.ativo p' && _) eqn:A; simpl in *;
                [| exact IH].
              constructor; [| exact IH].
              intros H. apply cpfs_ativos_dict_set_In in H as [H | H].
              ** rewrite E in H. rewrite H in A. simpl in A.
                 rewrite andb_false_r in A. discriminate.
              ** now apply List.NoDup_cons_iff in ND as [ND _].
      * now apply cpfs_ativos_dict_set_NoDup.
    + apply dict_get_set.
    + intros k Hk. now apply dict_get_set_ne.
Qed.

Lemma cpf_ja_cadastrado_true (self : Database.t) (p : Paciente.t) :
  Database.cpf_ja_cadastrado self p = true <-> cpf_em_uso self p.
Proof.
  unfold Database.cpf_ja_cadastrado, cpf_em_uso. split.
  - intros C. apply andb_true_iff in C as [C1 C2]. split.
    + intros E. rewrite E in C1. discriminate.
    + apply existsb_exists in C2 as (e & He & Hc).
      apply andb_true_iff in Hc as [Hc Ha]. apply String.eqb_eq in Hc.
      apply in_map_iff in He as ([k e'] & <- & Hk).
      now exists k, e'.
  - intros (Hne & k & e & Hin & Hc & Ha). apply andb_true_iff. split.
    + destruct (String.eqb_spec (Paciente.cpf p) ""); [contradiction |].
      reflexivity.
    + apply existsb_exists. exists e. split.
      * apply in_map_iff. now exists (k, e).
      * rewrite Hc, String.eqb_refl, Ha. reflexivity.
Qed.

(** X18: [adicionar_paciente] raises, a [ValueError], exactly when the
    new patient has a CPF and an active patient of the database has the
    same, be the new patient active or not.  In every other case it
    stores the patient under its id, in place of the patient that had
    this id if there was one, changes nothing else of the database, and
    returns what the write of the file returned.  So the call keeps the
    CPFs of the active patients distinct. *)
Theorem adicionar_paciente_spec (salvou : bool) (self : Database.t)
    (p : Paciente.t) :
  (Database.adicionar_paciente salvou self p = Raise ValueError
   <-> cpf_em_uso self p)
  /\ (forall e, Database.adicionar_paciente salvou self p = Raise e ->
        e = ValueError)
  /\ (~ cpf_em_uso self p ->
      Database.adicionar_paciente salvou self p
      = Ok (salvou,
            {| Database.pacientes :=
                 Py.dict_set (Paciente.id p) p (Database.pacientes self);
               Database.historico := Database.historico self;
               Database.doencas := Database.doencas self |})
      /\ Py.dict_get (Paciente.id p)
           (Py.dict_set (Paciente.id p) p (Database.pacientes self))
         = Some p
      /\ (forall k, k <> Paciente.id p ->
            Py.dict_get k
              (Py.dict_set (Paciente.id p) p (Database.pacientes self))
            = Py.dict_get k (Database.pacientes self))
      /\ (List.NoDup (Database.cpfs_ativos (Database.pacientes self)) ->
          List.NoDup
            (Database.cpfs_ativos
               (Py.dict_set (Paciente.id p) p (Database.pacientes self))))).
Proof.
  pose proof (cpf_ja_cadastrado_true self p) as T.
  unfold Database.adicionar_paciente.
  destruct (Database.cpf_ja_cadastrado self p) eqn:C.
  - split; [| split].
    + split; [intros _; now apply T | reflexivity].
    + intros e H. now injection H as <-.
    + intros H. exfalso. apply H. now apply T.
  - assert (N : ~ cpf_em_uso self p).
    { intros H. apply T in H. discriminate. }
    split; [| split].
    + split; [discriminate | intros H; contradiction].
    + intros e H. discriminate.
    + intros _. split; [reflexivity |]. split; [apply dict_get_set |].
      split; [intros k Hk; now apply dict_get_set_ne |].
      intros ND. pose proof (adicionar_paciente_aux salvou self p ND) as A.
      unfold Database.adicionar_paciente in A. rewrite C in A.
      cbn [Database.pacientes] in A. exact (proj1 (proj2 A)).
Qed.

Lemma adicionar_paciente_spec_witness :
  Database.adicionar_paciente true database_ana
    (paciente_de "p2" "Bia" "111.222.333-44" false)
  = Raise ValueError
  /\ Database.adicionar_paciente true database_ana
       (paciente_de "p2" "Bia" "999.888.777-66" true)
     = Ok (true,
           {| Database.pacientes :=
                [("p1"%string, paciente_de "p1" "Ana" "111.222.333-44" true);
                 ("p2"%string, paciente_de "p2" "Bia" "999.888.777-66" true)];
              Database.historico := [];
              Database.doencas := [flu] |}).
Proof.
  split.
  - apply (proj1 (adicionar_paciente_spec true database_ana
                    (paciente_de "p2" "Bia" "111.222.333-44" false))).
    split; [discriminate |].
    exists "p1"%string, (paciente_de "p1" "Ana" "111.222.333-44" true).
    split; [left; reflexivity |]. split; reflexivity.
  - reflexivity.
Defined.

(* ===================================================================== *)
(** * The colour of a percentage                                          *)
(* ===================================================================== *)

Lemma float_ge_int_mono (a b : F64.float) (n : Z) :
  F64.leb a b = true -> float_ge_int a n = true -> float_ge_int b n = true.
Proof.
  destruct a, b; simpl; intros H1 H2; try easy. lia.
Qed.

Lemma float_ge_int_limiares (x : F64.float) :
  float_ge_int x 75 = true -> float_ge_int x 40 = true.
Proof.
  pose proof one_ulps_pos.
  destruct x; simpl; intros H1; try easy. lia.
Qed.

(** X19: [porcentagem_cor] is monotone: a percentage that is at least
    another one never gets a lower class of the three (["baixa"],
    ["media"], ["alta"]); and a percentage gets ["alta"] exactly from 75
    on and ["baixa"] exactly below 40 (or when it is NaN). *)
Theorem porcentagem_cor_monotona (a b : F64.float) :
  F64.leb a b = true ->
  (porcentagem_cor a = "alta"%string -> porcentagem_cor b = "alta"%string)
  /\ (porcentagem_cor b = "baixa"%string -> porcentagem_cor a = "baixa"%string)
  /\ (porcentagem_cor a = "alta"%string <-> float_ge_int a 75 = true)
  /\ (porcentagem_cor a = "baixa"%string <-> float_ge_int a 40 = false).
Proof.
  intros H. unfold porcentagem_cor.
  pose proof (float_ge_int_mono a b 75 H) as M75.
  pose proof (float_ge_int_mono a b 40 H) as M40.
  pose proof (float_ge_int_limiares a) as La.
  pose proof (float_ge_int_limiares b) as Lb.
  destruct (float_ge_int a 75), (float_ge_int a 40),
    (float_ge_int b 75), (float_ge_int b 40);
    repeat split; intros; try discriminate; try reflexivity; auto;
    try (specialize (M75 eq_refl); discriminate);
    try (specialize (M40 eq_refl); discriminate);
    try (specialize (La eq_refl); discriminate);
    try (specialize (Lb eq_refl); discriminate).
Qed.

Lemma porcentagem_cor_monotona_witness :
  (porcentagem_cor (F64.of_dec 399 10) = "alta"%string ->
   porcentagem_cor (F64.of_Z 75) = "alta"%string)
  /\ (porcentagem_cor (F64.of_Z 75) = "baixa"%string ->
      porcentagem_cor (F64.of_dec 399 10) = "baixa"%string)
  /\ (porcentagem_cor (F64.of_dec 399 10) = "alta"%string
      <-> float_ge_int (F64.of_dec 399 10) 75 = true)
  /\ (porcentagem_cor (F64.of_dec 399 10) = "baixa"%string
      <-> float_ge_int (F64.of_dec 399 10) 40 = false).
Proof.
  apply (porcentagem_cor_monotona (F64.of_dec 399 10) (F64.of_Z 75)).
  vm_compute. reflexivity.
Defined.

(* ===================================================================== *)
(** * Loading the catalog through the cache                               *)
(* ===================================================================== *)

Lemma processar_dados_Ok (data : DadosArquivo) :
  exists l, Loader._processar_dados data = Ok l.
Proof.
  unfold Loader._processar_dados.
  destruct (processar_carregar_secao "físico" "fisica" (secao fisicas data)
              [] []) as (l1 & E1 & M1 & F1); [constructor | constructor |].
  rewrite E1. cbn [bind].
  destruct (processar_carregar_secao "psicológico" "mental"
              (secao mentais data) l1 _ M1 F1) as (l2 & E2 & _).
  now exists l2.
Qed.

Lemma save_to_cache_forma {A : Type} (now : F64.float)
    (self s1 : DataManager.t A) (key : string) (d : A) :
  DataManager._save_to_cache now self key d = Ok s1 ->
  exists kept,
    s1 = DataManager.with_cache self
           (Py.dict_set key
              {| DataManager.data := d; DataManager.timestamp := now;
                 DataManager.hits := 1 |} kept).
Proof.
  unfold DataManager._save_to_cache. intros S.
  destruct (_ >=? _).
  - destruct (Py.min_by _ _) as [lru | e]; [| discriminate].
    cbn [bind] in S. apply Ok_inj in S. eexists. symmetry. exact S.
  - cbn [bind] in S. apply Ok_inj in S. eexists. symmetry. exact S.
Qed.

Lemma save_to_cache_Ok {A : Type} (now : F64.float) (self : DataManager.t A)
    (key : string) (d : A) :
  1 <= DataManager.cache_max_size self ->
  exists s1, DataManager._save_to_cache now self key d = Ok s1.
Proof.
  intros Hmax. unfold DataManager._save_to_cache.
  destruct (Z.geb_spec (Z.of_nat (length (DataManager.cache self)))
              (DataManager.cache_max_size self)) as [Hfull | Hroom].
  - destruct (DataManager.cache self) as [| kv c] eqn:C.
    + simpl in Hfull. lia.
    + cbn [Py.min_by bind]. eexists. reflexivity.
  - cbn [bind]. eexists. reflexivity.
Qed.

(** X20: when the file is an object that has the key ["doencas"] and
    [_processar_dados] returns the records [l] for it, a forced
    [carregar_banco] succeeds (the cache holding at least one entry) and
    returns [l].  Until [cache_ttl] seconds after that, an unforced call
    returns the same records without looking at the file, whatever has
    become of it; from then on the file is read again, and a missing
    file is reported. *)
Theorem carregar_banco_cache (json_file : string) (t0 t1 : F64.float)
    (secoes : SecoesArquivo) (l : list DoencaDict)
    (self : DataManager.t (list DoencaDict)) :
  1 <= DataManager.cache_max_size self ->
  Loader._processar_dados (Some secoes) = Ok l ->
  exists self1,
    Loader.carregar_banco json_file t0 t1 (Json (Objeto (Some secoes))) true
         self = ((true, l, []), self1)
    /\ (forall json_file' ta tb arquivo',
          Py.float_lt_int (F64.sub ta t1) (DataManager.cache_ttl self) = true ->
          fst (Loader.carregar_banco json_file' ta tb arquivo' false self1)
          = (true, l, []))
    /\ (forall json_file' ta tb,
          Py.float_lt_int (F64.sub ta t1) (DataManager.cache_ttl self) = false ->
          fst (Loader.carregar_banco json_file' ta tb ArquivoAusente false
                 self1)
          = (false, [], [ArquivoNaoEncontrado json_file'])).
Proof.
  intros Hmax El.
  destruct (save_to_cache_Ok t1 self "banco_dados" l Hmax) as [s1 Es].
  exists s1.
  destruct (save_to_cache_forma t1 self s1 "banco_dados" l Es) as [kept ->].
  split; [| split].
  - unfold Loader.carregar_banco. cbn [fst snd validate_json_structure
      negb]. rewrite El. cbn [bind]. rewrite Es. cbn [bind]. reflexivity.
  - intros json_file' ta tb arquivo' Hta.
    unfold Loader.carregar_banco, DataManager._get_from_cache.
    cbn [DataManager.cache DataManager.with_cache DataManager.cache_ttl].
    rewrite dict_get_set.
    cbn [DataManager.timestamp DataManager.data]. rewrite Hta.
    reflexivity.
  - intros json_file' ta tb Hta.
    unfold Loader.carregar_banco, DataManager._get_from_cache.
    cbn [DataManager.cache DataManager.with_cache DataManager.cache_ttl].
    rewrite dict_get_set.
    cbn [DataManager.timestamp DataManager.data]. rewrite Hta.
    reflexivity.
Qed.

Lemma carregar_banco_cache_witness :
  exists l self1,
    map nome_do_registro l = ["Gripe"%string]
    /\ Loader.carregar_banco "sintomas.json" (F64.of_Z 1000) (F64.of_Z 1001)
         (Json (Objeto arquivo_exemplo)) true (DataManager.novo CONFIG)
       = ((true, l, []), self1)
    /\ (forall json_file' ta tb arquivo',
          Py.float_lt_int (F64.sub ta (F64.of_Z 1001))
            (DataManager.cache_ttl
               (DataManager.novo CONFIG : DataManager.t (list DoencaDict)))
          = true ->
          fst (Loader.carregar_banco json_file' ta tb arquivo' false self1)
          = (true, l, []))
    /\ (forall json_file' ta tb,
          Py.float_lt_int (F64.sub ta (F64.of_Z 1001))
            (DataManager.cache_ttl
               (DataManager.novo CONFIG : DataManager.t (list DoencaDict)))
          = false ->
          fst (Loader.carregar_banco json_file' ta tb ArquivoAusente false
                 self1)
          = (false, [], [ArquivoNaoEncontrado json_file'])).
Proof.
  destruct (carregar_banco_cache "sintomas.json" (F64.of_Z 1000)
              (F64.of_Z 1001)
              {| fisicas := Some [ItemDict gripe_arquivo; ItemOutro];
                 mentais := None |}
              [gripe_normalizada] (DataManager.novo CONFIG))
    as (self1 & H).
  - simpl. lia.
  - vm_compute. reflexivity.
  - exists [gripe_normalizada], self1. split; [reflexivity | exact H].
Defined.

(** X21: with a maximum cache size of zero or less and an empty cache,
    [carregar_banco] cannot load any file: the [ValueError] of
    [_save_to_cache] is caught, and the call reports a failure and
    returns no records, although the file was read and processed. *)
Theorem carregar_banco_sem_cache (json_file : string) (t0 t1 : F64.float)
    (secoes : SecoesArquivo) (force_reload : bool)
    (self : DataManager.t (list DoencaDict)) :
  DataManager.cache self = [] ->
  DataManager.cache_max_size self <= 0 ->
  Loader.carregar_banco json_file t0 t1 (Json (Objeto (Some secoes)))
    force_reload self
  = ((false, [], [ErroAoCarregarExn ValueError]), self).
Proof.
  intros Hc Hmax.
  destruct (processar_dados_Ok (Some secoes)) as [l El].
  unfold Loader.carregar_banco.
  assert (T : (if force_reload then (None, self)
               else DataManager._get_from_cache t0 self "banco_dados")
              = (None, self)).
  { destruct force_reload; [reflexivity |].
    unfold DataManager._get_from_cache. rewrite Hc. reflexivity. }
  rewrite T. cbn [fst snd validate_json_structure negb].
  rewrite El. cbn [bind].
  unfold DataManager._save_to_cache. rewrite Hc. simpl length.
  destruct (Z.geb_spec (Z.of_nat 0) (DataManager.cache_max_size self));
    [reflexivity | lia].
Qed.

Lemma carregar_banco_sem_cache_witness :
  Loader.carregar_banco "sintomas.json" (F64.of_Z 1000) (F64.of_Z 1001)
    (Json (Objeto arquivo_exemplo)) false
    {| DataManager.cache := []; DataManager.cache_ttl := 300;
       DataManager.cache_max_size := 0 |}
  = ((false, [], [ErroAoCarregarExn ValueError]),
     {| DataManager.cache := []; DataManager.cache_ttl := 300;
        DataManager.cache_max_size := 0 |}).
Proof.
  apply (carregar_banco_sem_cache "sintomas.json" (F64.of_Z 1000)
           (F64.of_Z 1001)
           {| fisicas := Some [ItemDict gripe_arquivo; ItemOutro];
              mentais := None |}
           false
           {| DataManager.cache := []; DataManager.cache_ttl := 300;
              DataManager.cache_max_size := 0 |}).
  - reflexivity.
  - simpl. lia.
Defined.

(* ===================================================================== *)
(** * Eligibility and larger queries                                      *)
(* ===================================================================== *)

Lemma filter_contains_length (q q' nomes : list string) :
  (forall n, In n q -> In n q') ->
  (length (List.filter (Py.contains q) nomes)
   <= length (List.filter (Py.contains q') nomes))%nat.
Proof.
  intros H. induction nomes as [| n nomes IH]; simpl; [lia |].
  destruct (Py.contains q n) eqn:E.
  - apply contains_In, H, contains_In in E. rewrite E. simpl. lia.
  - destruct (Py.contains q' n); simpl; lia.
Qed.

(** X22: eligibility is monotone in the query: a condition that passes
    [_verificar_condicoes] for a query passes it for every query that
    holds the same symptoms and more. *)
Theorem verificar_condicoes_monotona (d : Doenca) (q q' : list string) :
  (forall n, In n q -> In n q') ->
  _verificar_condicoes d q = Ok true ->
  _verificar_condicoes d q' = Ok true.
Proof.
  intros Hsub. unfold _verificar_condicoes.
  destruct (forallb (Py.contains q)
              (default [] (sintomas_obrigatorios (condicoes d)))) eqn:F;
    cbn [negb]; [| discriminate].
  assert (F' : forallb (Py.contains q')
                 (default [] (sintomas_obrigatorios (condicoes d))) = true).
  { rewrite forallb_forall in F |- *. intros n Hn.
    apply contains_In, Hsub, contains_In, F, Hn. }
  rewrite F'. cbn [negb].
  destruct (0 <? default 0 (min_sintomas (condicoes d))); [| trivial].
  destruct (mapM nome_de (sintomas d)) as [nomes | e]; cbn [bind];
    [| trivial].
  pose proof (filter_contains_length q q' nomes Hsub) as L.
  destruct (Z.ltb_spec (Z.of_nat (length (List.filter (Py.contains q) nomes)))
              (default 0 (min_sintomas (condicoes d)))); [discriminate |].
  intros _.
  destruct (Z.ltb_spec (Z.of_nat (length (List.filter (Py.contains q') nomes)))
              (default 0 (min_sintomas (condicoes d)))); [lia | reflexivity].
Qed.

Lemma verificar_condicoes_monotona_witness :
  _verificar_condicoes rare ["a"; "b"; "c"]%string = Ok true.
Proof.
  apply (verificar_condicoes_monotona rare ["b"; "a"]%string).
  - simpl. intuition.
  - reflexivity.
Defined.
